(** * Fraud-detection feature pipeline: a shallow embedding

    The development follows four source files:
    - [src/features/feature_engineer.py]  (class [FeatureEngineer]),
    - [src/features/preprocessor.py]      (class [DataPreprocessor]),
    - [api/main.py]                       (endpoint [predict_fraud]),
    - [monitoring/fraud_monitor.py]       (class [FraudMonitor]).

    Conventions of the embedding.
    - A pandas [DataFrame] is an ordered list of labelled columns; labels are
      distinct, as [read_csv] and [DataFrame([dict])] produce them, and
      [df[c]] returns the first column labelled [c].
    - A float64/int64 cell is an exact rational; [None] is NaN.  Arithmetic is
      the exact one (no rounding, no overflow), results are kept in lowest
      terms, and a division by zero yields the non-finite cell [None].
    - Where a statement turns on rounding or overflow, the scaler is embedded
      a second time, on one column of binary64 numbers ([Float64]).
    - A Python exception is a value of [error]; a call that may raise
      returns a [result]. *)

From Stdlib Require Import QArith Qround Qreduction Lqa.
From Stdlib Require OrderedTypeEx.
From Stdlib Require Floats.
From stdpp Require Import base option list sorting strings pretty gmap sets.

Set Default Proof Using "Type".

(** ** Exceptions and the error monad *)

Inductive error : Type :=
  | KeyError (label : string)
  | TypeError
  | ValueError
  | AttributeError
  | NotFittedError.   (* sklearn.exceptions.NotFittedError *)

Inductive result (A : Type) : Type :=
  | Ok (a : A)
  | Err (e : error).
Arguments Ok {A} a.
Arguments Err {A} e.

#[global] Instance result_ret : MRet result := λ A a, Ok a.
#[global] Instance result_bind : MBind result :=
  λ A B f m, match m with Ok a => f a | Err e => Err e end.
#[global] Instance result_fmap : FMap result :=
  λ A B f m, match m with Ok a => Ok (f a) | Err e => Err e end.

Definition raises {A} (m : result A) : Prop := ∃ e, m = Err e.

(** ** Cells *)

Definition Qltb (x y : Q) : bool := negb (Qle_bool y x).

(** A numeric cell: [None] is NaN. *)
Abbreviation cell := (option Q).

Definition of_Z (z : Z) : cell := Some (inject_Z z).
Definition of_bool (b : bool) : cell := of_Z (if b then 1 else 0).

Definition cell_add (x y : cell) : cell :=
  a ← x; b ← y; Some (Qred (a + b)).
Definition cell_sub (x y : cell) : cell :=
  a ← x; b ← y; Some (Qred (a - b)).
Definition cell_mul (x y : cell) : cell :=
  a ← x; b ← y; Some (Qred (a * b)).
Definition cell_div (x y : cell) : cell :=
  a ← x; b ← y; if Qeq_bool b 0 then None else Some (Qred (a / b)).

(** [x > q], [x == q] against a scalar; a comparison with NaN is False. *)
Definition cell_gt (q : Q) (x : cell) : bool :=
  match x with Some a => Qltb q a | None => false end.
Definition cell_ge (q : Q) (x : cell) : bool :=
  match x with Some a => Qle_bool q a | None => false end.
Definition cell_eq (q : Q) (x : cell) : bool :=
  match x with Some a => Qeq_bool a q | None => false end.

(** [int(x)] truncates toward zero. *)
Definition Qtrunc (a : Q) : Z :=
  if Qle_bool 0 a then Qfloor a else Qceiling a.

(** The fields the [.dt] accessor reads off a timestamp. *)
Record Timestamp : Type := mkTimestamp {
  ts_hour : Z;
  ts_dayofweek : Z;
  ts_day : Z
}.

(** ** Series and data frames *)

Inductive Series : Type :=
  | NumCol (xs : list cell)                  (* int64 / float64 *)
  | ObjCol (xs : list (option string))       (* object / category; None is missing *)
  | DtCol (xs : list (option Timestamp)).    (* datetime64; None is NaT *)

Definition series_len (s : Series) : nat :=
  match s with
  | NumCol xs => length xs
  | ObjCol xs => length xs
  | DtCol xs => length xs
  end.

Abbreviation DataFrame := (list (string * Series)).

Definition columns (df : DataFrame) : list string := df.*1.

Fixpoint df_lookup (df : DataFrame) (c : string) : option Series :=
  match df with
  | [] => None
  | (c', s) :: df' => if decide (c' = c) then Some s else df_lookup df' c
  end.

(** [df[c]] *)
Definition df_getitem (df : DataFrame) (c : string) : result Series :=
  match df_lookup df c with
  | Some s => Ok s
  | None => Err (KeyError c)
  end.

(** [df[c] = s]: overwrite in place, or append a new last column. *)
Fixpoint df_setitem (df : DataFrame) (c : string) (s : Series) : DataFrame :=
  match df with
  | [] => [(c, s)]
  | (c', s') :: df' =>
      if decide (c' = c) then (c, s) :: df' else (c', s') :: df_setitem df' c s
  end.

(** [df.drop(columns=cols, errors='ignore')] *)
Definition df_drop (df : DataFrame) (cols : list string) : DataFrame :=
  filter (λ p, p.1 ∉ cols) df.

(** [df.drop(columns=[c])]: raises when [c] is not a column. *)
Definition df_drop_strict (df : DataFrame) (c : string) : result DataFrame :=
  if decide (c ∈ columns df) then Ok (df_drop df [c]) else Err (KeyError c).

(** ** Element-wise operations *)

Definition as_num (s : Series) : result (list cell) :=
  match s with NumCol xs => Ok xs | _ => Err TypeError end.

(** [(s > q).astype(int)] *)
Definition flag_gt (q : Q) (s : Series) : result Series :=
  xs ← as_num s; Ok (NumCol (of_bool ∘ cell_gt q <$> xs)).

(** [(s >= q).astype(int)] *)
Definition flag_ge (q : Q) (s : Series) : result Series :=
  xs ← as_num s; Ok (NumCol (of_bool ∘ cell_ge q <$> xs)).

(** [(s == q).astype(int)]: [==] never raises, it is False on a cell that is
    not a number. *)
Definition flag_eq (q : Q) (s : Series) : Series :=
  match s with
  | NumCol xs => NumCol (of_bool ∘ cell_eq q <$> xs)
  | ObjCol xs => NumCol ((λ _, of_bool false) <$> xs)
  | DtCol xs => NumCol ((λ _, of_bool false) <$> xs)
  end.

(** [s.isin(qs).astype(int)] *)
Definition flag_isin (qs : list Q) (s : Series) : Series :=
  match s with
  | NumCol xs => NumCol ((λ x, of_bool (existsb (λ q, cell_eq q x) qs)) <$> xs)
  | ObjCol xs => NumCol ((λ _, of_bool false) <$> xs)
  | DtCol xs => NumCol ((λ _, of_bool false) <$> xs)
  end.

(** [s * q], [s + q] with a scalar *)
Definition mul_scalar (q : Q) (s : Series) : result Series :=
  xs ← as_num s; Ok (NumCol ((λ x, cell_mul x (Some q)) <$> xs)).
Definition add_scalar (q : Q) (s : Series) : result Series :=
  xs ← as_num s; Ok (NumCol ((λ x, cell_add x (Some q)) <$> xs)).

(** [s1 + s2], [s1 / s2] on two columns of one frame *)
Definition add_series (s1 s2 : Series) : result Series :=
  xs ← as_num s1; ys ← as_num s2; Ok (NumCol (zip_with cell_add xs ys)).
Definition div_series (s1 s2 : Series) : result Series :=
  xs ← as_num s1; ys ← as_num s2; Ok (NumCol (zip_with cell_div xs ys)).

(** [s.astype(int)]: NaN cannot be cast. *)
Definition astype_int (s : Series) : result Series :=
  xs ← as_num s;
  if decide (Forall is_Some xs)
  then Ok (NumCol ((λ x, of_Z (Qtrunc (default 0%Q x))) <$> xs))
  else Err ValueError.

(** ** [pd.cut] with right-closed bins *)

Inductive edge : Type :=
  | Fin (q : Q)
  | PosInf.   (* np.inf *)

Definition edge_lt (e : edge) (x : Q) : bool :=
  match e with Fin q => Qltb q x | PosInf => false end.
Definition le_edge (x : Q) (e : edge) : bool :=
  match e with Fin q => Qle_bool x q | PosInf => true end.

(** The label of the first bin [(lo, hi]] that holds [x]. *)
Fixpoint cut_bins (lo : edge) (bins : list edge) (labels : list string) (x : Q)
  : option string :=
  match bins, labels with
  | hi :: bins', l :: labels' =>
      if edge_lt lo x && le_edge x hi then Some l
      else cut_bins hi bins' labels' x
  | _, _ => None
  end.

Definition cut_cell (bins : list edge) (labels : list string) (x : cell)
  : option string :=
  match bins, x with
  | lo :: rest, Some q => cut_bins lo rest labels q
  | _, _ => None
  end.

(** [pd.cut(s, bins=bins, labels=labels).astype(str)]: a value outside every
    bin is a missing category, which [astype(str)] prints as ["nan"]. *)
Definition cut_str (bins : list edge) (labels : list string) (x : cell) : string :=
  default "nan" (cut_cell bins labels x).

Definition pd_cut_astype_str (bins : list edge) (labels : list string) (s : Series)
  : result Series :=
  xs ← as_num s; Ok (ObjCol (Some ∘ cut_str bins labels <$> xs)).

(** ** External numeric and parsing routines

    [np.log1p], [np.sqrt] and [pd.to_datetime] are library code; the pipeline
    is stated over any implementation of them. *)

Class NumPy : Type := {
  np_log1p : Q → cell;
  np_sqrt : Q → Q
}.

Class Pandas : Type := {
  to_datetime : Series → result Series;
  num_str : Q → string;          (* str(x) of a number *)
  ts_str : Timestamp → string    (* str(x) of a timestamp *)
}.

(** [s.astype(str)]: a missing cell, NaN, prints as ["nan"] (["NaT"] for a
    date).  An object cell that holds Python's [None] prints as ["None"]: it
    is the cell [Some "None"] of the printed column. *)
Definition astype_str `{Pandas} (s : Series) : list string :=
  match s with
  | ObjCol xs => default "nan" <$> xs
  | NumCol xs => from_option num_str "nan" <$> xs
  | DtCol xs => from_option ts_str "NaT" <$> xs
  end.

(** [np.log1p(s)] *)
Definition log1p_series `{NumPy} (s : Series) : result Series :=
  xs ← as_num s; Ok (NumCol ((λ x, x ≫= np_log1p) <$> xs)).

Definition is_datetime64_any_dtype (s : Series) : bool :=
  match s with DtCol _ => true | _ => false end.

(** [s.dt.<field>]: NaT gives NaN; only a datetime column has [.dt]. *)
Definition dt_field (f : Timestamp → Z) (s : Series) : result Series :=
  match s with
  | DtCol xs => Ok (NumCol ((λ x : option Timestamp, x ≫= of_Z ∘ f) <$> xs))
  | _ => Err AttributeError
  end.

(** ** [FeatureEngineer] (src/features/feature_engineer.py) *)

Module FeatureEngineer.

Definition amount_bins : list edge := [Fin 0; Fin 50; Fin 200; Fin 1000; PosInf].
Definition amount_labels : list string := ["very_low"; "low"; "medium"; "high"].

(** One cell of the column [amount_category]. *)
Definition amount_category (amount : cell) : string :=
  cut_str amount_bins amount_labels amount.

Definition create_amount_features `{NumPy} (df : DataFrame) : result DataFrame :=
  amount ← df_getitem df "amount";
  amount_log ← log1p_series amount;
  let df := df_setitem df "amount_log" amount_log in
  amount ← df_getitem df "amount";
  cat ← pd_cut_astype_str amount_bins amount_labels amount;
  let df := df_setitem df "amount_category" cat in
  amount ← df_getitem df "amount";
  avg ← df_getitem df "avg_transaction_amount_30d";
  avg_eps ← add_scalar (1 # 100000) avg;
  ratio ← div_series amount avg_eps;
  Ok (df_setitem df "amount_to_avg_ratio" ratio).

Definition time_bins : list edge := [Fin 0; Fin 6; Fin 12; Fin 18; Fin 24].
Definition time_labels : list string := ["night"; "morning"; "afternoon"; "evening"].
Definition peak_hours : list Q := [8; 9; 10; 17; 18; 19]%Q.

(** The body of [if datetime_col in df.columns:]. *)
Definition temporal_block `{Pandas} (df : DataFrame) (datetime_col : string)
  : result DataFrame :=
  ts ← df_getitem df datetime_col;
  df ← (if is_datetime64_any_dtype ts then Ok df
        else ts ← df_getitem df datetime_col;
             parsed ← to_datetime ts;
             Ok (df_setitem df datetime_col parsed));
  ts ← df_getitem df datetime_col;
  hour ← dt_field ts_hour ts;
  let df := df_setitem df "hour" hour in
  ts ← df_getitem df datetime_col;
  dow ← dt_field ts_dayofweek ts;
  let df := df_setitem df "day_of_week" dow in
  ts ← df_getitem df datetime_col;
  day ← dt_field ts_day ts;
  let df := df_setitem df "day_of_month" day in
  dow ← df_getitem df "day_of_week";
  weekend ← flag_ge 5 dow;
  let df := df_setitem df "is_weekend" weekend in
  hour ← df_getitem df "hour";
  tod ← pd_cut_astype_str time_bins time_labels hour;
  let df := df_setitem df "time_of_day" tod in
  hour ← df_getitem df "hour";
  Ok (df_setitem df "is_peak_hour" (flag_isin peak_hours hour)).

(** [datetime_col] defaults to ['timestamp']. *)
Definition create_temporal_features `{Pandas}
    (df : DataFrame) (datetime_col : string) : result DataFrame :=
  if decide (datetime_col ∈ columns df) then temporal_block df datetime_col
  else Ok df.

Definition gap_bins : list edge := [Fin 0; Fin 10; Fin 60; Fin 300; PosInf].
Definition gap_labels : list string := ["recent"; "normal"; "long_gap"; "very_long"].

Definition create_velocity_features (df : DataFrame) : result DataFrame :=
  n24 ← df_getitem df "num_transactions_24h";
  f24 ← flag_gt 5 n24;
  let df := df_setitem df "is_high_frequency_24h" f24 in
  n7 ← df_getitem df "num_transactions_7d";
  f7 ← flag_gt 20 n7;
  let df := df_setitem df "is_high_frequency_7d" f7 in
  gap ← df_getitem df "time_since_last_transaction";
  cat ← pd_cut_astype_str gap_bins gap_labels gap;
  Ok (df_setitem df "time_since_last_cat" cat).

Definition home_bins : list edge := [Fin 0; Fin 10; Fin 50; Fin 200; PosInf].
Definition home_labels : list string := ["very_close"; "close"; "medium"; "far"].

Definition create_distance_features (df : DataFrame) : result DataFrame :=
  dist ← df_getitem df "distance_from_home";
  cat ← pd_cut_astype_str home_bins home_labels dist;
  let df := df_setitem df "distance_home_cat" cat in
  dist ← df_getitem df "distance_from_home";
  far ← flag_gt 100 dist;
  let df := df_setitem df "is_far_from_home" far in
  last ← df_getitem df "distance_from_last_transaction";
  far_last ← flag_gt 50 last;
  Ok (df_setitem df "is_far_from_last" far_last).

(** [(df.get('is_weekend', 0) * 0.5).astype(int)]: without the column the
    default [0] is a Python number, and [0.0] has no [astype]. *)
Definition weekend_term (df : DataFrame) : result Series :=
  match df_lookup df "is_weekend" with
  | Some w => half ← mul_scalar (1 # 2) w; astype_int half
  | None => Err AttributeError
  end.

(** [(df.get('is_peak_hour', 0) == 0).astype(int)]: without the column
    [0 == 0] is a Python bool, which has no [astype]. *)
Definition offpeak_term (df : DataFrame) : result Series :=
  match df_lookup df "is_peak_hour" with
  | Some p => Ok (flag_eq 0 p)
  | None => Err AttributeError
  end.

Definition create_risk_score (df : DataFrame) : result DataFrame :=
  amount ← df_getitem df "amount";
  high ← flag_gt 1000 amount;
  acc ← mul_scalar 2 high;
  card ← df_getitem df "card_present";
  acc ← add_series acc (flag_eq 0 card);
  dist ← df_getitem df "distance_from_home";
  far ← flag_gt 100 dist;
  acc ← add_series acc far;
  n24 ← df_getitem df "num_transactions_24h";
  freq ← flag_gt 5 n24;
  acc ← add_series acc freq;
  weekend ← weekend_term df;
  acc ← add_series acc weekend;
  offpeak ← offpeak_term df;
  acc ← add_series acc offpeak;
  Ok (df_setitem df "risk_score" acc).

Definition fit_transform `{NumPy} `{Pandas} (df : DataFrame) : result DataFrame :=
  df ← create_amount_features df;
  df ← create_temporal_features df "timestamp";
  df ← create_velocity_features df;
  df ← create_distance_features df;
  create_risk_score df.

End FeatureEngineer.

(** ** [sklearn.preprocessing.LabelEncoder] *)

Module LabelEncoder.

(** Insert into a strictly increasing list, dropping a duplicate. *)
Fixpoint insert_sorted (x : string) (l : list string) : list string :=
  match l with
  | [] => [x]
  | y :: l' =>
      match String.compare x y with
      | Lt => x :: y :: l'
      | Eq => y :: l'
      | Gt => y :: insert_sorted x l'
      end
  end.

(** [np.unique(y)] / [sorted(set(y))]: the distinct values in increasing
    code-point order. *)
Definition np_unique (ys : list string) : list string :=
  foldr insert_sorted [] ys.

(** [np.searchsorted(classes, y)] on sorted [classes]: how many classes are
    strictly below [y]; the position of [y] when it is a class. *)
Definition searchsorted (classes : list string) (y : string) : Z :=
  Z.of_nat (length (filter (λ c, String.ltb c y = true) classes)).

(** [le.fit_transform(y)] returns the fitted [classes_] and the codes. *)
Definition fit_transform (ys : list string) : list string * list Z :=
  let classes := np_unique ys in (classes, searchsorted classes <$> ys).

(** [le.transform(y)] raises on a label that is not a class. *)
Definition transform (classes : list string) (ys : list string) : result (list Z) :=
  if decide (Forall (λ y, y ∈ classes) ys)
  then Ok (searchsorted classes <$> ys)
  else Err ValueError.

End LabelEncoder.

(** [lambda x: le.transform([x])[0] if x in le.classes_ else -1], the lookup
    of [encode_categorical_features] and of [predict_fraud]. *)
Definition encode_or_sentinel (classes : list string) (x : string) : result Z :=
  if decide (x ∈ classes) then
    codes ← LabelEncoder.transform classes [x];
    match codes with c :: _ => Ok c | [] => Err ValueError end
  else Ok (-1)%Z.

(** [s.astype(str).apply(lambda ...)] *)
Definition apply_encoder `{Pandas} (classes : list string) (s : Series) : result Series :=
  codes ← mapM (encode_or_sentinel classes) (astype_str s);
  Ok (NumCol (of_Z <$> codes)).

(** ** [sklearn.preprocessing.StandardScaler] *)

Module StandardScaler.

Inductive t : Type :=
  | Unfitted                                 (* StandardScaler() *)
  | Fitted (mean_ scale_ : list cell).       (* one entry per feature *)

Definition Qsum (xs : list Q) : Q := foldr Qplus 0%Q xs.
Definition count (xs : list Q) : Q := inject_Z (Z.of_nat (length xs)).

(** NaN cells are left out of the statistics. *)
Definition observed (xs : list cell) : list Q := omap id xs.

Definition col_mean (xs : list cell) : cell :=
  match observed xs with
  | [] => None
  | v => Some (Qred (Qsum v / count v))
  end.

Definition col_var (xs : list cell) : cell :=
  m ← col_mean xs;
  let v := observed xs in
  Some (Qred (Qsum ((λ x, (x - m) * (x - m))%Q <$> v) / count v)).

(** [_handle_zeros_in_scale(np.sqrt(var_))]: a zero scale becomes 1.0. *)
Definition handle_zeros_in_scale (s : Q) : Q :=
  if Qeq_bool s 0 then 1%Q else s.

Definition col_scale `{NumPy} (xs : list cell) : cell :=
  v ← col_var xs; Some (handle_zeros_in_scale (np_sqrt v)).

Definition n_samples (X : list (list cell)) : nat :=
  match X with col :: _ => length col | [] => 0 end.

(** [check_array]: at least one feature and one sample. *)
Definition check_array (X : list (list cell)) : result unit :=
  if decide (X = [] ∨ n_samples X = 0) then Err ValueError else Ok ().

Definition fit `{NumPy} (X : list (list cell)) : result t :=
  _ ← check_array X;
  Ok (Fitted (col_mean <$> X) (col_scale <$> X)).

Definition scale_cell (m s x : cell) : cell := cell_div (cell_sub x m) s.

Fixpoint scale_columns (ms ss : list cell) (X : list (list cell)) : list (list cell) :=
  match ms, ss, X with
  | m :: ms', s :: ss', col :: X' =>
      (scale_cell m s <$> col) :: scale_columns ms' ss' X'
  | _, _, _ => []
  end.

Definition transform (sc : t) (X : list (list cell)) : result (list (list cell)) :=
  match sc with
  | Unfitted => Err NotFittedError
  | Fitted ms ss =>
      _ ← check_array X;
      if decide (length X = length ms) then Ok (scale_columns ms ss X)
      else Err ValueError
  end.

End StandardScaler.

(** ** [StandardScaler] on one column of binary64 numbers

    The computation of scikit-learn 1.x on a dense matrix, for the first
    call of [fit] and without sample weights, one feature at a time: the
    mean and the variance of [_incremental_mean_and_var], the mask of
    [_is_constant_feature], the scale of [_handle_zeros_in_scale], and
    [(X - mean_) / scale_] in [transform].  A cell is an IEEE 754 binary64
    number and every operation rounds as the processor does. *)

Module Float64.
Import Floats.
#[local] Open Scope float_scope.

(** [np.sum] over one column.  numpy chooses the order of the additions
    (pairwise, in blocks), so the order is left open; in any order, zeros
    add up to zero. *)
Class Sum : Type := {
  np_sum : list float → float;
  np_sum_zeros (n : nat) : np_sum (replicate (S n) 0) = 0
}.

(** [np.finfo(np.float64).eps] *)
Definition eps : float := 0x1p-52.

(** An int64 count as a float64: the nearest binary64 number. *)
Definition of_count (n : nat) : float :=
  SF2Prim (binary_normalize prec emax (Z.of_nat n) 0 false).

(** [sum_op]: [np.nansum], which adds NaN as zero, when the column that is
    fitted has a NaN cell, and [np.sum] otherwise. *)
Definition nan_to_zero (x : float) : float := if is_nan x then 0 else x.
Definition sum_op `{Sum} (any_nan : bool) (xs : list float) : float :=
  if any_nan then np_sum (nan_to_zero <$> xs) else np_sum xs.

(** [n_samples - np.sum(X_nan_mask)] *)
Definition sample_count (xs : list float) : nat :=
  length (filter (λ x, is_nan x = false) xs).

Record stats : Type := mkStats {
  mean : float;
  var : float;
  n_samples : float
}.

(** [_incremental_mean_and_var(X, 0.0, 0.0, 0)]: [last_sum] is [0.0 * 0], and
    with [last_sample_count == 0] the updated variance is the new one. *)
Definition incremental_mean_and_var `{Sum} (xs : list float) : stats :=
  let any_nan := existsb is_nan xs in
  let new_sum := sum_op any_nan xs in
  let new_sample_count := of_count (sample_count xs) in
  let updated_mean := (0 + new_sum) / new_sample_count in
  let T := new_sum / new_sample_count in
  let temp := (λ x, x - T) <$> xs in
  let correction := sum_op any_nan temp in
  let new_unnormalized_variance :=
    sum_op any_nan ((λ t, t * t) <$> temp)
    - correction * correction / new_sample_count in
  mkStats updated_mean (new_unnormalized_variance / new_sample_count) new_sample_count.

(** [var <= n_samples * eps * var + (n_samples * mean * eps) ** 2] *)
Definition is_constant_feature (s : stats) : bool :=
  var s <=? n_samples s * eps * var s
            + (n_samples s * mean s * eps) * (n_samples s * mean s * eps).

(** [scale[constant_mask] = 1.0] *)
Definition handle_zeros_in_scale (scale : float) (constant_mask : bool) : float :=
  if constant_mask then 1 else scale.

Inductive t : Type :=
  | Unfitted                                   (* StandardScaler() *)
  | Fitted (mean_ var_ scale_ : float).

(** [check_array(force_all_finite="allow-nan")]: no infinite cell, and at
    least one sample. *)
Definition check_array (xs : list float) : result unit :=
  if existsb is_infinity xs then Err ValueError
  else if decide (xs = []) then Err ValueError
  else Ok ().

Definition fit `{Sum} (xs : list float) : result t :=
  _ ← check_array xs;
  let s := incremental_mean_and_var xs in
  Ok (Fitted (mean s) (var s)
        (handle_zeros_in_scale (sqrt (var s)) (is_constant_feature s))).

Definition transform (sc : t) (xs : list float) : result (list float) :=
  match sc with
  | Unfitted => Err NotFittedError
  | Fitted mean_ _ scale_ =>
      _ ← check_array xs;
      Ok ((λ x, (x - mean_) / scale_) <$> xs)
  end.

(** [DataPreprocessor.scale_numeric_features] (lines 97-125) on a frame whose
    [numeric_features] is one column: [xs] is that column, [scaler] is
    [self.scaler] before the call, and the result is [self.scaler] after it
    with the column that is written back. *)
Definition scale_numeric_features `{Sum} (xs : list float) (fit_it : bool)
    (scaler : option t) : option t * result (list float) :=
  if fit_it then
    match fit xs with
    | Ok sc => (Some sc, transform sc xs)
    | Err e => (Some Unfitted, Err e)
    end
  else
    match scaler with
    | Some sc => (scaler, transform sc xs)
    | None => (scaler, Ok xs)
    end.

(** A binary64 number of sign [s] that is not NaN. *)
Definition signed (s : bool) (x : spec_float) : Prop :=
  x = S754_zero s ∨ (∃ m e, x = S754_finite s m e) ∨ x = S754_infinity s.

End Float64.

(** The additions taken in the order of the rows, as numpy takes them on a
    column of fewer than eight rows. *)
Module RowByRow.
Import Floats.

Fixpoint add_all (acc : float) (xs : list float) : float :=
  match xs with
  | [] => acc
  | x :: xs' => add_all (acc + x)%float xs'
  end.

Fixpoint add_all_zeros (n : nat) : add_all 0%float (replicate n 0%float) = 0%float :=
  match n with
  | 0 => eq_refl
  | S n' => add_all_zeros n'
  end.

#[export] Instance sum : Float64.Sum := {|
  Float64.np_sum := add_all 0%float;
  Float64.np_sum_zeros n := add_all_zeros (S n)
|}.

End RowByRow.

(** ** [DataPreprocessor] (src/features/preprocessor.py) *)

Module DataPreprocessor.

Record t : Type := mk {
  target_col : string;
  label_encoders : gmap string (list string);   (* column ↦ classes_ *)
  scaler : option StandardScaler.t;             (* None until first fitted *)
  numeric_features : list string;
  categorical_features : list string;
  features_to_drop : list string
}.

(** [DataPreprocessor(target_col)] *)
Definition init (target : string) : t := mk target ∅ None [] [] [].

(** Methods mutate [self] and may raise: the state survives an exception. *)
Definition M (A : Type) : Type := t → t * result A.

#[global] Instance M_ret : MRet M := λ A a self, (self, Ok a).
#[global] Instance M_bind : MBind M := λ A B f m self,
  match m self with
  | (self', Ok a) => f a self'
  | (self', Err e) => (self', Err e)
  end.

Definition get : M t := λ self, (self, Ok self).
Definition lift {A} (r : result A) : M A := λ self, (self, r).

Definition set_encoder (col : string) (classes : list string) : M unit := λ self,
  (mk (target_col self) (<[col := classes]> (label_encoders self)) (scaler self)
      (numeric_features self) (categorical_features self) (features_to_drop self),
   Ok ()).

Definition set_scaler (sc : StandardScaler.t) : M unit := λ self,
  (mk (target_col self) (label_encoders self) (Some sc)
      (numeric_features self) (categorical_features self) (features_to_drop self),
   Ok ()).

Definition is_number (s : Series) : bool :=
  match s with NumCol _ => true | _ => false end.
Definition is_object (s : Series) : bool :=
  match s with ObjCol _ => true | _ => false end.

Definition identify_feature_types (df : DataFrame) : M unit := λ self,
  let drop_cols := ["transaction_id"; "timestamp"; target_col self] in
  let to_drop := filter (λ col, col ∈ columns df) drop_cols in
  let remaining := filter (λ p, p.1 ∉ to_drop) df in
  (mk (target_col self) (label_encoders self) (scaler self)
      (columns (filter (λ p, is_number p.2 = true) remaining))
      (columns (filter (λ p, is_object p.2 = true) remaining))
      to_drop,
   Ok ()).

(** One turn of [for col in self.categorical_features:]. *)
Definition encode_column `{Pandas} (fit : bool) (df : DataFrame) (col : string)
  : M DataFrame :=
  if decide (col ∈ columns df) then
    if fit then
      s ← lift (df_getitem df col);
      let '(classes, codes) := LabelEncoder.fit_transform (astype_str s) in
      _ ← set_encoder col classes;
      mret (df_setitem df col (NumCol (of_Z <$> codes)))
    else
      self ← get;
      match label_encoders self !! col with
      | Some classes =>
          s ← lift (df_getitem df col);
          encoded ← lift (apply_encoder classes s);
          mret (df_setitem df col encoded)
      | None => mret df
      end
  else mret df.

Fixpoint encode_columns `{Pandas} (fit : bool) (df : DataFrame) (cols : list string)
  : M DataFrame :=
  match cols with
  | [] => mret df
  | col :: cols' => df' ← encode_column fit df col; encode_columns fit df' cols'
  end.

Definition encode_categorical_features `{Pandas} (df : DataFrame) (fit : bool)
  : M DataFrame :=
  self ← get;
  encode_columns fit df (categorical_features self).

(** [df[cols]] handed to sklearn: every label must be a column, and the
    columns must hold numbers. *)
Fixpoint select_numeric (df : DataFrame) (cols : list string) : result (list (list cell)) :=
  match cols with
  | [] => Ok []
  | c :: cols' =>
      s ← df_getitem df c;
      X ← select_numeric df cols';
      match s with NumCol xs => Ok (xs :: X) | _ => Err ValueError end
  end.

(** [df[cols] = X] *)
Fixpoint assign_columns (df : DataFrame) (cols : list string) (X : list (list cell))
  : DataFrame :=
  match cols, X with
  | c :: cols', xs :: X' => assign_columns (df_setitem df c (NumCol xs)) cols' X'
  | _, _ => df
  end.

Definition scale_numeric_features `{NumPy} (df : DataFrame) (fit : bool)
  : M DataFrame :=
  if fit then
    _ ← set_scaler StandardScaler.Unfitted;
    self ← get;
    X ← lift (select_numeric df (numeric_features self));
    sc ← lift (StandardScaler.fit X);
    _ ← set_scaler sc;
    X' ← lift (StandardScaler.transform sc X);
    mret (assign_columns df (numeric_features self) X')
  else
    self ← get;
    match scaler self with
    | Some sc =>
        X ← lift (select_numeric df (numeric_features self));
        X' ← lift (StandardScaler.transform sc X);
        mret (assign_columns df (numeric_features self) X')
    | None => mret df
    end.

(** [if self.target_col in df.columns: ... else: ...] *)
Definition separate_target (df : DataFrame) : M (option Series * DataFrame) :=
  self ← get;
  if decide (target_col self ∈ columns df) then
    y ← lift (df_getitem df (target_col self));
    df_features ← lift (df_drop_strict df (target_col self));
    mret (Some y, df_features)
  else mret (None, df).

(** [print(f"Fraud rate: {y.mean():.2%}")] needs a numeric target. *)
Definition print_fraud_rate (y : option Series) : result unit :=
  match y with
  | Some (NumCol _) | None => Ok ()
  | Some _ => Err TypeError
  end.

Definition fit_transform `{NumPy} `{Pandas} (df : DataFrame)
  : M (DataFrame * option Series) :=
  _ ← identify_feature_types df;
  '(y, df_features) ← separate_target df;
  self ← get;
  let df_features := df_drop df_features (features_to_drop self) in
  df_encoded ← encode_categorical_features df_features true;
  _ ← lift (print_fraud_rate y);
  df_scaled ← scale_numeric_features df_encoded true;
  mret (df_scaled, y).

Definition transform `{NumPy} `{Pandas} (df : DataFrame)
  : M (DataFrame * option Series) :=
  '(y, df_features) ← separate_target df;
  self ← get;
  let df_features := df_drop df_features (features_to_drop self) in
  df_encoded ← encode_categorical_features df_features false;
  df_scaled ← scale_numeric_features df_encoded false;
  mret (df_scaled, y).

End DataPreprocessor.

(** ** [predict_fraud] (api/main.py) *)

Module Api.

Record Transaction : Type := mkTransaction {
  amount : Q;
  merchant_category : string;
  card_present : Z;
  transaction_type : string;
  distance_from_home : Q;
  distance_from_last_transaction : Q;
  time_since_last_transaction : Q;
  customer_age : Z;
  customer_tenure_days : Z;
  avg_transaction_amount_30d : Q;
  num_transactions_24h : Z;
  num_transactions_7d : Z
}.

(** The [Field(...)] bounds of the pydantic model. *)
Definition valid (t : Transaction) : Prop :=
  (0 ≤ card_present t ≤ 1)%Z ∧
  (0 <= distance_from_home t)%Q ∧
  (0 <= distance_from_last_transaction t)%Q ∧
  (0 <= time_since_last_transaction t)%Q ∧
  (18 ≤ customer_age t ≤ 120)%Z ∧
  (0 ≤ customer_tenure_days t)%Z ∧
  (0 <= avg_transaction_amount_30d t)%Q ∧
  (0 ≤ num_transactions_24h t)%Z ∧
  (0 ≤ num_transactions_7d t)%Z.

(** [pd.DataFrame([transaction.dict()])] *)
Definition to_frame (t : Transaction) : DataFrame :=
  [ ("amount", NumCol [Some (amount t)]);
    ("merchant_category", ObjCol [Some (merchant_category t)]);
    ("card_present", NumCol [of_Z (card_present t)]);
    ("transaction_type", ObjCol [Some (transaction_type t)]);
    ("distance_from_home", NumCol [Some (distance_from_home t)]);
    ("distance_from_last_transaction", NumCol [Some (distance_from_last_transaction t)]);
    ("time_since_last_transaction", NumCol [Some (time_since_last_transaction t)]);
    ("customer_age", NumCol [of_Z (customer_age t)]);
    ("customer_tenure_days", NumCol [of_Z (customer_tenure_days t)]);
    ("avg_transaction_amount_30d", NumCol [Some (avg_transaction_amount_30d t)]);
    ("num_transactions_24h", NumCol [of_Z (num_transactions_24h t)]);
    ("num_transactions_7d", NumCol [of_Z (num_transactions_7d t)]) ].

(** The risk-score lines of the endpoint. *)
Definition risk_score (data : DataFrame) : result Series :=
  amount ← df_getitem data "amount";
  high ← flag_gt 1000 amount;
  acc ← mul_scalar 2 high;
  card ← df_getitem data "card_present";
  acc ← add_series acc (flag_eq 0 card);
  dist ← df_getitem data "distance_from_home";
  far ← flag_gt 100 dist;
  acc ← add_series acc far;
  n24 ← df_getitem data "num_transactions_24h";
  freq ← flag_gt 5 n24;
  add_series acc freq.

(** Lines 113-157: the frame of one request at time [now], with the
    engineered columns, before the preprocessor is applied. *)
Definition engineer_features `{NumPy} (transaction : Transaction) (now : Timestamp)
  : result DataFrame :=
  let data := to_frame transaction in
  let data := df_setitem data "timestamp" (DtCol [Some now]) in
  (* amount features *)
  a ← df_getitem data "amount";
  a_log ← log1p_series a;
  let data := df_setitem data "amount_log" a_log in
  a ← df_getitem data "amount";
  cat ← pd_cut_astype_str FeatureEngineer.amount_bins FeatureEngineer.amount_labels a;
  let data := df_setitem data "amount_category" cat in
  a ← df_getitem data "amount";
  avg ← df_getitem data "avg_transaction_amount_30d";
  avg_eps ← add_scalar (1 # 100000) avg;
  ratio ← div_series a avg_eps;
  let data := df_setitem data "amount_to_avg_ratio" ratio in
  (* temporal features *)
  ts ← df_getitem data "timestamp";
  hour ← dt_field ts_hour ts;
  let data := df_setitem data "hour" hour in
  ts ← df_getitem data "timestamp";
  dow ← dt_field ts_dayofweek ts;
  let data := df_setitem data "day_of_week" dow in
  ts ← df_getitem data "timestamp";
  day ← dt_field ts_day ts;
  let data := df_setitem data "day_of_month" day in
  dow ← df_getitem data "day_of_week";
  weekend ← flag_ge 5 dow;
  let data := df_setitem data "is_weekend" weekend in
  hour ← df_getitem data "hour";
  tod ← pd_cut_astype_str FeatureEngineer.time_bins FeatureEngineer.time_labels hour;
  let data := df_setitem data "time_of_day" tod in
  hour ← df_getitem data "hour";
  let data := df_setitem data "is_peak_hour" (flag_isin FeatureEngineer.peak_hours hour) in
  (* velocity features *)
  n24 ← df_getitem data "num_transactions_24h";
  f24 ← flag_gt 5 n24;
  let data := df_setitem data "is_high_frequency_24h" f24 in
  n7 ← df_getitem data "num_transactions_7d";
  f7 ← flag_gt 20 n7;
  let data := df_setitem data "is_high_frequency_7d" f7 in
  gap ← df_getitem data "time_since_last_transaction";
  gap_cat ← pd_cut_astype_str FeatureEngineer.gap_bins FeatureEngineer.gap_labels gap;
  let data := df_setitem data "time_since_last_cat" gap_cat in
  (* distance features *)
  dist ← df_getitem data "distance_from_home";
  home_cat ← pd_cut_astype_str FeatureEngineer.home_bins FeatureEngineer.home_labels dist;
  let data := df_setitem data "distance_home_cat" home_cat in
  dist ← df_getitem data "distance_from_home";
  far ← flag_gt 100 dist;
  let data := df_setitem data "is_far_from_home" far in
  last ← df_getitem data "distance_from_last_transaction";
  far_last ← flag_gt 50 last;
  let data := df_setitem data "is_far_from_last" far_last in
  (* risk score (simplified version) *)
  risk ← risk_score data;
  let data := df_setitem data "risk_score" risk in
  df_drop_strict data "timestamp".

(** The pickled dict of [save_preprocessor], as [predict_fraud] reads it. *)
Record Preprocessor : Type := mkPreprocessor {
  label_encoders : list (string * list string);   (* dict items, in order *)
  scaler : StandardScaler.t;
  numeric_features : list string;
  features_to_drop : list string
}.

(** [for col, encoder in preprocessor['label_encoders'].items(): ...] *)
Fixpoint encode_loop `{Pandas} (encoders : list (string * list string)) (df : DataFrame)
  : result DataFrame :=
  match encoders with
  | [] => Ok df
  | (col, encoder) :: rest =>
      if decide (col ∈ columns df) then
        s ← df_getitem df col;
        encoded ← apply_encoder encoder s;
        encode_loop rest (df_setitem df col encoded)
      else encode_loop rest df
  end.

(** Lines 159-176: [df_processed], the matrix handed to the model. *)
Definition apply_preprocessor `{Pandas} (preprocessor : Preprocessor) (data : DataFrame)
  : result DataFrame :=
  df ← encode_loop (label_encoders preprocessor) data;
  let cols_to_drop := filter (λ col, col ∈ columns df) (features_to_drop preprocessor) in
  let df := df_drop df cols_to_drop in
  let available := filter (λ col, col ∈ columns df) (numeric_features preprocessor) in
  X ← DataPreprocessor.select_numeric df available;
  X' ← StandardScaler.transform (scaler preprocessor) X;
  Ok (DataPreprocessor.assign_columns df available X').

End Api.

(** ** [FraudMonitor.detect_data_drift] (monitoring/fraud_monitor.py) *)

(** [scipy.stats.ks_2samp] is library code: on two samples it returns
    [(statistic, p_value)] or raises. *)
Class SciPy : Type := {
  ks_2samp : Series → Series → result (Q * Q)
}.

(** [s.dropna()] *)
Definition dropna (s : Series) : Series :=
  match s with
  | NumCol xs => NumCol (filter is_Some xs)
  | ObjCol xs => ObjCol (filter is_Some xs)
  | DtCol xs => DtCol (filter is_Some xs)
  end.

Module FraudMonitor.

Record drift_entry : Type := mkEntry {
  feature : string;
  p_value : Q;
  statistic : Q
}.

Record drift_results : Type := mkResults {
  timestamp : string;
  features_with_drift : list drift_entry;
  drift_detected : bool
}.

Record t : Type := mk {
  baseline_data : DataFrame;
  drift_log : list drift_results
}.

(** [list(set(baseline.columns) & set(new_data.columns))] *)
Definition common_cols (baseline new_data : DataFrame) : list string :=
  elements ((list_to_set (columns baseline) : gset string) ∩ list_to_set (columns new_data)).

(** The [try:] block for one column; [Err] stands for any exception. *)
Definition test_column `{SciPy} (baseline new_data : DataFrame) (threshold : Q)
    (col : string) : result (option drift_entry) :=
  b ← df_getitem baseline col;
  let baseline_vals := dropna b in
  n ← df_getitem new_data col;
  let new_vals := dropna n in
  if (0 <? series_len baseline_vals)%nat && (0 <? series_len new_vals)%nat then
    '(stat, p) ← ks_2samp baseline_vals new_vals;
    if Qltb p threshold then Ok (Some (mkEntry col p stat)) else Ok None
  else Ok None.

(** One turn of the loop: a flagged column is appended and sets the flag,
    [except: continue] leaves the results as they are. *)
Definition drift_step `{SciPy} (baseline new_data : DataFrame) (threshold : Q)
    (acc : drift_results) (col : string) : drift_results :=
  match test_column baseline new_data threshold col with
  | Ok (Some e) => mkResults (timestamp acc) (features_with_drift acc ++ [e]) true
  | Ok None => acc
  | Err _ => acc
  end.

(** [threshold] defaults to [0.05]; [now] is [datetime.now().isoformat()]. *)
Definition detect_data_drift `{SciPy} (self : t) (new_data : DataFrame)
    (threshold : Q) (now : string) : t * drift_results :=
  let init := mkResults now [] false in
  let results :=
    foldl (drift_step (baseline_data self) new_data threshold) init
          (common_cols (baseline_data self) new_data) in
  (mk (baseline_data self) (drift_log self ++ [results]), results).

End FraudMonitor.

(** ** The specification's reading of two operations *)

Module Spec.

(** The composite risk score as the specification words it: high amount
    weighs 2; card not present, far from home and high 24h frequency
    weigh 1 each. *)
Definition risk_score (amount : Q) (card_present : Z) (distance_from_home : Q)
    (num_transactions_24h : Z) : Z :=
  ((if Qltb 1000 amount then 2 else 0)
   + (if (card_present =? 0)%Z then 1 else 0)
   + (if Qltb 100 distance_from_home then 1 else 0)
   + (if (5 <? num_transactions_24h)%Z then 1 else 0))%Z.

Definition risk_score_of (t : Api.Transaction) : Z :=
  risk_score (Api.amount t) (Api.card_present t) (Api.distance_from_home t)
             (Api.num_transactions_24h t).

(** Code assignment in order of first appearance: the distinct values in
    the order they are first seen, a value's code being its position. *)
Fixpoint first_seen (seen : list string) (ys : list string) : list string :=
  match ys with
  | [] => seen
  | y :: ys' =>
      if decide (y ∈ seen) then first_seen seen ys' else first_seen (seen ++ [y]) ys'
  end.

Fixpoint position (x : string) (l : list string) : option nat :=
  match l with
  | [] => None
  | y :: l' => if decide (y = x) then Some 0%nat else S <$> position x l'
  end.

Definition first_seen_code (ys : list string) (x : string) : option Z :=
  Z.of_nat <$> position x (first_seen [] ys).

End Spec.

(** ** Library stand-ins for running the pipeline

    Coarse rational implementations of the external routines, used only to
    evaluate the pipeline on concrete inputs; no theorem depends on them. *)

Module Sample.

(** The square root rounded down to three decimals. *)
Definition sqrt3 (q : Q) : Q :=
  (Z.sqrt (Qfloor (q * 1000000)) # 1000)%Q.

(** The (1,1) Padé approximant of [ln (1 + x)]; NaN at and below -1. *)
Definition log1p_pade (x : Q) : cell :=
  if Qle_bool x (-1) then None else Some (Qred (2 * x / (2 + x))).

Definition numpy : NumPy := {| np_log1p := log1p_pade; np_sqrt := sqrt3 |}.

(** No parsing of dates, and [str] only of whole numbers. *)
Definition pandas : Pandas := {|
  to_datetime := λ _, Err ValueError;
  num_str := λ q, pretty (Qfloor q);
  ts_str := λ t, pretty (ts_day t) +:+ "T" +:+ pretty (ts_hour t)
|}.

Definition ecdf (xs : list Q) (t : Q) : Q :=
  (inject_Z (Z.of_nat (length (filter (λ x, Qle_bool x t = true) xs)))
   / inject_Z (Z.of_nat (length xs)))%Q.

Definition Qabs_diff (a b : Q) : Q := if Qle_bool a b then (b - a)%Q else (a - b)%Q.
Definition Qmax_list (xs : list Q) : Q :=
  foldr (λ x m, if Qle_bool m x then x else m) 0%Q xs.

(** The exact Kolmogorov–Smirnov statistic [D], with the stand-in p-value
    [1 - D]; only numbers can be tested. *)
Definition ks (a b : Series) : result (Q * Q) :=
  xs ← as_num a; ys ← as_num b;
  let v := omap id xs in let w := omap id ys in
  let D := Qred (Qmax_list ((λ t, Qabs_diff (ecdf v t) (ecdf w t)) <$> (v ++ w))) in
  Ok (D, Qred (1 - D)).

Definition scipy : SciPy := {| ks_2samp := ks |}.

(** The end-to-end record of the specification. *)
Definition transaction : Api.Transaction := {|
  Api.amount := 1500;
  Api.merchant_category := "online";
  Api.card_present := 0;
  Api.transaction_type := "purchase";
  Api.distance_from_home := 150;
  Api.distance_from_last_transaction := 5;
  Api.time_since_last_transaction := 30;
  Api.customer_age := 40;
  Api.customer_tenure_days := 400;
  Api.avg_transaction_amount_30d := 200;
  Api.num_transactions_24h := 8;
  Api.num_transactions_7d := 25
|}.

(** A Wednesday, the 14th, at 03:00 and at 09:00. *)
Definition night : Timestamp := mkTimestamp 3 2 14.
Definition morning : Timestamp := mkTimestamp 9 2 14.

(** A small training batch. *)
Definition batch : DataFrame :=
  [ ("transaction_id", ObjCol [Some "t1"; Some "t2"; Some "t3"]);
    ("amount", NumCol [Some 20; Some 50; Some 1500]%Q);
    ("merchant_category", ObjCol [Some "gas"; Some "food"; Some "gas"]);
    ("card_present", NumCol [Some 1; Some 1; Some 0]%Q);
    ("avg_transaction_amount_30d", NumCol [Some 5; Some 5; Some 5]%Q);
    ("is_fraud", NumCol [Some 0; Some 0; Some 1]%Q) ].

(** Two batches that lack required raw fields. *)
Definition amounts_only : DataFrame := [("amount", NumCol [Some 10%Q])].
Definition timestamps_only : DataFrame := [("timestamp", DtCol [Some night])].

(** A baseline and a batch whose amounts have moved; [age] has no value
    left in the new batch and [channel] is new. *)
Definition baseline : DataFrame :=
  [ ("amount", NumCol [Some 1; Some 2; Some 3; None]%Q);
    ("age", NumCol [Some 30; Some 40]%Q);
    ("score", NumCol [Some 1; Some 2]%Q) ].
Definition shifted : DataFrame :=
  [ ("amount", NumCol [Some 1001; Some 1002; Some 1003]%Q);
    ("age", NumCol [None; None]);
    ("score", NumCol [Some 1; Some 2]%Q);
    ("channel", ObjCol [Some "web"; Some "app"]) ].

End Sample.

(** ** Vocabulary of the statements *)

(** The order of [sorted] on Python strings: code point by code point. *)
Definition str_lt (a b : string) : Prop := String.compare a b = Lt.

(** What the apply path writes for a category: its fitted code, or -1. *)
Definition sentinel_code (classes : list string) (x : string) : Z :=
  if decide (x ∈ classes) then LabelEncoder.searchsorted classes x else (-1)%Z.

(** Column [col] is tested and its p-value [p] is below the threshold. *)
Definition drifted `{SciPy} (baseline new_data : DataFrame) (threshold : Q)
    (col : string) (stat p : Q) : Prop :=
  ∃ b n, df_lookup baseline col = Some b ∧ df_lookup new_data col = Some n
         ∧ (0 < series_len (dropna b))%nat ∧ (0 < series_len (dropna n))%nat
         ∧ ks_2samp (dropna b) (dropna n) = Ok (stat, p)
         ∧ (p < threshold)%Q.

(** The entry, if any, that one turn of the drift loop appends. *)
Definition flagged `{SciPy} (baseline new_data : DataFrame) (threshold : Q)
    (col : string) : option FraudMonitor.drift_entry :=
  match FraudMonitor.test_column baseline new_data threshold col with
  | Ok (Some e) => Some e
  | _ => None
  end.

(** The request of [predict_fraud] as the training pipeline would see it:
    the raw record with its timestamp. *)
Definition training_frame (t : Api.Transaction) (ts : Timestamp) : DataFrame :=
  df_setitem (Api.to_frame t) "timestamp" (DtCol [Some ts]).

(** The hour is none of 8, 9, 10, 17, 18, 19. *)
Definition off_peak (ts : Timestamp) : bool :=
  negb (existsb (λ q, cell_eq q (of_Z (ts_hour ts))) FeatureEngineer.peak_hours).

(** * Further code of the repository

    What follows models code that the statements above do not reach: the
    synthetic data layout and source selection of [DataExtractor], the
    training script's check of the raw data, [save_preprocessor] and
    [load_preprocessor], [ModelTrainer], [DataExplorer.detect_outliers],
    the two prediction endpoints, and the logs, alerts and report of
    [FraudMonitor]. *)

(** ** Further sample data *)

Module Fixture.

(** Three raw transactions with the columns of the synthetic generator. *)
Definition raw_columns : DataFrame :=
  [ ("amount", NumCol [Some 20; Some 50; Some 1500]%Q);
    ("merchant_category", ObjCol [Some "gas"; Some "food"; Some "online"]);
    ("card_present", NumCol [Some 1; Some 1; Some 0]%Q);
    ("transaction_type", ObjCol [Some "purchase"; Some "purchase"; Some "refund"]);
    ("distance_from_home", NumCol [Some 2; Some 30; Some 150]%Q);
    ("distance_from_last_transaction", NumCol [Some 1; Some 60; Some 5]%Q);
    ("time_since_last_transaction", NumCol [Some 5; Some 45; Some 400]%Q);
    ("customer_age", NumCol [Some 30; Some 41; Some 52]%Q);
    ("customer_tenure_days", NumCol [Some 100; Some 900; Some 2000]%Q);
    ("avg_transaction_amount_30d", NumCol [Some 25; Some 40; Some 200]%Q);
    ("num_transactions_24h", NumCol [Some 1; Some 3; Some 8]%Q);
    ("num_transactions_7d", NumCol [Some 4; Some 15; Some 25]%Q) ].

(** A Saturday at 18:00, a Monday at midnight. *)
Definition saturday_evening : Timestamp := mkTimestamp 18 5 17.
Definition monday_midnight : Timestamp := mkTimestamp 0 0 19.

Definition raw_batch : DataFrame :=
  ("transaction_id", ObjCol [Some "TXN_000000"; Some "TXN_000001"; Some "TXN_000002"])
  :: ("timestamp", DtCol [Some Sample.night; Some saturday_evening; Some monday_midnight])
  :: raw_columns
  ++ [("is_fraud", NumCol [Some 0; Some 0; Some 1]%Q)].

(** The same batch without its timestamps. *)
Definition raw_no_timestamp : DataFrame :=
  raw_columns ++ [("is_fraud", NumCol [Some 0; Some 0; Some 1]%Q)].

(** One engineered request, with a merchant category no batch above has. *)
Definition request : DataFrame :=
  [ ("amount", NumCol [Some 70%Q]);
    ("merchant_category", ObjCol [Some "travel"]);
    ("card_present", NumCol [Some 1%Q]);
    ("avg_transaction_amount_30d", NumCol [Some 5%Q]) ].

(** A pickled preprocessor whose scaler was fitted on a column, [balance],
    that no request carries. *)
Definition with_balance : Api.Preprocessor := {|
  Api.label_encoders := [("merchant_category", ["food"; "gas"])];
  Api.scaler := StandardScaler.Fitted [Some 500; Some 40]%Q [Some 10; Some 2]%Q;
  Api.numeric_features := ["amount"; "balance"];
  Api.features_to_drop := ["transaction_id"; "is_fraud"]
|}.

(** A loaded dataset with the four columns the training script asks for. *)
Definition required_only : DataFrame :=
  [ ("amount", NumCol [Some 12; Some 7]%Q);
    ("merchant_category", ObjCol [Some "gas"; Some "food"]);
    ("transaction_type", ObjCol [Some "purchase"; Some "purchase"]);
    ("is_fraud", NumCol [Some 0; Some 1]%Q) ].

End Fixture.

(** ** More vocabulary *)

(** One cell of the column [time_of_day], from the cell of [hour]. *)
Definition time_of_day (hour : cell) : string :=
  cut_str FeatureEngineer.time_bins FeatureEngineer.time_labels hour.

(** Column [c] of the frame holds numbers. *)
Definition is_num_at (df : DataFrame) (c : string) : Prop :=
  ∃ xs, df_lookup df c = Some (NumCol xs).

(** The column [c] after the apply-mode encoding with the encoders [m]. *)
Definition encoded `{Pandas} (m : gmap string (list string)) (c : string) (s : Series)
  : Series :=
  match m !! c with
  | Some classes => NumCol (of_Z ∘ sentinel_code classes <$> astype_str s)
  | None => s
  end.

(** [p] is the dict that [save_preprocessor] pickles for [self], as
    [predict_fraud] reads it back: the items of [label_encoders] in whatever
    order the dict yields them, and a scaler that is set. *)
Definition saved_as (self : DataPreprocessor.t) (p : Api.Preprocessor) : Prop :=
  Api.label_encoders p ≡ₚ map_to_list (DataPreprocessor.label_encoders self)
  ∧ DataPreprocessor.scaler self = Some (Api.scaler p)
  ∧ Api.numeric_features p = DataPreprocessor.numeric_features self
  ∧ Api.features_to_drop p = DataPreprocessor.features_to_drop self.

(** A request that stays finite in binary64.  Its fields are finite numbers
    (by their type here: pydantic also admits [inf] and [nan] for a float),
    the amount is above [-1], where [np.log1p] is finite, and no number is
    above [10^15], so that no ratio overflows and every integer is an
    int64. *)
Definition in_range (t : Api.Transaction) : Prop :=
  (-1 < Api.amount t)%Q ∧
  (Api.amount t <= inject_Z (10 ^ 15))%Q ∧
  (Api.distance_from_home t <= inject_Z (10 ^ 15))%Q ∧
  (Api.distance_from_last_transaction t <= inject_Z (10 ^ 15))%Q ∧
  (Api.time_since_last_transaction t <= inject_Z (10 ^ 15))%Q ∧
  (Api.avg_transaction_amount_30d t <= inject_Z (10 ^ 15))%Q ∧
  (Api.customer_tenure_days t ≤ 10 ^ 15)%Z ∧
  (Api.num_transactions_24h t ≤ 10 ^ 15)%Z ∧
  (Api.num_transactions_7d t ≤ 10 ^ 15)%Z.

(** ** [DataExtractor._generate_synthetic_data] (src/data/data_extractor.py)

    The values are random draws; what the code fixes is the layout of the
    frame it builds from them. *)

Module DataExtractor.

Record draws : Type := mkDraws {
  transaction_ids : list string;
  timestamps : list Timestamp;
  amounts : list Q;
  categories : list string;
  card_present : list Z;
  transaction_type : list string;
  distance_from_home : list Q;
  distance_from_last : list Q;
  time_since_last : list Q;
  customer_age : list Z;
  customer_tenure_days : list Z;
  avg_amount_30d : list Q;
  num_trans_24h : list Z;
  num_trans_7d : list Z;
  is_fraud : list Z
}.

(** [pd.DataFrame({...})], lines 171-187. *)
Definition generate_synthetic_data (d : draws) : DataFrame :=
  [ ("transaction_id", ObjCol (Some <$> transaction_ids d));
    ("timestamp", DtCol (Some <$> timestamps d));
    ("amount", NumCol (Some <$> amounts d));
    ("merchant_category", ObjCol (Some <$> categories d));
    ("card_present", NumCol (of_Z <$> card_present d));
    ("transaction_type", ObjCol (Some <$> transaction_type d));
    ("distance_from_home", NumCol (Some <$> distance_from_home d));
    ("distance_from_last_transaction", NumCol (Some <$> distance_from_last d));
    ("time_since_last_transaction", NumCol (Some <$> time_since_last d));
    ("customer_age", NumCol (of_Z <$> customer_age d));
    ("customer_tenure_days", NumCol (of_Z <$> customer_tenure_days d));
    ("avg_transaction_amount_30d", NumCol (Some <$> avg_amount_30d d));
    ("num_transactions_24h", NumCol (of_Z <$> num_trans_24h d));
    ("num_transactions_7d", NumCol (of_Z <$> num_trans_7d d));
    ("is_fraud", NumCol (of_Z <$> is_fraud d)) ].

(** Draws as the generator makes them: the amounts are clipped to
    [0.15, 20000] (line 133) and the 30-day averages are the amounts times a
    factor in [0.3, 1.5] (line 162). *)
Definition clipped (d : draws) : Prop :=
  Forall (λ a, (15 # 100 <= a)%Q ∧ (a <= 20000)%Q) (amounts d)
  ∧ Forall (λ a, (0 <= a)%Q) (avg_amount_30d d).

(** [len(df)] and [df.empty] *)
Definition nrows (df : DataFrame) : nat :=
  match df with
  | [] => 0
  | (_, s) :: _ => series_len s
  end.
Definition empty (df : DataFrame) : bool :=
  match df with [] => true | _ => (nrows df =? 0)%nat end.

(** [_validate_data(df, min_rows)[0]]; [min_rows] defaults to [50]. *)
Definition validate_data (df : DataFrame) (min_rows : nat) : bool :=
  if empty df then false
  else if (nrows df <? min_rows)%nat then false
  else true.

Definition authenticate (api_key : string) : bool :=
  negb (String.eqb api_key "") && negb (String.eqb api_key "simulated_api_key")
  && negb (String.prefix "your_" api_key).

(** What the world holds when [extract_from_source] runs: the answer of
    [_fetch_from_airtable], the answer of [pd.read_csv] if the file is
    there, and the frame [_generate_synthetic_data] builds. *)
Record sources : Type := mkSources {
  airtable : result DataFrame;
  local_file : option (result DataFrame);
  synthetic : DataFrame
}.

Record t : Type := mk {
  api_key : string;
  base_id : option string
}.

Inductive outcome : Type :=
  | Returned (df : DataFrame)
  | RuntimeError.

Definition truthy (s : option string) : bool :=
  match s with Some s => negb (String.eqb s "") | None => false end.

(** Strategy 1: the frame it returns, if it returns. *)
Definition from_airtable (self : t) (use_airtable : option bool) (w : sources)
  : option DataFrame :=
  if negb (bool_decide (use_airtable = Some false)) && truthy (base_id self) then
    if authenticate (api_key self) then
      match airtable w with
      | Ok df => if validate_data df 50 then Some df else None
      | Err _ => None
      end
    else None
  else None.

(** Strategy 2 *)
Definition from_local_file (source_path : option string) (w : sources)
  : option DataFrame :=
  if truthy source_path then
    match local_file w with
    | Some (Ok df) => if validate_data df 50 then Some df else None
    | Some (Err _) => None
    | None => None
    end
  else None.

Definition extract_from_source (self : t) (source_path : option string)
    (use_airtable : option bool) (w : sources) : outcome :=
  match from_airtable self use_airtable w with
  | Some df => Returned df
  | None =>
      match from_local_file source_path w with
      | Some df => Returned df
      | None =>
          let df := synthetic w in
          if validate_data df 50 then Returned df else RuntimeError
      end
  end.

End DataExtractor.

(** The columns the model is trained on and served, in order: those holding
    numbers from the start, and those holding categories. *)
Definition numeric_columns : list string :=
  [ "amount"; "card_present"; "distance_from_home"; "distance_from_last_transaction";
    "time_since_last_transaction"; "customer_age"; "customer_tenure_days";
    "avg_transaction_amount_30d"; "num_transactions_24h"; "num_transactions_7d";
    "amount_log"; "amount_to_avg_ratio"; "hour"; "day_of_week"; "day_of_month";
    "is_weekend"; "is_peak_hour"; "is_high_frequency_24h"; "is_high_frequency_7d";
    "is_far_from_home"; "is_far_from_last"; "risk_score" ].

Definition categorical_columns : list string :=
  [ "merchant_category"; "transaction_type"; "amount_category"; "time_of_day";
    "time_since_last_cat"; "distance_home_cat" ].

Definition model_columns : list string :=
  [ "amount"; "merchant_category"; "card_present"; "transaction_type";
    "distance_from_home"; "distance_from_last_transaction";
    "time_since_last_transaction"; "customer_age"; "customer_tenure_days";
    "avg_transaction_amount_30d"; "num_transactions_24h"; "num_transactions_7d";
    "amount_log"; "amount_category"; "amount_to_avg_ratio"; "hour"; "day_of_week";
    "day_of_month"; "is_weekend"; "time_of_day"; "is_peak_hour";
    "is_high_frequency_24h"; "is_high_frequency_7d"; "time_since_last_cat";
    "distance_home_cat"; "is_far_from_home"; "is_far_from_last"; "risk_score" ].

Module Draws.
(** Two synthetic transactions. *)
Definition two : DataExtractor.draws := {|
  DataExtractor.transaction_ids := ["TXN_000000"; "TXN_000001"];
  DataExtractor.timestamps := [mkTimestamp 0 6 1; mkTimestamp 0 6 1];
  DataExtractor.amounts := [33; 1200]%Q;
  DataExtractor.categories := ["food"; "online"];
  DataExtractor.card_present := [1; 0]%Z;
  DataExtractor.transaction_type := ["purchase"; "refund"];
  DataExtractor.distance_from_home := [12; 140]%Q;
  DataExtractor.distance_from_last := [3; 70]%Q;
  DataExtractor.time_since_last := [90; 4]%Q;
  DataExtractor.customer_age := [44; 23]%Z;
  DataExtractor.customer_tenure_days := [900; 31]%Z;
  DataExtractor.avg_amount_30d := [30; 400]%Q;
  DataExtractor.num_trans_24h := [2; 7]%Z;
  DataExtractor.num_trans_7d := [14; 22]%Z;
  DataExtractor.is_fraud := [0; 1]%Z
|}.
End Draws.

(** ** [FraudMonitor]: the logs, the alerts and the report
    (monitoring/fraud_monitor.py)

    The three JSON files under [logs/monitoring] are part of the state:
    [None] is a file that does not exist.  A monitor starts on whatever the
    directory holds: [__init__] creates the directory if it is missing and
    touches no file. *)

(** [sklearn.metrics] on the labels of a window. *)
Class SkLearn : Type := {
  precision_score : list Z → list Z → result Q;   (* y_true, y_pred *)
  recall_score : list Z → list Z → result Q;
  f1_score : list Z → list Z → result Q
}.

Module MonitorLog.

Record log_entry : Type := mkLogEntry {
  logged_at : string;
  features : list (string * cell);
  prediction : Z;
  probability : Q;
  actual : option Z
}.

Record metrics : Type := mkMetrics {
  computed_at : string;
  n_samples : nat;
  precision : Q;
  recall : Q;
  f1 : Q;
  fraud_rate : cell
}.

Inductive severity : Type := HIGH | CRITICAL.
Inductive alert_type : Type := LOW_PRECISION | LOW_RECALL.

(** [value] is the number printed in the message. *)
Record alert : Type := mkAlert {
  alert_severity : severity;
  type : alert_type;
  value : Q;
  raised_at : string
}.

Record report : Type := mkReport {
  generated_at : string;
  total_predictions : nat;
  performance_metrics : list metrics;
  drift_detections : list FraudMonitor.drift_results;
  avg_precision : Q;
  avg_recall : Q;
  drift_detected_count : nat
}.

Record t : Type := mk {
  monitor : FraudMonitor.t;                    (* baseline_data, drift_log *)
  predictions_log : list log_entry;
  performance_log : list metrics;
  predictions_file : option (list log_entry);  (* predictions_log.json *)
  alerts_file : option (list alert);           (* alerts.json *)
  report_file : option report                  (* monitoring_report.json *)
}.

(** What [logs/monitoring] holds when a monitor is made. *)
Record files : Type := mkFiles {
  predictions_json : option (list log_entry);
  alerts_json : option (list alert);
  report_json : option report
}.

(** An empty or missing directory. *)
Definition no_files : files := mkFiles None None None.

(** [FraudMonitor(baseline_data_path)]: the logs in memory start empty and
    [mkdir(parents=True, exist_ok=True)] keeps the files that are there. *)
Definition init (baseline : DataFrame) (disk : files) : t :=
  mk (FraudMonitor.mk baseline []) [] []
     (predictions_json disk) (alerts_json disk) (report_json disk).



Definition detect_data_drift `{SciPy} (new_data : DataFrame) (threshold : Q) (now : string)
    (self : t) : t * FraudMonitor.drift_results :=
  let '(m, results) := FraudMonitor.detect_data_drift (monitor self) new_data threshold now in
  (mk m (predictions_log self) (performance_log self)
      (predictions_file self) (alerts_file self) (report_file self), results).

(** [np.mean] of a list of numbers; NaN on the empty list. *)
Definition np_mean (xs : list Q) : cell :=
  match xs with
  | [] => None
  | _ => Some (Qred (StandardScaler.Qsum xs / StandardScaler.count xs))
  end.

Definition calculate_performance_metrics `{SkLearn} (predictions actuals : list Z)
    (now : string) (self : t) : t * result metrics :=
  match precision_score actuals predictions with
  | Err e => (self, Err e)
  | Ok p =>
      match recall_score actuals predictions with
      | Err e => (self, Err e)
      | Ok r =>
          match f1_score actuals predictions with
          | Err e => (self, Err e)
          | Ok f =>
              let metrics := mkMetrics now (length predictions) p r f
                               (np_mean (inject_Z <$> actuals)) in
              (mk (monitor self) (predictions_log self) (performance_log self ++ [metrics])
                  (predictions_file self) (alerts_file self) (report_file self),
               Ok metrics)
          end
      end
  end.

(** [existing_alerts.extend(alerts)] on what the file held, if it was there. *)
Definition save_alerts (alerts : list alert) (self : t) : t :=
  let existing_alerts := default [] (alerts_file self) in
  mk (monitor self) (predictions_log self) (performance_log self)
     (predictions_file self) (Some (existing_alerts ++ alerts)) (report_file self).

(** [min_precision] defaults to [0.2] and [min_recall] to [0.7]; the two
    alerts read the clock separately. *)
Definition check_for_alerts (performance_metrics : metrics) (min_precision min_recall : Q)
    (now_precision now_recall : string) (self : t) : t * list alert :=
  let alerts := [] in
  let alerts :=
    if Qltb (precision performance_metrics) min_precision
    then alerts ++ [mkAlert HIGH LOW_PRECISION (precision performance_metrics) now_precision]
    else alerts in
  let alerts :=
    if Qltb (recall performance_metrics) min_recall
    then alerts ++ [mkAlert CRITICAL LOW_RECALL (recall performance_metrics) now_recall]
    else alerts in
  match alerts with
  | [] => (self, alerts)
  | _ => (save_alerts alerts self, alerts)
  end.

(** [xs[-n:]] *)
Definition last_n {A} (n : nat) (xs : list A) : list A := drop (length xs - n) xs.

Definition generate_monitoring_report (now : string) (self : t) : t * report :=
  let drift_log := FraudMonitor.drift_log (monitor self) in
  let report := {|
    generated_at := now;
    total_predictions := length (predictions_log self);
    performance_metrics :=
      match performance_log self with [] => [] | _ => last_n 10 (performance_log self) end;
    drift_detections := match drift_log with [] => [] | _ => last_n 5 drift_log end;
    avg_precision := default 0%Q (np_mean (precision <$> performance_log self));
    avg_recall := default 0%Q (np_mean (recall <$> performance_log self));
    drift_detected_count :=
      length (filter (λ d, FraudMonitor.drift_detected d = true) drift_log)
  |} in
  (mk (monitor self) (predictions_log self) (performance_log self)
      (predictions_file self) (alerts_file self) (Some report), report).

End MonitorLog.


(** One call of [check_for_alerts]: the metrics, the two thresholds and the
    two readings of the clock. *)
Record check : Type := mkCheck {
  checked : MonitorLog.metrics;
  min_precision : Q;
  min_recall : Q;
  clock : string * string
}.

(** A run of [check_for_alerts] calls, with all the alerts they return. *)
Fixpoint check_all (checks : list check) (self : MonitorLog.t)
  : MonitorLog.t * list MonitorLog.alert :=
  match checks with
  | [] => (self, [])
  | c :: rest =>
      let '(self, alerts) :=
        MonitorLog.check_for_alerts (checked c) (min_precision c) (min_recall c)
          (clock c).1 (clock c).2 self in
      let '(self, more) := check_all rest self in
      (self, alerts ++ more)
  end.

(** The thresholds of a check are met. *)
Definition healthy (c : check) : Prop :=
  (min_precision c <= MonitorLog.precision (checked c))%Q
  ∧ (min_recall c <= MonitorLog.recall (checked c))%Q.

(** Precision, recall and F1 of 0/1 labels as the textbooks define them,
    with [zero_division=0]. *)
Definition count_where (f : Z → Z → bool) (y_true y_pred : list Z) : Z :=
  Z.of_nat (length (filter (λ p, f p.1 p.2 = true) (zip y_true y_pred))).
Definition true_positives := count_where (λ t p, (t =? 1)%Z && (p =? 1)%Z).
Definition false_positives := count_where (λ t p, (t =? 0)%Z && (p =? 1)%Z).
Definition false_negatives := count_where (λ t p, (t =? 1)%Z && (p =? 0)%Z).

Definition ratio (a b : Z) : Q :=
  if (b =? 0)%Z then 0%Q else Qred (inject_Z a / inject_Z b).

Definition binary_precision (y_true y_pred : list Z) : Q :=
  ratio (true_positives y_true y_pred)
        (true_positives y_true y_pred + false_positives y_true y_pred).
Definition binary_recall (y_true y_pred : list Z) : Q :=
  ratio (true_positives y_true y_pred)
        (true_positives y_true y_pred + false_negatives y_true y_pred).

Definition binary (ys : list Z) : Prop := Forall (λ y, y = 0%Z ∨ y = 1%Z) ys.

(** The library computes the textbook values on a window of 0/1 labels. *)
Definition textbook_metrics `{SkLearn} : Prop :=
  ∀ y_true y_pred,
    y_true ≠ [] → length y_true = length y_pred → binary y_true → binary y_pred →
    precision_score y_true y_pred = Ok (binary_precision y_true y_pred)
    ∧ recall_score y_true y_pred = Ok (binary_recall y_true y_pred)
    ∧ ∃ f, f1_score y_true y_pred = Ok f.

Module Textbook.
(** Metrics that are the textbook values on every input. *)
Definition sklearn : SkLearn := {|
  precision_score := λ y_true y_pred, Ok (binary_precision y_true y_pred);
  recall_score := λ y_true y_pred, Ok (binary_recall y_true y_pred);
  f1_score := λ y_true y_pred,
    let p := binary_precision y_true y_pred in
    let r := binary_recall y_true y_pred in
    Ok (if Qeq_bool (p + r) 0 then 0%Q else Qred (2 * p * r / (p + r)))
|}.
End Textbook.

(** One call of [detect_data_drift]: the new data, the threshold and the
    reading of the clock. *)
Record drift_run : Type := mkRun {
  new_data : DataFrame;
  threshold : Q;
  run_at : string
}.

(** A run of [detect_data_drift] calls, with the results they return. *)
Fixpoint detect_all `{SciPy} (runs : list drift_run) (self : MonitorLog.t)
  : MonitorLog.t * list FraudMonitor.drift_results :=
  match runs with
  | [] => (self, [])
  | r :: rest =>
      let '(self, results) :=
        MonitorLog.detect_data_drift (new_data r) (threshold r) (run_at r) self in
      let '(self, more) := detect_all rest self in
      (self, results :: more)
  end.

(** What a monitor with an empty drift log returns on the run. *)
Definition fresh_result `{SciPy} (baseline : DataFrame) (r : drift_run)
  : FraudMonitor.drift_results :=
  (FraudMonitor.detect_data_drift (FraudMonitor.mk baseline []) (new_data r) (threshold r)
     (run_at r)).2.

(** ** [ModelTrainer] (src/models/trainer.py) *)

Module ModelTrainer.

Record metrics : Type := mkMetrics {
  precision : Q;
  recall : Q;
  f1_score : Q;
  f2_score : Q;
  roc_auc : Q
}.

(** A Python dict with string keys: [d[k] = v] overwrites in place or
    appends, keeping the order of insertion. *)
Fixpoint dict_set {V} (d : list (string * V)) (k : string) (v : V) : list (string * V) :=
  match d with
  | [] => [(k, v)]
  | (k', v') :: d' => if decide (k' = k) then (k, v) :: d' else (k', v') :: dict_set d' k v
  end.

Fixpoint dict_get {V} (d : list (string * V)) (k : string) : option V :=
  match d with
  | [] => None
  | (k', v) :: d' => if decide (k' = k) then Some v else dict_get d' k
  end.

Section trainer.
(** The estimators are library objects; [fit_and_score] stands for the body
    of the MLflow run up to the metrics: fit, predict, score, log. *)
Context {Model : Type}.
Variable fit_and_score : Model → result (Model * metrics).

Record t : Type := mk {
  trained_models : list (string * Model);
  model_results : list (string * metrics)
}.

(** [ModelTrainer(experiment_name)] *)
Definition init : t := mk [] [].

(** An exception inside the run leaves both dicts as they were. *)
Definition train_model (model : Model) (model_name : string) (self : t)
  : t * result metrics :=
  match fit_and_score model with
  | Err e => (self, Err e)
  | Ok (fitted, metrics) =>
      (mk (dict_set (trained_models self) model_name fitted)
          (dict_set (model_results self) model_name metrics),
       Ok metrics)
  end.

(** [max(keys, key=...)]: the first key with the largest value; a key
    without a result has no value to compare. *)
Fixpoint max_from (key : string → Q) (best : string) (keys : list string) : string :=
  match keys with
  | [] => best
  | k :: keys' => max_from key (if Qltb (key best) (key k) then k else best) keys'
  end.

Definition py_max (key : string → Q) (keys : list string) : result string :=
  match keys with
  | [] => Err ValueError
  | k :: keys' => Ok (max_from key k keys')
  end.

Definition f2_of (self : t) (name : string) : Q :=
  from_option f2_score 0%Q (dict_get (model_results self) name).

Definition train_optional (model : option Model) (model_name : string) (self : t)
  : t * result unit :=
  match model with
  | Some m =>
      match train_model m model_name self with
      | (self, Ok _) => (self, Ok ())
      | (self, Err e) => (self, Err e)
      end
  | None => (self, Ok ())
  end.

(** [xgb] and [lgb] are [None] when the package is not installed. *)
Definition train_all_models (lr rf : Model) (xgb lgb : option Model) (self : t)
  : t * result string :=
  match train_model lr "Logistic_Regression" self with
  | (self, Err e) => (self, Err e)
  | (self, Ok _) =>
      match train_model rf "Random_Forest" self with
      | (self, Err e) => (self, Err e)
      | (self, Ok _) =>
          match train_optional xgb "XGBoost" self with
          | (self, Err e) => (self, Err e)
          | (self, Ok _) =>
              match train_optional lgb "LightGBM" self with
              | (self, Err e) => (self, Err e)
              | (self, Ok _) => (self, py_max (f2_of self) (model_results self).*1)
              end
          end
      end
  end.

(** The model that [save_best_model] pickles. *)
Definition save_best_model (best_model_name : string) (self : t) : result Model :=
  if decide (best_model_name ∈ (trained_models self).*1) then
    match dict_get (trained_models self) best_model_name with
    | Some best_model => Ok best_model
    | None => Err (KeyError best_model_name)
    end
  else Err ValueError.

End trainer.
End ModelTrainer.

Module Toy.
(** Estimators that are their own score: fitting a number [m] gives a
    model whose five metrics are [m / 10]. *)
Definition fit_and_score (m : Z) : result (Z * ModelTrainer.metrics) :=
  let q := Qred (inject_Z m / 10) in Ok (m, ModelTrainer.mkMetrics q q q q q).
End Toy.

(** ** The endpoints (api/main.py) *)

Module Endpoint.

(** The pickled estimator: [predict] gives one label per row and
    [predict_proba] one row of class probabilities per row. *)
Record Model : Type := mkModel {
  predict : DataFrame → result (list Z);
  predict_proba : DataFrame → result (list (list Q))
}.

(** What the [try:] block of [predict_fraud] can raise. *)
Inductive exn : Type :=
  | Raised (e : error)
  | IndexError.

#[global] Instance exn_bind : MBind (sum exn) :=
  λ A B f m, match m with inr a => f a | inl e => inl e end.

Definition lift {A} (r : result A) : exn + A :=
  match r with Ok a => inr a | Err e => inl (Raised e) end.

(** [xs[i]] *)
Definition item {A} (xs : list A) (i : nat) : exn + A :=
  match xs !! i with Some x => inr x | None => inl IndexError end.

Inductive risk : Type := LOW | MEDIUM | HIGH.

Definition risk_level_of (probability : Q) : risk :=
  if Qle_bool (7 # 10) probability then HIGH
  else if Qle_bool (4 # 10) probability then MEDIUM
  else LOW.

Record PredictionResponse : Type := mkResponse {
  is_fraud : Z;
  fraud_probability : Q;
  risk_level : risk;
  timestamp : string
}.

Inductive detail : Type :=
  | ModelNotAvailable
  | PredictionError (e : exn).

Inductive http (A : Type) : Type :=
  | Reply (a : A)
  | HTTPException (status_code : Z) (d : detail).
Arguments Reply {A} a.
Arguments HTTPException {A} status_code d.

(** The body of the [try:] block: [now] is the [datetime.now()] written to
    the frame, [now_iso] the one of the response. *)
Definition score `{NumPy} `{Pandas} (model : Model) (preprocessor : Api.Preprocessor)
    (transaction : Api.Transaction) (now : Timestamp) (now_iso : string)
  : exn + PredictionResponse :=
  data ← lift (Api.engineer_features transaction now);
  df_processed ← lift (Api.apply_preprocessor preprocessor data);
  predictions ← lift (predict model df_processed);
  prediction ← item predictions 0;
  probabilities ← lift (predict_proba model df_processed);
  row ← item probabilities 0;
  probability ← item row 1;
  inr (mkResponse prediction probability (risk_level_of probability) now_iso).

Definition predict_fraud `{NumPy} `{Pandas} (model : option Model)
    (preprocessor : option Api.Preprocessor)
    (transaction : Api.Transaction) (now : Timestamp) (now_iso : string)
  : http PredictionResponse :=
  match model, preprocessor with
  | Some model, Some preprocessor =>
      match score model preprocessor transaction now now_iso with
      | inr response => Reply response
      | inl e => HTTPException 500 (PredictionError e)
      end
  | _, _ => HTTPException 503 ModelNotAvailable
  end.

(** An entry of ["predictions"]: a response, or [{"error": str(e)}] for the
    exception [predict_fraud] raised. *)
Definition entry : Type := PredictionResponse + (Z * detail).

Record BatchResponse : Type := mkBatch {
  predictions : list entry;
  total : nat;
  batch_timestamp : string
}.

(** [clock i] is what the [i]-th call of [predict_fraud] reads. *)
Definition predict_batch `{NumPy} `{Pandas} (model : option Model)
    (preprocessor : option Api.Preprocessor)
    (transactions : list Api.Transaction) (clock : nat → Timestamp * string)
    (now_iso : string) : http BatchResponse :=
  match model with
  | None => HTTPException 503 ModelNotAvailable
  | Some _ =>
      let results :=
        imap (λ i transaction,
                match predict_fraud model preprocessor transaction
                        (clock i).1 (clock i).2 with
                | Reply result => inl result
                | HTTPException status d => inr (status, d)
                end) transactions in
      Reply (mkBatch results (length transactions) now_iso)
  end.

End Endpoint.


Module Stub.
(** A model that answers fraud with probability 0.8 on every matrix, and a
    preprocessor that only centres [amount]. *)
Definition model : Endpoint.Model := {|
  Endpoint.predict := λ _, Ok [1%Z];
  Endpoint.predict_proba := λ _, Ok [[(2 # 10)%Q; (8 # 10)%Q]]
|}.
Definition preprocessor : Api.Preprocessor := {|
  Api.label_encoders := [];
  Api.scaler := StandardScaler.Fitted [Some 100%Q] [Some 1%Q];
  Api.numeric_features := ["amount"];
  Api.features_to_drop := []
|}.
End Stub.

(** ** [save_preprocessor] and [load_preprocessor]
    (src/features/preprocessor.py)

    The file holds a dict of five entries; [pickle] gives back what was
    dumped. *)

Module Pickle.

Record preprocessor_data : Type := mkData {
  label_encoders : gmap string (list string);
  scaler : option StandardScaler.t;
  numeric_features : list string;
  categorical_features : list string;
  features_to_drop : list string
}.

Definition save_preprocessor (self : DataPreprocessor.t) : preprocessor_data := {|
  label_encoders := DataPreprocessor.label_encoders self;
  scaler := DataPreprocessor.scaler self;
  numeric_features := DataPreprocessor.numeric_features self;
  categorical_features := DataPreprocessor.categorical_features self;
  features_to_drop := DataPreprocessor.features_to_drop self
|}.

Definition load_preprocessor (data : preprocessor_data) (self : DataPreprocessor.t)
  : DataPreprocessor.t :=
  DataPreprocessor.mk (DataPreprocessor.target_col self) (label_encoders data) (scaler data)
    (numeric_features data) (categorical_features data) (features_to_drop data).

End Pickle.

(** ** Phase 0 of [main] (scripts/train_pipeline.py) *)

Module TrainPipeline.

Definition required_cols : list string :=
  ["amount"; "merchant_category"; "transaction_type"; "is_fraud"].

(** [loaded] is what [extract_from_source] returned or raised, [synthetic]
    what [_generate_synthetic_data] would return. *)
Definition raw_data (loaded : result DataFrame) (synthetic : DataFrame) : DataFrame :=
  match loaded with
  | Ok raw_data =>
      let missing_cols := filter (λ col, col ∉ columns raw_data) required_cols in
      match missing_cols with
      | [] => raw_data
      | _ => synthetic
      end
  | Err _ => synthetic
  end.

End TrainPipeline.

(** ** [DataExplorer] (src/data/data_explorer.py) *)

(** The outlier counts are pandas arithmetic on one column: quartiles for
    ['iqr'], mean and standard deviation for ['zscore']. *)
Class Stats : Type := {
  iqr_outliers : Q → list cell → nat;
  zscore_outliers : Q → list cell → nat
}.

Module DataExplorer.

Record t : Type := mk {
  df : DataFrame;
  target_col : string;
  numeric_cols : list string;
  categorical_cols : list string;
  datetime_cols : list string
}.

(** [l.remove(x)]: the first occurrence only. *)
Fixpoint remove_first (x : string) (l : list string) : list string :=
  match l with
  | [] => []
  | y :: l' => if decide (y = x) then l' else y :: remove_first x l'
  end.

Definition is_datetime (s : Series) : bool :=
  match s with DtCol _ => true | _ => false end.

(** [DataExplorer(df, target_col)] *)
Definition init (df : DataFrame) (target_col : string) : t :=
  let numeric_cols := columns (filter (λ p, DataPreprocessor.is_number p.2 = true) df) in
  let categorical_cols := columns (filter (λ p, DataPreprocessor.is_object p.2 = true) df) in
  let datetime_cols := columns (filter (λ p, is_datetime p.2 = true) df) in
  let numeric_cols :=
    if decide (target_col ∈ numeric_cols) then remove_first target_col numeric_cols
    else numeric_cols in
  let categorical_cols :=
    if decide (target_col ∈ categorical_cols) then remove_first target_col categorical_cols
    else categorical_cols in
  mk df target_col numeric_cols categorical_cols datetime_cols.

(** The loop of [detect_outliers] from the columns still to visit; the
    method is looked at once per column. *)
Fixpoint detect_loop `{Stats} (self : t) (method : string) (threshold : Q)
    (cols : list string) (outliers : list (string * nat)) : result (list (string * nat)) :=
  match cols with
  | [] => Ok outliers
  | col :: cols' =>
      count ←
        (if String.eqb method "iqr" then
           s ← df_getitem (df self) col; xs ← as_num s; Ok (iqr_outliers threshold xs)
         else if String.eqb method "zscore" then
           s ← df_getitem (df self) col; xs ← as_num s; Ok (zscore_outliers threshold xs)
         else Err ValueError);
      detect_loop self method threshold cols' (ModelTrainer.dict_set outliers col count)
  end.

(** [method] defaults to ['iqr'] and [threshold] to [1.5]. *)
Definition detect_outliers `{Stats} (method : string) (threshold : Q) (self : t)
  : result (list (string * nat)) :=
  detect_loop self method threshold (numeric_cols self) [].

End DataExplorer.

Module Quartiles.
(** Counts that only tell NaN cells from numbers. *)
Definition stats : Stats := {|
  iqr_outliers := λ _ xs, length (filter (λ x : cell, x = None) xs);
  zscore_outliers := λ _ _, 0
|}.
End Quartiles.

(** The columns [FeatureEngineer.fit_transform] writes. *)
Definition engineered_columns : list string :=
  [ "amount_log"; "amount_category"; "amount_to_avg_ratio"; "hour"; "day_of_week";
    "day_of_month"; "is_weekend"; "time_of_day"; "is_peak_hour"; "is_high_frequency_24h";
    "is_high_frequency_7d"; "time_since_last_cat"; "distance_home_cat"; "is_far_from_home";
    "is_far_from_last"; "risk_score" ].

(** * Properties *)

(** ** Rational comparisons *)

Lemma Qltb_lt x y : Qltb x y = true ↔ (x < y)%Q.
Proof.
  unfold Qltb. rewrite negb_true_iff, <- not_true_iff_false, Qle_bool_iff.
  split; [apply Qnot_le_lt | apply Qlt_not_le].
Qed.

Lemma Qltb_ge x y : Qltb x y = false ↔ (y <= x)%Q.
Proof. unfold Qltb. by rewrite negb_false_iff, Qle_bool_iff. Qed.

Lemma Qle_bool_gt x y : Qle_bool x y = false ↔ (y < x)%Q.
Proof.
  rewrite <- not_true_iff_false, Qle_bool_iff.
  split; [apply Qnot_le_lt | apply Qlt_not_le].
Qed.

(** Case analysis on every rational test of the goal. *)
Ltac q_cases :=
  repeat match goal with
  | |- context [Qltb ?x ?y] =>
      let E := fresh "E" in
      destruct (Qltb x y) eqn:E; [apply Qltb_lt in E | apply Qltb_ge in E]
  | |- context [Qle_bool ?x ?y] =>
      let E := fresh "E" in
      destruct (Qle_bool x y) eqn:E; [apply Qle_bool_iff in E | apply Qle_bool_gt in E]
  end.

(** A closed decidable proposition, by evaluation. *)
Ltac by_compute :=
  match goal with
  | |- ?P => apply (bool_decide_unpack P); vm_compute; exact I
  end.

(** ** Data frames *)

Lemma df_lookup_None df c : df_lookup df c = None ↔ c ∉ columns df.
Proof.
  induction df as [|[c' s] df IH]; simpl.
  - split; [intros _; apply not_elem_of_nil | done].
  - rewrite not_elem_of_cons. destruct (decide (c' = c)) as [->|Hne].
    + split; [done | intros [? _]; done].
    + rewrite IH. split; [intros ?; split; [congruence | done] | by intros [_ ?]].
Qed.

Lemma df_lookup_is_Some df c : is_Some (df_lookup df c) ↔ c ∈ columns df.
Proof.
  rewrite <- not_eq_None_Some, df_lookup_None.
  split; [apply dec_stable | by intros ? ?].
Qed.

Lemma df_getitem_missing df c : c ∉ columns df → df_getitem df c = Err (KeyError c).
Proof. intros H. unfold df_getitem. by apply df_lookup_None in H as ->. Qed.

Lemma df_getitem_Ok df c s : df_getitem df c = Ok s ↔ df_lookup df c = Some s.
Proof. unfold df_getitem. destruct (df_lookup df c); split; congruence. Qed.

Lemma df_lookup_setitem_eq df c s : df_lookup (df_setitem df c s) c = Some s.
Proof.
  induction df as [|[c' s'] df IH]; simpl.
  - by rewrite decide_True.
  - destruct (decide (c' = c)); simpl; [by rewrite decide_True | by rewrite decide_False].
Qed.

Lemma df_lookup_setitem_ne df c c' s :
  c ≠ c' → df_lookup (df_setitem df c s) c' = df_lookup df c'.
Proof.
  intros Hne. induction df as [|[c0 s0] df IH]; simpl.
  - by rewrite decide_False.
  - destruct (decide (c0 = c)) as [->|]; simpl.
    + by rewrite !decide_False.
    + by rewrite IH.
Qed.

Lemma columns_setitem df c s c' :
  c' ∈ columns (df_setitem df c s) ↔ c' = c ∨ c' ∈ columns df.
Proof.
  rewrite <- !df_lookup_is_Some. destruct (decide (c = c')) as [->|Hne].
  - rewrite df_lookup_setitem_eq. split; [by left | by eexists].
  - rewrite df_lookup_setitem_ne by done. split; [by right | intros [?|?]; congruence].
Qed.

Lemma df_getitem_setitem_ne df c c' s :
  c ≠ c' → df_getitem (df_setitem df c s) c' = df_getitem df c'.
Proof. intros. unfold df_getitem. by rewrite df_lookup_setitem_ne. Qed.

Lemma df_getitem_setitem_eq df c s : df_getitem (df_setitem df c s) c = Ok s.
Proof. unfold df_getitem. by rewrite df_lookup_setitem_eq. Qed.

(** A column that is already set keeps the frame's labels. *)
Lemma columns_setitem_present df c s :
  c ∈ columns df → columns (df_setitem df c s) = columns df.
Proof.
  unfold columns. induction df as [|[c' s'] df IH]; simpl.
  - by intros ?%elem_of_nil.
  - intros Hin. destruct (decide (c' = c)) as [->|Hne]; simpl; [done|].
    f_equal. apply IH. by apply elem_of_cons in Hin as [?|?].
Qed.


Lemma df_lookup_drop_ne df cols c :
  c ∉ cols → df_lookup (df_drop df cols) c = df_lookup df c.
Proof.
  intros Hc. unfold df_drop. induction df as [|[c' s] df IH]; [done|].
  rewrite filter_cons. simpl. destruct (decide (c' ∉ cols)) as [Hin|Hin]; simpl.
  - by rewrite IH.
  - rewrite IH. rewrite decide_False; [done|]. intros ->. by apply Hin.
Qed.

Lemma df_lookup_drop_eq df cols c :
  c ∈ cols → df_lookup (df_drop df cols) c = None.
Proof.
  intros Hc. apply df_lookup_None. unfold df_drop, columns.
  intros ([c' s] & -> & [Hn _]%list_elem_of_filter)%list_elem_of_fmap. by apply Hn.
Qed.

Lemma df_drop_strict_lookup df c data c' :
  df_drop_strict df c = Ok data → c' ≠ c → df_lookup data c' = df_lookup df c'.
Proof.
  unfold df_drop_strict. case_decide; [|done]. intros [= <-] Hne.
  apply df_lookup_drop_ne. by intros ->%list_elem_of_singleton.
Qed.

(** ** Stepping through a pipeline *)

(** Resolve the next lookup of a chain of column assignments. *)
Ltac df_step :=
  first [ rewrite df_getitem_setitem_eq
        | rewrite df_getitem_setitem_ne by done
        | rewrite df_lookup_setitem_eq
        | rewrite df_lookup_setitem_ne by done
        | progress simpl ].
(** ** Amount buckets *)

Section amount_buckets.
Import FeatureEngineer.

Lemma amount_category_intervals (a : Q) :
  ((a <= 0)%Q → amount_category (Some a) = "nan") ∧
  ((0 < a)%Q → (a <= 50)%Q → amount_category (Some a) = "very_low") ∧
  ((50 < a)%Q → (a <= 200)%Q → amount_category (Some a) = "low") ∧
  ((200 < a)%Q → (a <= 1000)%Q → amount_category (Some a) = "medium") ∧
  ((1000 < a)%Q → amount_category (Some a) = "high").
Proof.
  cbv [amount_category cut_str cut_cell cut_bins amount_bins amount_labels
       edge_lt le_edge default from_option andb].
  repeat split; intros; q_cases; first [reflexivity | exfalso; lra].
Qed.

Lemma create_amount_features_category `{NumPy} df xs df' :
  df_lookup df "amount" = Some (NumCol xs) →
  create_amount_features df = Ok df' →
  df_lookup df' "amount_category" = Some (ObjCol (Some ∘ amount_category <$> xs)).
Proof.
  intros Ha%df_getitem_Ok. unfold create_amount_features.
  repeat first [rewrite Ha | df_step].
  destruct (df_getitem df "avg_transaction_amount_30d") as [avg|]; simpl; [|done].
  destruct (add_scalar _ avg) as [avg_eps|]; simpl; [|done].
  destruct (div_series _ avg_eps) as [ratio|]; simpl; [|done].
  intros [= <-]. by repeat df_step.
Qed.

Lemma engineer_features_category `{NumPy} t now data :
  Api.engineer_features t now = Ok data →
  df_lookup data "amount_category"
  = Some (ObjCol [Some (amount_category (Some (Api.amount t)))]).
Proof.
  unfold Api.engineer_features, Api.risk_score. simpl.
  intros Hd. by rewrite (df_drop_strict_lookup _ _ _ _ Hd).
Qed.
End amount_buckets.

Section bucket_claim.
Import FeatureEngineer.

(** C3, as stated: an amount of exactly 50.0 would be "low" and an amount
    of 0 would be "very_low".  The code puts 50.0 in "very_low" and 0 in
    no bucket at all. *)
Lemma amount_category_boundary_counterexample :
  ¬ (amount_category (Some 50%Q) = "low"
     ∧ amount_category (Some (5001 # 100)%Q) = "low"
     ∧ amount_category (Some 1000%Q) = "medium"
     ∧ amount_category (Some (100001 # 100)%Q) = "high"
     ∧ ∀ a : Q, (a <= 0)%Q → amount_category (Some a) = "very_low").
Proof. intros [H50 _]. vm_compute in H50. discriminate. Qed.

(** C3, amended: the bins are left-open and right-closed, so 50.0 is
    "very_low", 50.01 is "low", 1000.0 is "medium" and 1000.01 is "high";
    an amount at or below 0 lies in no bin and is written as "nan".  The
    training path and the serving path both write this bucket. *)
Theorem amount_category_boundaries :
  amount_category (Some 50%Q) = "very_low"
  ∧ amount_category (Some (5001 # 100)%Q) = "low"
  ∧ amount_category (Some 1000%Q) = "medium"
  ∧ amount_category (Some (100001 # 100)%Q) = "high"
  ∧ (∀ a : Q, (a <= 0)%Q → amount_category (Some a) = "nan")
  ∧ (∀ `{NumPy} df xs df',
       df_lookup df "amount" = Some (NumCol xs) →
       create_amount_features df = Ok df' →
       df_lookup df' "amount_category" = Some (ObjCol (Some ∘ amount_category <$> xs)))
  ∧ (∀ `{NumPy} t now data,
       Api.engineer_features t now = Ok data →
       df_lookup data "amount_category"
       = Some (ObjCol [Some (amount_category (Some (Api.amount t)))])).
Proof.
  repeat split; try reflexivity.
  - intros a. apply amount_category_intervals.
  - intros. by eapply create_amount_features_category.
  - intros. by eapply engineer_features_category.
Qed.

Lemma amount_category_boundaries_witness :
  amount_category (Some (-3)%Q) = "nan"
  ∧ (∃ df', @create_amount_features Sample.numpy Sample.batch = Ok df'
      ∧ df_lookup df' "amount_category"
        = Some (ObjCol [Some "very_low"; Some "very_low"; Some "high"]))
  ∧ (∃ data, @Api.engineer_features Sample.numpy Sample.transaction Sample.night = Ok data
      ∧ df_lookup data "amount_category" = Some (ObjCol [Some "high"])).
Proof.
  destruct amount_category_boundaries as (_ & _ & _ & _ & Hneg & Htrain & Hserve).
  split; [apply Hneg; lra|]. split.
  - eexists. split; [vm_compute; reflexivity|].
    apply (Htrain Sample.numpy Sample.batch [Some 20; Some 50; Some 1500]%Q);
      vm_compute; reflexivity.
  - eexists. split; [vm_compute; reflexivity|].
    apply (Hserve Sample.numpy Sample.transaction Sample.night). vm_compute; reflexivity.
Defined.
End bucket_claim.

(** ** Missing raw fields *)

Section missing_fields.
Import FeatureEngineer.

Lemma create_amount_features_no_amount `{NumPy} df :
  "amount" ∉ columns df → create_amount_features df = Err (KeyError "amount").
Proof.
  intros Hm. unfold create_amount_features. by rewrite (df_getitem_missing _ _ Hm).
Qed.

Lemma create_amount_features_no_avg `{NumPy} df xs :
  df_lookup df "amount" = Some (NumCol xs) →
  "avg_transaction_amount_30d" ∉ columns df →
  create_amount_features df = Err (KeyError "avg_transaction_amount_30d").
Proof.
  intros Ha%df_getitem_Ok Hm%df_getitem_missing. unfold create_amount_features.
  by repeat first [rewrite Ha | rewrite Hm | df_step].
Qed.

Lemma create_temporal_features_no_timestamp `{Pandas} df c :
  c ∉ columns df → create_temporal_features df c = Ok df.
Proof. intros Hm. unfold create_temporal_features. by rewrite decide_False. Qed.

(** C9, as stated: a batch without [timestamp] would make feature
    derivation fail.  [create_temporal_features] returns such a batch as it
    is, no temporal column derived and no exception raised. *)
Lemma missing_timestamp_counterexample :
  ("timestamp" ∉ columns Sample.amounts_only)
  ∧ @create_temporal_features Sample.pandas Sample.amounts_only "timestamp" = Ok Sample.amounts_only
  ∧ ¬ raises (@create_temporal_features Sample.pandas Sample.amounts_only "timestamp").
Proof.
  split; [by_compute|].
  split; [reflexivity|]. intros [e He]. vm_compute in He. discriminate.
Qed.

(** C9, amended: a batch without [amount], or with a numeric [amount] and
    without [avg_transaction_amount_30d], makes [create_amount_features]
    raise a [KeyError] that names the missing column; a batch without the
    timestamp column makes [create_temporal_features] return the batch
    unchanged, the temporal transforms being skipped. *)
Theorem missing_field_behaviour `{NumPy} `{Pandas} (df : DataFrame) :
  ("amount" ∉ columns df → create_amount_features df = Err (KeyError "amount"))
  ∧ (∀ xs, df_lookup df "amount" = Some (NumCol xs) →
       "avg_transaction_amount_30d" ∉ columns df →
       create_amount_features df = Err (KeyError "avg_transaction_amount_30d"))
  ∧ ("timestamp" ∉ columns df → create_temporal_features df "timestamp" = Ok df).
Proof.
  split; [apply create_amount_features_no_amount|].
  split; [apply create_amount_features_no_avg|].
  apply create_temporal_features_no_timestamp.
Qed.

Lemma missing_field_behaviour_witness :
  @create_amount_features Sample.numpy Sample.timestamps_only
    = Err (KeyError "amount")
  ∧ @create_amount_features Sample.numpy Sample.amounts_only
    = Err (KeyError "avg_transaction_amount_30d")
  ∧ @create_temporal_features Sample.pandas Sample.amounts_only "timestamp" = Ok Sample.amounts_only.
Proof.
  split; [|split].
  - apply (missing_field_behaviour (H := Sample.numpy) (H0 := Sample.pandas)).
    by_compute.
  - apply (missing_field_behaviour (H := Sample.numpy) (H0 := Sample.pandas) Sample.amounts_only)
      with (xs := [Some 10%Q]); [reflexivity|].
    by_compute.
  - apply (missing_field_behaviour (H := Sample.numpy) (H0 := Sample.pandas) Sample.amounts_only).
    by_compute.
Defined.
End missing_fields.

(** ** Applying before fitting *)

Section apply_before_fit.
Import DataPreprocessor.

Lemma encode_columns_no_encoder `{Pandas} df cols self :
  label_encoders self = ∅ → encode_columns false df cols self = (self, Ok df).
Proof.
  intros Hempty. induction cols as [|col cols IH]; [done|].
  simpl. unfold mbind at 1, M_bind, encode_column.
  case_decide; [|exact IH].
  unfold mbind, M_bind, get. by rewrite Hempty, lookup_empty.
Qed.

Lemma encode_without_encoders `{Pandas} df self :
  label_encoders self = ∅ →
  encode_categorical_features df false self = (self, Ok df).
Proof. intros. unfold encode_categorical_features. by apply encode_columns_no_encoder. Qed.

Lemma scale_without_scaler `{NumPy} df self :
  scaler self = None → scale_numeric_features df false self = (self, Ok df).
Proof.
  intros Hnone. unfold scale_numeric_features, mbind, M_bind, get. by rewrite Hnone.
Qed.

(** C4, as stated: on a preprocessor that was never fitted the two apply
    steps would raise [NotFittedError].  Both return the batch they were
    given, not encoded and not scaled. *)
Lemma apply_before_fit_counterexample :
  (@encode_categorical_features Sample.pandas Sample.batch false (init "is_fraud")).2
    = Ok Sample.batch
  ∧ (@scale_numeric_features Sample.numpy Sample.batch false (init "is_fraud")).2
    = Ok Sample.batch
  ∧ ¬ ((@encode_categorical_features Sample.pandas Sample.batch false (init "is_fraud")).2
         = Err NotFittedError
       ∧ (@scale_numeric_features Sample.numpy Sample.batch false (init "is_fraud")).2
         = Err NotFittedError).
Proof.
  split; [reflexivity|]. split; [reflexivity|]. intros [He _].
  vm_compute in He. discriminate.
Qed.

(** C4, amended: on a preprocessor with no fitted encoder (in particular
    one that was never fitted) [encode_categorical_features] in apply mode
    raises nothing and returns the batch unchanged, and with no scaler
    [scale_numeric_features] in apply mode raises nothing and returns the
    batch unchanged; the preprocessor is left as it was. *)
Theorem apply_before_fit_passes_through `{NumPy} `{Pandas} (self : t) (df : DataFrame) :
  (label_encoders self = ∅ →
     encode_categorical_features df false self = (self, Ok df))
  ∧ (scaler self = None →
     scale_numeric_features df false self = (self, Ok df)).
Proof. split; [apply encode_without_encoders | apply scale_without_scaler]. Qed.

Lemma apply_before_fit_passes_through_witness :
  @encode_categorical_features Sample.pandas Sample.batch false (init "is_fraud")
    = (init "is_fraud", Ok Sample.batch)
  ∧ @scale_numeric_features Sample.numpy Sample.batch false (init "is_fraud")
    = (init "is_fraud", Ok Sample.batch).
Proof.
  split;
    apply (apply_before_fit_passes_through (H := Sample.numpy) (H0 := Sample.pandas)
             (init "is_fraud") Sample.batch); reflexivity.
Defined.
End apply_before_fit.

(** ** The order on category strings *)

Lemma str_lt_ltb a b : String.ltb a b = true ↔ str_lt a b.
Proof. unfold String.ltb, str_lt. by destruct (String.compare a b). Qed.

Lemma str_lt_irrefl a : ¬ str_lt a a.
Proof.
  unfold str_lt. intros Hlt.
  pose proof (proj2 (OrderedTypeEx.String_as_OT.cmp_eq a a) eq_refl) as He.
  unfold OrderedTypeEx.String_as_OT.cmp in He. congruence.
Qed.

#[local] Instance str_lt_trans : Transitive str_lt.
Proof.
  intros a b c Hab Hbc. apply OrderedTypeEx.String_as_OT.cmp_lt.
  eapply OrderedTypeEx.String_as_OT.lt_trans;
    by apply OrderedTypeEx.String_as_OT.cmp_lt.
Qed.

Lemma str_gt_lt a b : String.compare a b = Gt → str_lt b a.
Proof.
  unfold str_lt. rewrite (String.compare_antisym a b).
  by destruct (String.compare b a).
Qed.

Lemma str_lt_asym a b : str_lt a b → ¬ str_lt b a.
Proof. intros Hab Hba. apply (str_lt_irrefl a). by etrans. Qed.

(** ** [LabelEncoder]: the fitted classes *)

Section label_encoder.
Import LabelEncoder.

Lemma elem_of_insert_sorted x y l : y ∈ insert_sorted x l ↔ y = x ∨ y ∈ l.
Proof.
  induction l as [|z l IH]; simpl.
  - rewrite list_elem_of_singleton, elem_of_nil. tauto.
  - destruct (String.compare x z) eqn:Hc.
    + apply String.compare_eq_iff in Hc as ->. rewrite elem_of_cons. tauto.
    + rewrite elem_of_cons. tauto.
    + rewrite !elem_of_cons, IH. tauto.
Qed.

Lemma elem_of_np_unique x ys : x ∈ np_unique ys ↔ x ∈ ys.
Proof.
  unfold np_unique. induction ys as [|y ys IH]; simpl; [done|].
  rewrite elem_of_insert_sorted, IH, elem_of_cons. done.
Qed.

Lemma insert_sorted_sorted x l :
  StronglySorted str_lt l → StronglySorted str_lt (insert_sorted x l).
Proof.
  induction 1 as [|z l Hl IH Hz]; simpl.
  - by repeat constructor.
  - destruct (String.compare x z) eqn:Hc.
    + by constructor.
    + constructor; [by constructor|]. constructor; [done|].
      eapply Forall_impl; [exact Hz|]. intros w Hw. by etrans.
    + constructor; [done|]. apply Forall_forall. intros w Hw.
      apply elem_of_insert_sorted in Hw as [->|Hw]; [by apply str_gt_lt|].
      by eapply Forall_forall in Hz.
Qed.

Lemma np_unique_sorted ys : StronglySorted str_lt (np_unique ys).
Proof.
  unfold np_unique. induction ys; simpl; [constructor | by apply insert_sorted_sorted].
Qed.

Lemma sorted_NoDup l : StronglySorted str_lt l → NoDup l.
Proof.
  induction 1 as [|z l Hl IH Hz]; constructor; [|done].
  intros Hin. eapply Forall_forall in Hz; [|done]. by apply str_lt_irrefl in Hz.
Qed.

(** The classes depend on the set of fitted values only. *)
Lemma np_unique_ext ys ys' :
  (∀ x, x ∈ ys ↔ x ∈ ys') → np_unique ys = np_unique ys'.
Proof.
  intros Hext.
  apply (StronglySorted_unique_strong str_lt); [|apply np_unique_sorted..|].
  - intros a b _ _ Hab Hba. by destruct (str_lt_asym a b).
  - apply NoDup_Permutation; [apply sorted_NoDup, np_unique_sorted..|].
    intros x. by rewrite !elem_of_np_unique.
Qed.

Lemma searchsorted_below classes x :
  Forall (str_lt x) classes → searchsorted classes x = 0%Z.
Proof.
  unfold searchsorted. induction 1 as [|z l Hz _ IH]; [done|].
  rewrite filter_cons_False; [done|].
  rewrite str_lt_ltb. by apply str_lt_asym.
Qed.

(** On sorted classes [searchsorted] of the [i]-th class is [i]. *)
Lemma searchsorted_lookup classes i x :
  StronglySorted str_lt classes → classes !! i = Some x →
  searchsorted classes x = Z.of_nat i.
Proof.
  intros Hs. revert i.
  induction Hs as [|z l Hl IH Hz]; intros i Hi; [done|].
  destruct i as [|i]; simpl in Hi.
  - injection Hi as ->. unfold searchsorted.
    rewrite filter_cons_False by (rewrite str_lt_ltb; apply str_lt_irrefl).
    by apply searchsorted_below.
  - specialize (IH i Hi). unfold searchsorted in *.
    rewrite filter_cons_True; [simpl; lia|].
    rewrite str_lt_ltb. eapply Forall_forall in Hz; [done|].
    by eapply list_elem_of_lookup_2.
Qed.

Lemma searchsorted_nonneg classes x : (0 ≤ searchsorted classes x)%Z.
Proof. unfold searchsorted. lia. Qed.

(** The lookup of the apply path: the fitted code of a known value, the
    sentinel for any other. *)
Lemma encode_or_sentinel_seen classes x :
  x ∈ classes → encode_or_sentinel classes x = Ok (searchsorted classes x).
Proof.
  intros Hin. unfold encode_or_sentinel, transform.
  rewrite decide_True by done. rewrite decide_True; [done|].
  by apply Forall_singleton.
Qed.

Lemma encode_or_sentinel_unseen classes x :
  x ∉ classes → encode_or_sentinel classes x = Ok (-1)%Z.
Proof. intros Hin. unfold encode_or_sentinel. by rewrite decide_False. Qed.

Lemma mapM_encode_or_sentinel classes xs :
  mapM (encode_or_sentinel classes) xs = Ok (sentinel_code classes <$> xs).
Proof.
  induction xs as [|x xs IH]; [done|].
  simpl. rewrite IH. unfold sentinel_code at 2. case_decide.
  - by rewrite encode_or_sentinel_seen.
  - by rewrite encode_or_sentinel_unseen.
Qed.

Lemma apply_encoder_total `{Pandas} classes s :
  apply_encoder classes s = Ok (NumCol (of_Z ∘ sentinel_code classes <$> astype_str s)).
Proof.
  unfold apply_encoder. rewrite mapM_encode_or_sentinel. simpl.
  by rewrite <- list_fmap_compose.
Qed.
End label_encoder.

(** ** Encoding in apply mode *)

Section encode_apply.
Import DataPreprocessor.

Lemma encode_column_apply `{Pandas} df col self :
  ∃ df', encode_column false df col self = (self, Ok df')
         ∧ columns df' = columns df
         ∧ (∀ classes s, col ∈ columns df → label_encoders self !! col = Some classes →
              df_lookup df col = Some s →
              df' = df_setitem df col (NumCol (of_Z ∘ sentinel_code classes <$> astype_str s))).
Proof.
  unfold encode_column. case_decide as Hin; [|by eexists].
  unfold mbind, M_bind, get, lift.
  destruct (label_encoders self !! col) as [classes|] eqn:Hle; [|by eexists].
  apply df_lookup_is_Some in Hin as Hs. destruct Hs as [s Hs].
  rewrite (proj2 (df_getitem_Ok _ _ _) Hs), apply_encoder_total. simpl.
  eexists. split; [done|]. split; [by apply columns_setitem_present|].
  intros ?? _ [= <-] Hs'. rewrite Hs in Hs'. by injection Hs' as <-.
Qed.

(** Apply mode never raises and leaves the preprocessor as it was. *)
Lemma encode_columns_apply `{Pandas} cols df self :
  ∃ df', encode_columns false df cols self = (self, Ok df').
Proof.
  revert df. induction cols as [|col cols IH]; intros df; [by eexists|].
  simpl. unfold mbind at 1, M_bind.
  destruct (encode_column_apply df col self) as (df1 & -> & _). apply IH.
Qed.

Lemma encode_apply_state `{Pandas} df self :
  (encode_categorical_features df false self).1 = self.
Proof.
  unfold encode_categorical_features, mbind, M_bind, get.
  by destruct (encode_columns_apply (categorical_features self) df self) as [df' ->].
Qed.
End encode_apply.

(** ** Unseen categories and code assignment *)

Section encoder_claims.
Import LabelEncoder.

(** C5: after a fit on [values], the apply-mode lookup gives -1, without
    raising, for a category that is not among [values], and the code given
    at fit time for one that is; a whole column is encoded cell by cell and
    never raises, a column of a fitted preprocessor included.  An encoder
    fit on food and gas maps travel to -1. *)
Theorem unseen_category_sentinel `{Pandas} (values : list string) :
  let classes := (fit_transform values).1 in
  let codes := (fit_transform values).2 in
  (∀ x, x ∉ values → encode_or_sentinel classes x = Ok (-1)%Z)
  ∧ (∀ i x, values !! i = Some x →
       ∃ c, codes !! i = Some c ∧ (0 ≤ c)%Z ∧ encode_or_sentinel classes x = Ok c)
  ∧ (∀ s : Series, ∃ out,
       apply_encoder classes s = Ok (NumCol out)
       ∧ length out = series_len s
       ∧ ∀ i x, astype_str s !! i = Some x →
           out !! i = Some (of_Z (if decide (x ∈ values)
                                  then searchsorted classes x else -1)))
  ∧ (∀ self df col s,
       DataPreprocessor.label_encoders self !! col = Some classes →
       df_lookup df col = Some s →
       DataPreprocessor.encode_column false df col self
       = (self, Ok (df_setitem df col
                      (NumCol (of_Z ∘ sentinel_code classes <$> astype_str s)))))
  ∧ encode_or_sentinel (fit_transform ["food"; "gas"]).1 "travel" = Ok (-1)%Z.
Proof.
  simpl. repeat split.
  - intros x Hx. apply encode_or_sentinel_unseen. by rewrite elem_of_np_unique.
  - intros i x Hi. exists (searchsorted (np_unique values) x).
    split; [by rewrite list_lookup_fmap, Hi|].
    split; [apply searchsorted_nonneg|].
    apply encode_or_sentinel_seen, elem_of_np_unique. by eapply list_elem_of_lookup_2.
  - intros s. eexists. split; [apply apply_encoder_total|]. split.
    + rewrite length_fmap. destruct s; simpl; by rewrite length_fmap.
    + intros i x Hi. rewrite list_lookup_fmap, Hi. simpl. unfold sentinel_code.
      do 2 f_equal. by do 2 case_decide; rewrite ?elem_of_np_unique in *.
  - intros self df col s Hle Hs.
    destruct (encode_column_apply df col self) as (df' & -> & _ & Hdf').
    do 2 f_equal. eapply Hdf'; [|done..]. apply df_lookup_is_Some. by eexists.
Qed.

Lemma unseen_category_sentinel_witness :
  let classes := (fit_transform ["gas"; "food"; "gas"]).1 in
  encode_or_sentinel classes "travel" = Ok (-1)%Z
  ∧ (∃ c, (fit_transform ["gas"; "food"; "gas"]).2 !! 0%nat = Some c ∧ (0 ≤ c)%Z
          ∧ encode_or_sentinel classes "gas" = Ok c)
  ∧ (∃ out, @apply_encoder Sample.pandas classes (ObjCol [Some "gas"; Some "travel"; None])
            = Ok (NumCol out) ∧ length out = 3%nat).
Proof.
  destruct (unseen_category_sentinel (H := Sample.pandas) ["gas"; "food"; "gas"])
    as (Hnew & Hold & Hcol & _).
  split; [apply Hnew; by_compute|]. split.
  - exact (Hold 0%nat "gas" eq_refl).
  - destruct (Hcol (ObjCol [Some "gas"; Some "travel"; None])) as (out & Hout & Hlen & _).
    by exists out.
Defined.
End encoder_claims.

Section code_assignment.
Import LabelEncoder.

(** C6, as stated: a fit would give the codes in order of first
    appearance.  Fitted on gas then food, the encoder gives gas the code 1
    and food the code 0, where first appearance gives gas the code 0. *)
Lemma first_seen_codes_counterexample :
  ¬ (∀ values x, x ∈ values →
       Some (searchsorted (fit_transform values).1 x) = Spec.first_seen_code values x).
Proof.
  intros Hclaim. specialize (Hclaim ["gas"; "food"] "gas").
  assert ("gas" ∈ ["gas"; "food"]) as Hin by by_compute.
  apply Hclaim in Hin. vm_compute in Hin. discriminate.
Qed.

(** C6, amended: a fit assigns the codes in increasing lexicographic order
    of the distinct category strings: the classes are the fitted values
    without repetition in strictly increasing order, the [i]-th of them has
    the code [i], each fitted value is written as its code, and two
    columns with the same set of values, in any order of appearance, get
    the same classes.  Encoding in apply mode leaves the fitted state
    unchanged. *)
Theorem codes_follow_sorted_order `{Pandas} (values : list string) :
  let classes := (fit_transform values).1 in
  let codes := (fit_transform values).2 in
  StronglySorted str_lt classes
  ∧ (∀ x, x ∈ classes ↔ x ∈ values)
  ∧ (∀ i x, classes !! i = Some x → searchsorted classes x = Z.of_nat i)
  ∧ codes = searchsorted classes <$> values
  ∧ (∀ values', (∀ x, x ∈ values ↔ x ∈ values') → (fit_transform values').1 = classes)
  ∧ (∀ df self, (DataPreprocessor.encode_categorical_features df false self).1 = self).
Proof.
  simpl. split; [apply np_unique_sorted|].
  split; [intros x; apply elem_of_np_unique|].
  split; [intros i x; apply searchsorted_lookup, np_unique_sorted|].
  split; [done|].
  split; [intros values' Hext; symmetry; by apply np_unique_ext|].
  intros df self. apply encode_apply_state.
Qed.

Lemma codes_follow_sorted_order_witness :
  searchsorted (fit_transform ["gas"; "food"; "gas"]).1 "food" = 0%Z
  ∧ searchsorted (fit_transform ["gas"; "food"; "gas"]).1 "gas" = 1%Z
  ∧ (fit_transform ["food"; "gas"]).1 = (fit_transform ["gas"; "food"; "gas"]).1.
Proof.
  destruct (codes_follow_sorted_order (H := Sample.pandas) ["gas"; "food"; "gas"])
    as (_ & _ & Hcode & _ & Hperm & _).
  split; [exact (Hcode 0%nat "food" eq_refl)|].
  split; [exact (Hcode 1%nat "gas" eq_refl)|].
  apply Hperm. intros x. rewrite !elem_of_cons, !elem_of_nil. tauto.
Defined.
End code_assignment.

(** ** Sums of equal values *)

Section scaler.
Import StandardScaler.

Lemma Qsum_constant c v :
  Forall (λ q, (q == c)%Q) v → (Qsum v == count v * c)%Q.
Proof.
  unfold count. induction 1 as [|q v Hq _ IH]; [simpl; ring|].
  rewrite length_cons, Nat2Z.inj_succ, <- Z.add_1_r, inject_Z_plus. simpl.
  rewrite IH, Hq. ring.
Qed.
End scaler.

(** ** Rounding to binary64 *)

Section binary64.
Import Floats Float64.
#[local] Open Scope Z_scope.

Lemma iter_pos_invariant {A} (P : A → Prop) (f : A → A) :
  (∀ x, P x → P (f x)) → ∀ p x, P x → P (iter_pos f p x).
Proof.
  intros Hf. induction p as [p IH|p IH|]; intros x Hx; simpl; auto.
Qed.

Lemma shr_1_bounds mrs m :
  0 ≤ shr_m mrs ≤ m → 0 ≤ shr_m (shr_1 mrs) ≤ m.
Proof.
  destruct mrs as [[|[p|p|]|p] r s]; simpl; lia.
Qed.

Lemma shr_bounds mrs e n m :
  0 ≤ shr_m mrs ≤ m → 0 ≤ shr_m (shr mrs e n).1 ≤ m.
Proof.
  intros H. destruct n as [|p|p]; simpl; try done.
  apply (iter_pos_invariant (λ r, 0 ≤ shr_m r ≤ m)); [|done].
  intros x. apply shr_1_bounds.
Qed.

Lemma shr_record_of_loc_m m l : shr_m (shr_record_of_loc m l) = m.
Proof. by destruct l as [|[]]. Qed.

Lemma shr_fexp_bounds m e l :
  0 ≤ m → 0 ≤ shr_m (shr_fexp prec emax m e l).1 ≤ m.
Proof.
  intros H. unfold shr_fexp. apply shr_bounds. rewrite shr_record_of_loc_m. lia.
Qed.

Lemma shr_snd mrs e n : (shr mrs e n).2 = Z.max e (e + n).
Proof. destruct n; simpl; lia. Qed.

Lemma shr_fexp_snd m e l :
  (shr_fexp prec emax m e l).2 = Z.max e (fexp prec emax (Zdigits2 m + e)).
Proof. unfold shr_fexp. rewrite shr_snd. lia. Qed.

Lemma round_nearest_even_bounds m l :
  0 ≤ m → m ≤ round_nearest_even m l ≤ m + 1.
Proof.
  intros H. destruct l as [|[]]; simpl; try lia. destruct (Z.even m); lia.
Qed.

Lemma digits2_pos_size p : digits2_pos p = Pos.size p.
Proof. induction p; simpl; by f_equal. Qed.

Lemma Zdigits2_bounds m :
  0 < m → 2 ^ (Zdigits2 m - 1) ≤ m < 2 ^ Zdigits2 m.
Proof.
  destruct m as [|p|p]; try lia. intros _. simpl. rewrite digits2_pos_size.
  pose proof (Pos.size_gt p) as Hgt. pose proof (Pos.size_le p) as Hle.
  split.
  - assert (2 ^ Z.pos (Pos.size p) ≤ 2 * Z.pos p) as H.
    { change (2 * Z.pos p) with (Z.pos p~0). rewrite <- Pos2Z.inj_pow. by apply Pos2Z.pos_le_pos. }
    replace (Z.pos (Pos.size p)) with (Z.succ (Z.pos (Pos.size p) - 1)) in H by lia.
    rewrite Z.pow_succ_r in H by lia. lia.
  - rewrite <- Pos2Z.inj_pow. by apply Pos2Z.pos_lt_pos.
Qed.

Lemma Zdigits2_nonneg m : 0 ≤ Zdigits2 m.
Proof. destruct m; simpl; lia. Qed.

Lemma Zdigits2_le m d : 0 ≤ m < 2 ^ d → 0 ≤ d → Zdigits2 m ≤ d.
Proof.
  intros [H0 Hm] Hd. destruct (decide (m = 0)) as [->|Hne]; [done|].
  pose proof (Zdigits2_bounds m ltac:(lia)) as [Hlo _].
  destruct (decide (Zdigits2 m ≤ d)) as [|Hgt]; [done|].
  assert (2 ^ d ≤ 2 ^ (Zdigits2 m - 1)) by (apply Z.pow_le_mono_r; lia). lia.
Qed.

(** Rounding a nonnegative mantissa keeps the sign and is never NaN. *)
Lemma binary_round_aux_signed s m e l :
  0 ≤ m → signed s (binary_round_aux prec emax s m e l).
Proof.
  intros Hm. unfold binary_round_aux.
  pose proof (shr_fexp_bounds m e l Hm) as H1.
  destruct (shr_fexp prec emax m e l) as [mrs' e'] eqn:E1. simpl in H1.
  pose proof (round_nearest_even_bounds (shr_m mrs') (loc_of_shr_record mrs') ltac:(lia)) as H2.
  set (m1 := round_nearest_even _ _) in *.
  pose proof (shr_fexp_bounds m1 e' loc_Exact ltac:(lia)) as H3.
  destruct (shr_fexp prec emax m1 e' loc_Exact) as [mrs'' e''] eqn:E2. simpl in H3.
  destruct (shr_m mrs'') as [|p|p]; [by left| |lia].
  destruct (e'' <=? emax - prec); [right; left; by eexists _, _ | by right; right].
Qed.

(** With room above the exponent, rounding does not overflow. *)
Lemma binary_round_aux_finite s m e l d :
  0 ≤ m < 2 ^ d → 0 ≤ d → e + 2 * d ≤ 900 → d ≤ 900 →
  binary_round_aux prec emax s m e l = S754_zero s
  ∨ ∃ m' e', binary_round_aux prec emax s m e l = S754_finite s m' e'.
Proof.
  intros Hm Hd He Hd'. unfold binary_round_aux.
  pose proof (shr_fexp_bounds m e l ltac:(lia)) as H1.
  pose proof (shr_fexp_snd m e l) as S1.
  destruct (shr_fexp prec emax m e l) as [mrs' e'] eqn:E1. simpl in H1, S1.
  pose proof (round_nearest_even_bounds (shr_m mrs') (loc_of_shr_record mrs') ltac:(lia)) as H2.
  set (m1 := round_nearest_even _ _) in *.
  pose proof (shr_fexp_bounds m1 e' loc_Exact ltac:(lia)) as H3.
  pose proof (shr_fexp_snd m1 e' loc_Exact) as S2.
  destruct (shr_fexp prec emax m1 e' loc_Exact) as [mrs'' e''] eqn:E2. simpl in H3, S2.
  destruct (shr_m mrs'') as [|p|p]; [by left| |lia].
  right. exists p, e''.
  assert (Zdigits2 m ≤ d) as D0 by (by apply Zdigits2_le).
  assert (Zdigits2 m1 ≤ d + 1) as D1.
  { apply Zdigits2_le; [|lia]. rewrite Z.pow_add_r by lia. lia. }
  pose proof (Zdigits2_nonneg m). pose proof (Zdigits2_nonneg m1).
  assert (e'' ≤ emax - prec) as Hle.
  { revert S1 S2. unfold fexp, SpecFloat.emin, prec, emax. lia. }
  apply Z.leb_le in Hle. by rewrite Hle.
Qed.




End binary64.

(** ** Binary64 arithmetic on finite numbers *)

Section float64.
Import Floats Float64.

Lemma Prim2SF_zero : Prim2SF 0 = S754_zero false.
Proof. reflexivity. Qed.

Lemma finite_cases c :
  is_finite c = true →
  (∃ s, Prim2SF c = S754_zero s) ∨ (∃ s m e, Prim2SF c = S754_finite s m e).
Proof.
  unfold is_finite, is_nan, is_infinity. rewrite !eqb_spec, abs_spec.
  change (Prim2SF infinity) with (S754_infinity false).
  destruct (Prim2SF c) as [s|s| |s m e]; simpl; try done.
  - intros _. left. by exists s.
  - by destruct s.
  - intros _. right. by exists s, m, e.
Qed.






Lemma SFmul_signed_finite s x sy my ey :
  signed s x → signed (xorb s sy) (SF64mul x (S754_finite sy my ey)).
Proof.
  intros [->|[(m & e & ->)| ->]]; simpl.
  - by left.
  - by apply binary_round_aux_signed.
  - by right; right.
Qed.

Lemma SFmul_signed_square s x : signed s x → signed false (SF64mul x x).
Proof.
  intros [->|[(m & e & ->)| ->]]; simpl.
  - left. by destruct s.
  - replace false with (xorb s s) by (by destruct s). by apply binary_round_aux_signed.
  - right; right. by destruct s.
Qed.

Lemma finite_signed c : is_finite c = true → ∃ s, signed s (Prim2SF c).
Proof.
  intros [[s ->]|(s & m & e & ->)]%finite_cases; exists s; [by left|].
  right; left. by eexists _, _.
Qed.

Lemma leb_zero_signed x : signed false (Prim2SF x) → (0 <=? x)%float = true.
Proof.
  rewrite leb_spec, Prim2SF_zero. by intros [->|[(m & e & ->)| ->]].
Qed.

Lemma add_zero_signed x :
  signed false (Prim2SF x) → signed false (Prim2SF (0 + x)%float).
Proof.
  rewrite add_spec, Prim2SF_zero. intros [->|[(m & e & ->)| ->]]; simpl.
  - by left.
  - right; left. by eexists _, _.
  - by right; right.
Qed.

Lemma Prim2SF_eps : Prim2SF Float64.eps = S754_finite false 4503599627370496 (-104).
Proof. reflexivity. Qed.

(** The bound of [_is_constant_feature] for a variance of zero. *)
Lemma count_eps_zero nf m e :
  Prim2SF nf = S754_finite false m e → (Z.pos m < 2 ^ 53)%Z → (-52 ≤ e ≤ 0)%Z →
  (nf * Float64.eps * 0 = 0)%float.
Proof.
  intros E Hm He. apply Prim2SF_inj.
  rewrite mul_spec, mul_spec, Prim2SF_zero, E, Prim2SF_eps.
  unfold SF64mul at 2. unfold SFmul. simpl xorb.
  destruct (binary_round_aux_finite false (Z.pos (m * 4503599627370496)) (e + -104)
              loc_Exact 105) as [->|(m' & e' & ->)]; try done; lia.
Qed.

Lemma square_bound_signed nf c m e :
  Prim2SF nf = S754_finite false m e → is_finite c = true →
  signed false (Prim2SF ((nf * c * Float64.eps) * (nf * c * Float64.eps))%float).
Proof.
  intros E [s Hc]%finite_signed.
  rewrite mul_spec. apply (SFmul_signed_square (xorb (xorb false s) false)).
  rewrite mul_spec, Prim2SF_eps. apply SFmul_signed_finite.
  rewrite mul_spec, E.
  destruct Hc as [->|[(mc & ec & ->)| ->]]; simpl.
  - by left.
  - by apply binary_round_aux_signed.
  - by right; right.
Qed.







Lemma constant_mask nf c m e :
  Prim2SF nf = S754_finite false m e → (Z.pos m < 2 ^ 53)%Z → (-52 ≤ e ≤ 0)%Z →
  is_finite c = true →
  Float64.is_constant_feature
    {| Float64.mean := c; Float64.var := 0; Float64.n_samples := nf |} = true.
Proof.
  intros E Hm He Hc. unfold Float64.is_constant_feature.
  cbn [Float64.mean Float64.var Float64.n_samples].
  rewrite (count_eps_zero nf m e) by done.
  apply leb_zero_signed, add_zero_signed. by eapply square_bound_signed.
Qed.

End float64.

(** ** Zero-variance columns *)

Section zero_variance.
Import Floats.



End zero_variance.

(** ** Drift detection *)

Section drift.
Import FraudMonitor.
Context `{SciPy}.
Implicit Types (baseline new_data : DataFrame) (threshold : Q).

Lemma elem_of_common_cols baseline new_data col :
  col ∈ common_cols baseline new_data ↔ col ∈ columns baseline ∧ col ∈ columns new_data.
Proof.
  unfold common_cols.
  by rewrite elem_of_elements, elem_of_intersection, !elem_of_list_to_set.
Qed.

Lemma NoDup_common_cols baseline new_data : NoDup (common_cols baseline new_data).
Proof. apply NoDup_elements. Qed.

Lemma flagged_Some baseline new_data threshold col e :
  flagged baseline new_data threshold col = Some e ↔
  ∃ stat p, drifted baseline new_data threshold col stat p ∧ e = mkEntry col p stat.
Proof.
  unfold flagged, test_column, drifted, df_getitem. split.
  - destruct (df_lookup baseline col) as [b|]; simpl; [|done].
    destruct (df_lookup new_data col) as [n|]; simpl; [|done].
    destruct (0 <? series_len (dropna b))%nat eqn:Eb; simpl; [|done].
    destruct (0 <? series_len (dropna n))%nat eqn:En; simpl; [|done].
    apply Nat.ltb_lt in Eb, En.
    destruct (ks_2samp (dropna b) (dropna n)) as [[stat p]|err] eqn:Eks; simpl; [|done].
    destruct (Qltb p threshold) eqn:Ep; [|done].
    apply Qltb_lt in Ep. intros [= <-]. exists stat, p. split; [|done]. by exists b, n.
  - intros (stat & p & (b & n & -> & -> & Hb%Nat.ltb_lt & Hn%Nat.ltb_lt & Hks & Hp%Qltb_lt) & ->).
    simpl. rewrite Hb, Hn. simpl. rewrite Hks. simpl. by rewrite Hp.
Qed.

Lemma drift_step_flagged baseline new_data threshold acc col :
  drift_step baseline new_data threshold acc col =
  match flagged baseline new_data threshold col with
  | Some e => mkResults (timestamp acc) (features_with_drift acc ++ [e]) true
  | None => acc
  end.
Proof.
  unfold drift_step, flagged.
  by destruct (test_column baseline new_data threshold col) as [[e|]|].
Qed.

(** The loop appends the flagged entries in turn, and raises the flag when
    there is one. *)
Lemma drift_loop baseline new_data threshold cols acc :
  let r := foldl (drift_step baseline new_data threshold) acc cols in
  features_with_drift r
  = features_with_drift acc ++ omap (flagged baseline new_data threshold) cols
  ∧ drift_detected r
    = drift_detected acc
      || bool_decide (omap (flagged baseline new_data threshold) cols ≠ [])
  ∧ timestamp r = timestamp acc.
Proof.
  revert acc. induction cols as [|col cols IH]; intros acc; simpl.
  { by rewrite app_nil_r, orb_false_r. }
  destruct (IH (drift_step baseline new_data threshold acc col)) as (IHf & IHd & IHt).
  rewrite IHf, IHd, IHt, drift_step_flagged.
  destruct (flagged baseline new_data threshold col) as [e|]; simpl; [|done].
  by rewrite <- app_assoc, orb_true_r.
Qed.

Lemma detect_features (self : t) new_data threshold now :
  features_with_drift (detect_data_drift self new_data threshold now).2
  = omap (flagged (baseline_data self) new_data threshold)
         (common_cols (baseline_data self) new_data).
Proof. unfold detect_data_drift. simpl. by rewrite (proj1 (drift_loop _ _ _ _ _)). Qed.

Lemma detect_flag (self : t) new_data threshold now :
  drift_detected (detect_data_drift self new_data threshold now).2 = true ↔
  features_with_drift (detect_data_drift self new_data threshold now).2 ≠ [].
Proof.
  rewrite detect_features. unfold detect_data_drift. simpl.
  rewrite (proj1 (proj2 (drift_loop _ _ _ _ _))). simpl.
  by rewrite bool_decide_eq_true.
Qed.

Lemma elem_of_detect_features (self : t) new_data threshold now e :
  e ∈ features_with_drift (detect_data_drift self new_data threshold now).2 ↔
  ∃ stat p, drifted (baseline_data self) new_data threshold (feature e) stat p
            ∧ e = mkEntry (feature e) p stat.
Proof.
  rewrite detect_features, list_elem_of_omap. split.
  - intros (col & _ & (stat & p & Hd & ->)%flagged_Some). by exists stat, p.
  - intros (stat & p & Hd & He). exists (feature e). split.
    + apply elem_of_common_cols. destruct Hd as (b & n & Hb & Hn & _).
      split; apply df_lookup_is_Some; by eexists.
    + apply flagged_Some. by exists stat, p.
Qed.
End drift.

Section drift_claims.
Import FraudMonitor.

Lemma flagged_features_sublist `{SciPy} baseline new_data threshold cols :
  feature <$> omap (flagged baseline new_data threshold) cols `sublist_of` cols.
Proof.
  induction cols as [|col cols IH]; simpl; [done|].
  destruct (flagged baseline new_data threshold col) as [e|] eqn:He; simpl.
  - apply flagged_Some in He as (stat & p & _ & ->). simpl. by apply sublist_skip.
  - by apply sublist_cons.
Qed.

(** C7: the scan reports drift exactly when some column of both frames,
    with values left in both after dropping the missing ones, has a
    Kolmogorov–Smirnov p-value strictly below the threshold; a column of
    only one frame, or with no value left in one of them, is never
    flagged. *)
Theorem drift_detected_iff `{SciPy} (self : t) (new_data : DataFrame)
    (threshold : Q) (now : string) :
  let res := (detect_data_drift self new_data threshold now).2 in
  (drift_detected res = true ↔
     ∃ col stat p, col ∈ columns (baseline_data self) ∧ col ∈ columns new_data
                   ∧ drifted (baseline_data self) new_data threshold col stat p)
  ∧ (∀ col,
       col ∉ columns (baseline_data self) ∨ col ∉ columns new_data
       ∨ (∃ b n, df_lookup (baseline_data self) col = Some b
                 ∧ df_lookup new_data col = Some n
                 ∧ (series_len (dropna b) = 0%nat ∨ series_len (dropna n) = 0%nat)) →
       col ∉ feature <$> features_with_drift res).
Proof.
  cbv zeta. split.
  - rewrite detect_flag. split.
    + intros Hne.
      destruct (features_with_drift (detect_data_drift self new_data threshold now).2)
        as [|e l] eqn:El; [done|].
      assert (e ∈ features_with_drift (detect_data_drift self new_data threshold now).2)
        as (stat & p & Hd & _)%elem_of_detect_features by (rewrite El; left).
      exists (feature e), stat, p. destruct Hd as (b & n & Hb & Hn & Hrest).
      split; [apply df_lookup_is_Some; by eexists|].
      split; [apply df_lookup_is_Some; by eexists|]. by exists b, n.
    + intros (col & stat & p & _ & _ & Hd) Hnil.
      assert (mkEntry col p stat
              ∈ features_with_drift (detect_data_drift self new_data threshold now).2)
        as Hin by (apply elem_of_detect_features; by exists stat, p).
      rewrite Hnil in Hin. by apply elem_of_nil in Hin.
  - intros col Hskip (e & -> & (stat & p & Hd & _)%elem_of_detect_features)%list_elem_of_fmap.
    destruct Hd as (b & n & Hb & Hn & Hlb & Hln & _).
    destruct Hskip as [Hc|[Hc|(b' & n' & Hb' & Hn' & Hlen)]].
    + apply Hc, df_lookup_is_Some. by eexists.
    + apply Hc, df_lookup_is_Some. by eexists.
    + rewrite Hb in Hb'. rewrite Hn in Hn'. injection Hb' as <-. injection Hn' as <-. lia.
Qed.

Lemma drift_detected_iff_witness :
  drift_detected
    (@detect_data_drift Sample.scipy (mk Sample.baseline []) Sample.shifted (5 # 100) "t0").2
  = true
  ∧ ("age" ∉ feature <$> features_with_drift
      (@detect_data_drift Sample.scipy (mk Sample.baseline []) Sample.shifted (5 # 100) "t0").2)
  ∧ ("channel" ∉ feature <$> features_with_drift
      (@detect_data_drift Sample.scipy (mk Sample.baseline []) Sample.shifted (5 # 100) "t0").2).
Proof.
  destruct (drift_detected_iff (H := Sample.scipy) (mk Sample.baseline []) Sample.shifted
              (5 # 100) "t0") as [Hiff Hskip].
  split; [|split].
  - apply Hiff. exists "amount", 1%Q, 0%Q.
    split; [by_compute|]. split; [by_compute|].
    eexists _, _. repeat split; try reflexivity; simpl; lia.
  - apply Hskip. right. right. eexists _, _.
    split; [reflexivity|]. split; [reflexivity|]. by right.
  - apply Hskip. left. by_compute.
Defined.

(** C10: the result lists one entry, holding the column name, the
    statistic and the p-value, for exactly the tested columns whose p-value
    is strictly below the threshold, each column at most once; a column
    whose test raised, or whose p-value is not below the threshold, has no
    entry. *)
Theorem drift_entries_exact `{SciPy} (self : t) (new_data : DataFrame)
    (threshold : Q) (now : string) :
  let res := (detect_data_drift self new_data threshold now).2 in
  (∀ e, e ∈ features_with_drift res ↔
     ∃ col stat p, drifted (baseline_data self) new_data threshold col stat p
                   ∧ e = mkEntry col p stat)
  ∧ NoDup (feature <$> features_with_drift res)
  ∧ (∀ col b n,
       df_lookup (baseline_data self) col = Some b →
       df_lookup new_data col = Some n →
       raises (ks_2samp (dropna b) (dropna n))
       ∨ (∃ stat p, ks_2samp (dropna b) (dropna n) = Ok (stat, p) ∧ (threshold <= p)%Q) →
       col ∉ feature <$> features_with_drift res).
Proof.
  cbv zeta. split; [|split].
  - intros e. rewrite elem_of_detect_features. split.
    + intros (stat & p & Hd & He). by exists (feature e), stat, p.
    + intros (col & stat & p & Hd & ->). by exists stat, p.
  - rewrite detect_features. eapply sublist_NoDup; [apply NoDup_common_cols|].
    apply flagged_features_sublist.
  - intros col b n Hb Hn Hno
      (e & -> & (stat & p & Hd & _)%elem_of_detect_features)%list_elem_of_fmap.
    destruct Hd as (b' & n' & Hb' & Hn' & _ & _ & Hks & Hp).
    rewrite Hb in Hb'. rewrite Hn in Hn'. injection Hb' as <-. injection Hn' as <-.
    destruct Hno as [[err Herr]|(stat' & p' & Hks' & Hge)].
    + rewrite Hks in Herr. discriminate.
    + rewrite Hks in Hks'. injection Hks' as <- <-. by apply Qlt_not_le in Hp.
Qed.

Lemma drift_entries_exact_witness :
  mkEntry "amount" 0 1
    ∈ features_with_drift
        (@detect_data_drift Sample.scipy (mk Sample.baseline []) Sample.shifted (5 # 100) "t0").2
  ∧ ("score" ∉ feature <$> features_with_drift
      (@detect_data_drift Sample.scipy (mk Sample.baseline []) Sample.shifted (5 # 100) "t0").2).
Proof.
  destruct (drift_entries_exact (H := Sample.scipy) (mk Sample.baseline []) Sample.shifted
              (5 # 100) "t0") as (Hiff & _ & Hno).
  split.
  - apply Hiff. exists "amount", 1%Q, 0%Q. split; [|done].
    eexists _, _. repeat split; try reflexivity; simpl; lia.
  - eapply Hno; [reflexivity..|]. right. exists 0%Q, 1%Q. split; [reflexivity|]. done.
Defined.
End drift_claims.

(** ** The composite risk score *)

Section risk_score.

Lemma Qeq_bool_inject_Z z : Qeq_bool (inject_Z z) 0 = (z =? 0)%Z.
Proof.
  unfold Qeq_bool. simpl. by rewrite Z.mul_1_r.
Qed.

Lemma Qltb_inject_Z a z : Qltb (inject_Z a) (inject_Z z) = (a <? z)%Z.
Proof.
  destruct (Z.ltb_spec a z) as [Hlt|Hge].
  - apply Qltb_lt. by rewrite <- Zlt_Qlt.
  - apply Qltb_ge. by rewrite <- Zle_Qle.
Qed.

(** The serving path computes the four-signal sum of the specification. *)
Lemma serving_risk_score `{NumPy} t now data :
  Api.engineer_features t now = Ok data →
  df_lookup data "risk_score" = Some (NumCol [of_Z (Spec.risk_score_of t)]).
Proof.
  unfold Api.engineer_features, Api.risk_score. simpl.
  intros Hd. rewrite (df_drop_strict_lookup _ _ _ _ Hd) by done. clear Hd. simpl.
  unfold Spec.risk_score_of, Spec.risk_score.
  rewrite Qeq_bool_inject_Z. change 5%Q with (inject_Z 5). rewrite Qltb_inject_Z.
  by destruct (Qltb 1000 _), (Api.card_present t =? 0)%Z, (Qltb 100 _),
       (5 <? Api.num_transactions_24h t)%Z.
Qed.

(** The training path adds a weekend term, which the truncation to an
    integer always makes 0, and 1 outside the peak hours. *)
Lemma training_risk_score `{NumPy} `{Pandas} t ts df :
  FeatureEngineer.fit_transform (training_frame t ts) = Ok df →
  df_lookup df "risk_score"
  = Some (NumCol [of_Z (Spec.risk_score_of t + (if off_peak ts then 1 else 0))]).
Proof.
  unfold FeatureEngineer.fit_transform, training_frame. simpl.
  unfold FeatureEngineer.create_risk_score, FeatureEngineer.weekend_term,
    FeatureEngineer.offpeak_term. simpl.
  intros [= <-]. repeat df_step.
  unfold Spec.risk_score_of, Spec.risk_score, off_peak. simpl.
  rewrite Qeq_bool_inject_Z. change 5%Q with (inject_Z 5) at 1. rewrite Qltb_inject_Z.
  destruct (Qltb 1000 _), (Api.card_present t =? 0)%Z, (Qltb 100 _),
    (5 <? Api.num_transactions_24h t)%Z, (Qle_bool 5 _),
    (_ || _); reflexivity.
Qed.

(** C2, at the end-to-end record of the specification received at 03:00 on
    a weekday: the serving path scores 5, the sum of the four weighted
    signals, and the training path scores 6 on the same record. *)
Theorem risk_score_train_serve_diverge :
  (∃ data, @Api.engineer_features Sample.numpy Sample.transaction Sample.night = Ok data
           ∧ df_lookup data "risk_score" = Some (NumCol [Some 5%Q]))
  ∧ (∃ df, @FeatureEngineer.fit_transform Sample.numpy Sample.pandas
             (training_frame Sample.transaction Sample.night) = Ok df
           ∧ df_lookup df "risk_score" = Some (NumCol [Some 6%Q]))
  ∧ Spec.risk_score_of Sample.transaction = 5%Z
  ∧ Api.valid Sample.transaction.
Proof.
  split; [|split; [|split]].
  - eexists. split; [vm_compute; reflexivity|]. reflexivity.
  - eexists. split; [vm_compute; reflexivity|]. reflexivity.
  - reflexivity.
  - unfold Api.valid. simpl. repeat split; first [lia | by apply Qle_bool_iff].
Qed.
End risk_score.

(** ** Train/serve parity of the preprocessor *)

Section parity.
Import DataPreprocessor.
#[local] Arguments StandardScaler.transform : simpl never.
#[local] Arguments StandardScaler.fit : simpl never.

Lemma bind_Ok {A B} (m : M A) (f : A → M B) self self' b :
  (m ≫= f) self = (self', Ok b) →
  ∃ a s1, m self = (s1, Ok a) ∧ f a s1 = (self', Ok b).
Proof.
  unfold mbind, M_bind. destruct (m self) as [s1 [a|e]]; [|done]. by exists a, s1.
Qed.

Lemma lift_Ok {A} (r : result A) self self' a :
  lift r self = (self', Ok a) → self' = self ∧ r = Ok a.
Proof. unfold lift. by intros [= -> ->]. Qed.

(** Fitting the encoders touches nothing but the encoders of the columns
    it visits. *)
Lemma encode_column_fit_frame `{Pandas} df col self self' r :
  encode_column true df col self = (self', r) →
  target_col self' = target_col self ∧ scaler self' = scaler self
  ∧ numeric_features self' = numeric_features self
  ∧ categorical_features self' = categorical_features self
  ∧ features_to_drop self' = features_to_drop self
  ∧ ∀ c, c ≠ col → label_encoders self' !! c = label_encoders self !! c.
Proof.
  unfold encode_column. case_decide; [|by intros [= <- _]].
  unfold mbind, M_bind, lift. destruct (df_getitem df col); [|by intros [= <- _]].
  simpl. intros [= <- _]. simpl. repeat split. intros c Hc. by rewrite lookup_insert_ne.
Qed.

Lemma encode_columns_fit_frame `{Pandas} cols df self self' r :
  encode_columns true df cols self = (self', r) →
  target_col self' = target_col self ∧ scaler self' = scaler self
  ∧ numeric_features self' = numeric_features self
  ∧ categorical_features self' = categorical_features self
  ∧ features_to_drop self' = features_to_drop self
  ∧ ∀ c, c ∉ cols → label_encoders self' !! c = label_encoders self !! c.
Proof.
  revert df self. induction cols as [|col cols IH]; intros df self; simpl.
  { by intros [= <- _]. }
  unfold mbind at 1, M_bind.
  destruct (encode_column true df col self) as [s1 [df1|e]] eqn:E1.
  - intros (-> & -> & -> & -> & -> & Hle)%IH.
    apply encode_column_fit_frame in E1 as (-> & -> & -> & -> & -> & Hle1).
    repeat split. intros c [Hc1 Hc2]%not_elem_of_cons. by rewrite Hle, Hle1.
  - intros [= <- _].
    apply encode_column_fit_frame in E1 as (-> & -> & -> & -> & -> & Hle1).
    repeat split. intros c [Hc1 Hc2]%not_elem_of_cons. by rewrite Hle1.
Qed.

(** On the fitted column itself the apply path never meets an unseen
    category. *)
Lemma sentinel_code_fitted ys :
  of_Z ∘ sentinel_code (LabelEncoder.np_unique ys) <$> ys
  = of_Z <$> (LabelEncoder.searchsorted (LabelEncoder.np_unique ys) <$> ys).
Proof.
  rewrite <- list_fmap_compose. apply list_fmap_ext. intros i y Hy. simpl.
  unfold sentinel_code. rewrite decide_True; [done|].
  apply elem_of_np_unique. by eapply list_elem_of_lookup_2.
Qed.

(** What a fit wrote for a column, the apply path writes again. *)
Lemma encode_columns_parity `{Pandas} cols df self self' df' :
  NoDup cols →
  encode_columns true df cols self = (self', Ok df') →
  ∀ s, (∀ c, c ∈ cols → label_encoders s !! c = label_encoders self' !! c) →
       encode_columns false df cols s = (s, Ok df').
Proof.
  intros Hnd. revert df self. induction Hnd as [|col cols Hnotin Hnd IH];
    intros df self; simpl.
  { by intros [= _ <-]. }
  intros (df1 & s1 & Hcol & Hrest)%bind_Ok s Hs.
  unfold mbind at 1, M_bind.
  assert (encode_column false df col s = (s, Ok df1)) as ->.
  { pose proof (encode_columns_fit_frame _ _ _ _ _ Hrest) as (_ & _ & _ & _ & _ & Hkeep).
    specialize (Hkeep col Hnotin). specialize (Hs col (list_elem_of_here _ _)).
    rewrite Hkeep in Hs. revert Hcol. unfold encode_column.
    case_decide as Hin; [|by intros [= _ <-]].
    apply df_lookup_is_Some in Hin as [sr Hsr].
    unfold mbind, M_bind, get, lift.
    rewrite (proj2 (df_getitem_Ok _ _ _) Hsr). simpl.
    intros [= <- <-]. simpl in Hs. rewrite lookup_insert_eq in Hs. rewrite Hs.
    rewrite apply_encoder_total. simpl. by rewrite sentinel_code_fitted. }
  eapply IH; [done|]. intros c Hc. apply Hs. by right.
Qed.

Lemma encode_fit_frame `{Pandas} df self self' r :
  encode_categorical_features df true self = (self', r) →
  target_col self' = target_col self ∧ scaler self' = scaler self
  ∧ numeric_features self' = numeric_features self
  ∧ categorical_features self' = categorical_features self
  ∧ features_to_drop self' = features_to_drop self.
Proof.
  unfold encode_categorical_features, mbind, M_bind, get.
  intros (? & ? & ? & ? & ? & _)%encode_columns_fit_frame. done.
Qed.

Lemma encode_parity `{Pandas} df self self' df' :
  NoDup (categorical_features self) →
  encode_categorical_features df true self = (self', Ok df') →
  ∀ s, label_encoders s = label_encoders self' →
       categorical_features s = categorical_features self →
       encode_categorical_features df false s = (s, Ok df').
Proof.
  intros Hnd Hfit s Hle Hcat. revert Hfit.
  unfold encode_categorical_features, mbind, M_bind, get. rewrite Hcat.
  intros Hfit. eapply encode_columns_parity; [done..|]. intros c _. by rewrite Hle.
Qed.

(** Scaling at fit time is a fit followed by the transform of apply
    time. *)
Lemma scale_parity `{NumPy} df self self' out :
  scale_numeric_features df true self = (self', Ok out) →
  target_col self' = target_col self
  ∧ label_encoders self' = label_encoders self
  ∧ categorical_features self' = categorical_features self
  ∧ features_to_drop self' = features_to_drop self
  ∧ scale_numeric_features df false self' = (self', Ok out).
Proof.
  unfold scale_numeric_features, mbind, M_bind, get, lift, set_scaler. simpl.
  destruct (select_numeric df (numeric_features self)) as [X|] eqn:HX; [|done].
  destruct (StandardScaler.fit X) as [sc|] eqn:Hsc; [|done]. simpl.
  destruct (StandardScaler.transform sc X) as [X'|] eqn:HX'; [|done].
  intros [= <- <-]. simpl. repeat split. by rewrite HX, HX'.
Qed.
End parity.

Section parity_claim.
Import DataPreprocessor.

Lemma columns_filter_NoDup (P : string * Series → Prop) `{∀ p, Decision (P p)}
    (df : DataFrame) :
  NoDup (columns df) → NoDup (columns (filter P df)).
Proof.
  intros Hnd. eapply sublist_NoDup; [exact Hnd|].
  unfold columns. apply fmap_sublist, sublist_filter.
Qed.

Lemma separate_target_state df self st r :
  separate_target df self = (st, r) →
  st = self ∧ ∀ s, target_col s = target_col self → separate_target df s = (s, r).
Proof.
  unfold separate_target, mbind, M_bind, get, lift. intros Hsep.
  assert (st = self) as ->.
  { revert Hsep. case_decide; [|by intros [= <- _]].
    destruct (df_getitem df (target_col self)); [|by intros [= <- _]].
    destruct (df_drop_strict df (target_col self)); by intros [= <- _]. }
  split; [done|]. intros s ->. revert Hsep. case_decide; [|by intros [= <-]].
  destruct (df_getitem df (target_col self)); [|by intros [= <-]].
  destruct (df_drop_strict df (target_col self)); by intros [= <-].
Qed.

(** C1: when [fit_transform] has run on a batch [B] with distinct column
    labels and returned the matrix [X], a following [transform] of [B] with
    the fitted preprocessor returns the same [X], column for column and
    cell for cell, with the same target vector, and leaves the preprocessor
    unchanged. *)
Theorem train_serve_parity `{NumPy} `{Pandas}
    (self self' : t) (B X : DataFrame) (y : option Series) :
  NoDup (columns B) →
  fit_transform B self = (self', Ok (X, y)) →
  transform B self' = (self', Ok (X, y)).
Proof.
  intros Hnd. unfold fit_transform, transform.
  intros ([] & s1 & Hid & ([y0 dff] & st & Hsep & Hrest)%bind_Ok)%bind_Ok.
  apply separate_target_state in Hsep as [-> Hsep].
  apply bind_Ok in Hrest as (? & ? & [= <- <-] & Hrest).
  apply bind_Ok in Hrest as (enc & s2 & Henc & Hrest).
  apply bind_Ok in Hrest as ([] & ? & [-> _]%lift_Ok & Hrest).
  apply bind_Ok in Hrest as (scaled & s3 & Hscale & [= <- <- <-]).
  pose proof (encode_fit_frame _ _ _ _ Henc) as (Ht2 & _ & _ & Hc2 & Hd2).
  apply scale_parity in Hscale as (Ht3 & Hl3 & Hc3 & Hd3 & Hscale).
  assert (NoDup (categorical_features s1)) as Hcats.
  { injection Hid as <-. simpl. by do 2 apply columns_filter_NoDup. }
  unfold mbind at 1, M_bind.
  rewrite (Hsep s3) by congruence.
  unfold mbind at 1, M_bind, get. unfold mbind at 1, M_bind.
  rewrite Hd3, Hd2.
  rewrite (encode_parity _ _ _ _ Hcats Henc s3) by congruence.
  unfold mbind at 1, M_bind. by rewrite Hscale.
Qed.

Lemma train_serve_parity_witness :
  ∃ self' X y,
    @fit_transform Sample.numpy Sample.pandas Sample.batch (init "is_fraud")
      = (self', Ok (X, y))
    ∧ @transform Sample.numpy Sample.pandas Sample.batch self' = (self', Ok (X, y))
    ∧ columns X = ["amount"; "merchant_category"; "card_present";
                   "avg_transaction_amount_30d"].
Proof.
  destruct (@fit_transform Sample.numpy Sample.pandas Sample.batch (init "is_fraud"))
    as [self' [[X y]|e]] eqn:Hfit; [|by vm_compute in Hfit].
  exists self', X, y. split; [done|]. split.
  - apply (train_serve_parity (H := Sample.numpy) (H0 := Sample.pandas)
             (init "is_fraud") self' Sample.batch X y); [by_compute | exact Hfit].
  - vm_compute in Hfit. by injection Hfit as <- <- <-.
Defined.
End parity_claim.

(** * Properties of the further code *)

(** ** Computing a drop on a frame with known labels *)

Lemma df_drop_nil cols : df_drop [] cols = [].
Proof. done. Qed.

Lemma df_drop_cons_keep c s (df : DataFrame) cols :
  c ∉ cols → df_drop ((c, s) :: df) cols = (c, s) :: df_drop df cols.
Proof. intros Hc. unfold df_drop. by rewrite filter_cons_True. Qed.

Lemma df_drop_cons_drop c s (df : DataFrame) cols :
  c ∈ cols → df_drop ((c, s) :: df) cols = df_drop df cols.
Proof. intros Hc. unfold df_drop. rewrite filter_cons_False; [done|]. simpl. by intros ?. Qed.

Ltac df_drop_compute :=
  repeat first [ rewrite df_drop_cons_keep by by_compute
               | rewrite df_drop_cons_drop by by_compute
               | rewrite df_drop_nil ].

Section serve_vs_train.

(** X1: for every request and clock reading, the feature engineering of
    [predict_fraud] and [FeatureEngineer.fit_transform] on the same record
    with its timestamp both succeed; the served frame has the training
    frame's columns in the same order, less [timestamp], and every column
    other than [risk_score] holds the same cells in both. *)
Theorem serving_features_match_training `{NumPy} `{Pandas}
    (t : Api.Transaction) (now : Timestamp) :
  ∃ data df,
    Api.engineer_features t now = Ok data
    ∧ FeatureEngineer.fit_transform (training_frame t now) = Ok df
    ∧ columns data = filter (λ c, c ≠ "timestamp") (columns df)
    ∧ ∀ c, c ≠ "risk_score" → df_lookup data c = df_lookup (df_drop df ["timestamp"]) c.
Proof.
  eexists _, _. split; [|split; [|split]].
  - unfold Api.engineer_features, Api.risk_score. simpl.
    unfold df_drop_strict. rewrite decide_True by by_compute.
    df_drop_compute. reflexivity.
  - unfold FeatureEngineer.fit_transform, training_frame. simpl.
    unfold FeatureEngineer.create_risk_score, FeatureEngineer.weekend_term,
      FeatureEngineer.offpeak_term. simpl. reflexivity.
  - reflexivity.
  - intros c Hc. df_drop_compute. simpl.
    repeat (case_decide; [done|]). done.
Qed.
End serve_vs_train.
Section no_timestamp.
Import FeatureEngineer.

(** X2: on a batch that has the raw numeric fields and [card_present] but
    no [timestamp] column (and no [is_weekend] column of its own),
    [create_temporal_features] returns the batch unchanged and
    [FeatureEngineer.fit_transform] then fails in [create_risk_score] with an
    [AttributeError]: [df.get('is_weekend', 0)] is the number 0, which has
    no [astype]. *)
Theorem fit_transform_without_timestamp `{NumPy} `{Pandas} (df : DataFrame)
    a avg n24 n7 gap home last card :
  df_lookup df "amount" = Some (NumCol a) →
  df_lookup df "avg_transaction_amount_30d" = Some (NumCol avg) →
  df_lookup df "num_transactions_24h" = Some (NumCol n24) →
  df_lookup df "num_transactions_7d" = Some (NumCol n7) →
  df_lookup df "time_since_last_transaction" = Some (NumCol gap) →
  df_lookup df "distance_from_home" = Some (NumCol home) →
  df_lookup df "distance_from_last_transaction" = Some (NumCol last) →
  df_lookup df "card_present" = Some card →
  "timestamp" ∉ columns df →
  "is_weekend" ∉ columns df →
  create_temporal_features df "timestamp" = Ok df
  ∧ fit_transform df = Err AttributeError.
Proof.
  intros Ha%df_getitem_Ok Hv%df_getitem_Ok H24%df_getitem_Ok H7%df_getitem_Ok
    Hg%df_getitem_Ok Hh%df_getitem_Ok Hl%df_getitem_Ok Hc%df_getitem_Ok Hts Hw%df_lookup_None.
  split; [unfold create_temporal_features; by rewrite decide_False|].
  unfold fit_transform, create_amount_features.
  repeat first [rewrite Ha | rewrite Hv | df_step].
  unfold create_temporal_features. rewrite decide_False.
  2:{ rewrite !columns_setitem. intros [?|[?|[?|?]]]; done. }
  simpl. unfold create_velocity_features.
  repeat first [rewrite H24 | rewrite H7 | rewrite Hg | df_step].
  unfold create_distance_features.
  repeat first [rewrite Hh | rewrite Hl | df_step].
  unfold create_risk_score, weekend_term.
  repeat first [rewrite Ha | rewrite Hc | rewrite Hh | rewrite H24 | rewrite Hw | df_step].
  by destruct card.
Qed.
Lemma fit_transform_without_timestamp_witness :
  @create_temporal_features Sample.pandas Fixture.raw_no_timestamp "timestamp"
    = Ok Fixture.raw_no_timestamp
  ∧ @fit_transform Sample.numpy Sample.pandas Fixture.raw_no_timestamp = Err AttributeError.
Proof.
  eapply (fit_transform_without_timestamp (H := Sample.numpy) (H0 := Sample.pandas));
    first [reflexivity | by_compute].
Defined.
End no_timestamp.
Section risk_range.
Import FeatureEngineer.

Lemma engineer_features_total `{NumPy} t now :
  ∃ data, Api.engineer_features t now = Ok data.
Proof.
  eexists. unfold Api.engineer_features, Api.risk_score. simpl.
  unfold df_drop_strict. rewrite decide_True by by_compute. reflexivity.
Qed.

Lemma training_frame_total `{NumPy} `{Pandas} t ts :
  ∃ df, fit_transform (training_frame t ts) = Ok df.
Proof.
  eexists. unfold fit_transform, training_frame. simpl.
  unfold create_risk_score, weekend_term, offpeak_term. simpl. reflexivity.
Qed.

(** X3: whenever [is_weekend] is a column of 0/1 flags, the weekend term
    of the training risk score, [(is_weekend * 0.5).astype(int)], is 0 in
    every row: a weekend never adds to the score. *)
Theorem weekend_term_is_zero (df : DataFrame) (ws : list cell) :
  df_lookup df "is_weekend" = Some (NumCol ws) →
  Forall (λ w, ∃ b, w = of_bool b) ws →
  weekend_term df = Ok (NumCol ((λ _, of_Z 0) <$> ws)).
Proof.
  intros Hw Hflags. unfold weekend_term. rewrite Hw. simpl.
  unfold astype_int. simpl. rewrite decide_True.
  - do 2 f_equal. rewrite <- list_fmap_compose. apply Forall_fmap_ext_1.
    eapply Forall_impl; [done|]. intros w [b ->]. by destruct b.
  - apply Forall_fmap. eapply Forall_impl; [done|]. intros w [b ->]. by eexists.
Qed.

Lemma weekend_term_is_zero_witness :
  weekend_term [("is_weekend", NumCol [of_bool true; of_bool false])]
  = Ok (NumCol [of_Z 0; of_Z 0]).
Proof.
  apply (weekend_term_is_zero _ [of_bool true; of_bool false]); [reflexivity|].
  repeat constructor; by eexists.
Defined.

Lemma of_Z_inj a b : of_Z a = of_Z b → a = b.
Proof. unfold of_Z, inject_Z. by intros [= ->]. Qed.

(** X4: for every request and timestamp, the served risk score lies in
    0..5 and the trained one in 0..6; the trained score is the served score
    plus one outside the peak hours, so the two agree exactly when the hour
    is one of 8, 9, 10, 17, 18, 19. *)
Theorem risk_score_parity_only_at_peak `{NumPy} `{Pandas}
    (t : Api.Transaction) (ts : Timestamp) :
  ∃ data df served trained,
    Api.engineer_features t ts = Ok data
    ∧ fit_transform (training_frame t ts) = Ok df
    ∧ df_lookup data "risk_score" = Some (NumCol [of_Z served])
    ∧ df_lookup df "risk_score" = Some (NumCol [of_Z trained])
    ∧ (0 ≤ served ≤ 5)%Z ∧ (0 ≤ trained ≤ 6)%Z
    ∧ trained = (served + if off_peak ts then 1 else 0)%Z
    ∧ (served = trained ↔ off_peak ts = false).
Proof.
  destruct (engineer_features_total t ts) as [data Hdata].
  destruct (training_frame_total t ts) as [df Hdf].
  exists data, df, (Spec.risk_score_of t),
    (Spec.risk_score_of t + (if off_peak ts then 1 else 0))%Z.
  split; [done|]. split; [done|].
  split; [by eapply serving_risk_score|]. split; [by apply training_risk_score|].
  assert (0 ≤ Spec.risk_score_of t ≤ 5)%Z as Hrange.
  { unfold Spec.risk_score_of, Spec.risk_score.
    destruct (Qltb 1000 _), (_ =? _)%Z, (Qltb 100 _), (_ <? _)%Z; lia. }
  destruct (off_peak ts); repeat split; try lia; done.
Qed.
End risk_range.
Section time_of_day.
Import FeatureEngineer.

Lemma Qle_bool_inject_Z a z : Qle_bool (inject_Z a) (inject_Z z) = (a <=? z)%Z.
Proof.
  destruct (Z.leb_spec a z) as [Hle|Hgt].
  - apply Qle_bool_iff. by rewrite <- Zle_Qle.
  - apply Qle_bool_gt. by rewrite <- Zlt_Qlt.
Qed.

Lemma time_of_day_hours (h : Z) :
  time_of_day (of_Z h)
  = if decide (h ≤ 0)%Z then "nan"
    else if decide (h ≤ 6)%Z then "night"
    else if decide (h ≤ 12)%Z then "morning"
    else if decide (h ≤ 18)%Z then "afternoon"
    else if decide (h ≤ 24)%Z then "evening"
    else "nan".
Proof.
  cbv [time_of_day cut_str cut_cell cut_bins time_bins time_labels of_Z
       edge_lt le_edge default from_option andb].
  change 0%Q with (inject_Z 0). change 6%Q with (inject_Z 6).
  change 12%Q with (inject_Z 12). change 18%Q with (inject_Z 18).
  change 24%Q with (inject_Z 24).
  rewrite !Qltb_inject_Z, !Qle_bool_inject_Z.
  repeat case_decide;
    repeat match goal with
    | |- context [(?a <? ?b)%Z] => destruct (Z.ltb_spec a b)
    | |- context [(?a <=? ?b)%Z] => destruct (Z.leb_spec a b)
    end; first [reflexivity | lia].
Qed.

Lemma temporal_block_time_of_day `{Pandas} (df df' : DataFrame) ts :
  df_lookup df "timestamp" = Some (DtCol ts) →
  create_temporal_features df "timestamp" = Ok df' →
  df_lookup df' "time_of_day"
  = Some (ObjCol ((λ x : option Timestamp, Some (time_of_day (x ≫= of_Z ∘ ts_hour))) <$> ts)).
Proof.
  intros Hts. unfold create_temporal_features. rewrite decide_True.
  2:{ apply df_lookup_is_Some. by eexists. }
  apply df_getitem_Ok in Hts. unfold temporal_block.
  repeat first [rewrite Hts | df_step].
  intros [= <-]. repeat df_step. by rewrite <- list_fmap_compose.
Qed.

(** X5: [time_of_day] is cut with right-closed bins that leave out 0:
    hour 0 is written ["nan"], hours 1-6 ["night"], 7-12 ["morning"], 13-18
    ["afternoon"], 19-23 ["evening"], and a missing timestamp ["nan"]; this
    is the column [create_temporal_features] writes for a datetime
    [timestamp] column. *)
Theorem time_of_day_buckets `{Pandas} :
  (∀ h : Z, (0 ≤ h ≤ 23)%Z →
     time_of_day (of_Z h)
     = if decide (h = 0%Z) then "nan"
       else if decide (h ≤ 6)%Z then "night"
       else if decide (h ≤ 12)%Z then "morning"
       else if decide (h ≤ 18)%Z then "afternoon"
       else "evening")
  ∧ time_of_day None = "nan"
  ∧ (∀ (df df' : DataFrame) ts,
       df_lookup df "timestamp" = Some (DtCol ts) →
       create_temporal_features df "timestamp" = Ok df' →
       df_lookup df' "time_of_day"
       = Some (ObjCol ((λ x : option Timestamp,
                          Some (time_of_day (x ≫= of_Z ∘ ts_hour))) <$> ts))).
Proof.
  split; [|split; [done|]].
  - intros h Hh. rewrite time_of_day_hours. repeat case_decide; first [done | lia].
  - intros. by eapply temporal_block_time_of_day.
Qed.

Lemma time_of_day_buckets_witness :
  time_of_day (of_Z 0) = "nan" ∧ time_of_day (of_Z 6) = "night"
  ∧ time_of_day (of_Z 23) = "evening"
  ∧ ∃ df', @create_temporal_features Sample.pandas Fixture.raw_batch "timestamp" = Ok df'
           ∧ df_lookup df' "time_of_day"
             = Some (ObjCol [Some "night"; Some "afternoon"; Some "nan"]).
Proof.
  destruct (time_of_day_buckets (H := Sample.pandas)) as (Hh & _ & Hcol).
  split; [apply (Hh 0%Z); lia|]. split; [apply (Hh 6%Z); lia|].
  split; [apply (Hh 23%Z); lia|].
  eexists. split; [vm_compute; reflexivity|].
  apply (Hcol Fixture.raw_batch _
           [Some Sample.night; Some Fixture.saturday_evening; Some Fixture.monday_midnight]);
    vm_compute; reflexivity.
Defined.
End time_of_day.
(** ** Feature lists of the preprocessor *)

Section feature_lists.
Import DataPreprocessor.

Lemma elem_of_df_lookup (df : DataFrame) c s :
  NoDup (columns df) → (c, s) ∈ df ↔ df_lookup df c = Some s.
Proof.
  unfold columns. induction df as [|[c' s'] df IH]; simpl.
  { intros _. split; [by intros ?%elem_of_nil | done]. }
  rewrite NoDup_cons, elem_of_cons. intros [Hc' Hnd]. destruct (decide (c' = c)) as [->|Hne].
  - split; [|intros [= ->]; by left].
    intros [[= ->]|Hin]; [done|]. exfalso. apply Hc'.
    apply list_elem_of_fmap. by exists (c, s).
  - rewrite <- IH by done. split; [intros [[= ??]|?]; done | by right].
Qed.

Lemma columns_filter (P : string → Prop)
    (H1 : ∀ p : string * Series, Decision (P p.1)) (H2 : ∀ c, Decision (P c))
    (df : DataFrame) :
  columns (@filter _ _ _ (λ p, P p.1) H1 df) = @filter _ _ _ P H2 (columns df).
Proof.
  unfold columns. induction df as [|[c s] df IH]; [done|].
  rewrite fmap_cons, !filter_cons. simpl.
  destruct (H1 (c, s)), (H2 c); try done. simpl. f_equal. apply IH.
Qed.

Lemma columns_df_drop (df : DataFrame) cols :
  columns (df_drop df cols) = filter (λ c, c ∉ cols) (columns df).
Proof. unfold df_drop. apply (columns_filter (λ c, c ∉ cols) _ _). Qed.

Lemma elem_of_columns_filter (P : string * Series → Prop) `{∀ p, Decision (P p)}
    (df : DataFrame) c :
  NoDup (columns df) →
  c ∈ columns (filter P df) ↔ ∃ s, df_lookup df c = Some s ∧ P (c, s).
Proof.
  intros Hnd. unfold columns. rewrite list_elem_of_fmap. split.
  - intros ([c' s] & -> & [HP Hin]%list_elem_of_filter). exists s.
    split; [by apply elem_of_df_lookup | done].
  - intros (s & Hs & HP). exists (c, s). split; [done|].
    apply list_elem_of_filter. split; [done | by apply elem_of_df_lookup].
Qed.

(** X6: on a frame with distinct column labels, [identify_feature_types]
    drops exactly those of [transaction_id], [timestamp] and the target that
    are present; the numeric features are exactly the remaining numeric
    columns and the categorical features exactly the remaining object
    columns; no column is in both lists, neither list repeats a label, and
    encoders, scaler and target are left as they were. *)
Theorem identify_feature_types_partition (self : t) (df : DataFrame) :
  NoDup (columns df) →
  let self' := (identify_feature_types df self).1 in
  features_to_drop self'
  = filter (λ c, c ∈ columns df) ["transaction_id"; "timestamp"; target_col self]
  ∧ (∀ c, c ∈ numeric_features self' ↔
          ∃ xs, df_lookup df c = Some (NumCol xs) ∧ c ∉ features_to_drop self')
  ∧ (∀ c, c ∈ categorical_features self' ↔
          ∃ xs, df_lookup df c = Some (ObjCol xs) ∧ c ∉ features_to_drop self')
  ∧ (∀ c, ¬ (c ∈ numeric_features self' ∧ c ∈ categorical_features self'))
  ∧ NoDup (numeric_features self') ∧ NoDup (categorical_features self')
  ∧ label_encoders self' = label_encoders self ∧ scaler self' = scaler self
  ∧ target_col self' = target_col self.
Proof.
  intros Hnd. simpl.
  set (to_drop := filter (λ c, c ∈ columns df) _).
  assert (NoDup (columns (filter (λ p : string * Series, p.1 ∉ to_drop) df))) as Hnd'.
  { rewrite (columns_filter (λ c, c ∉ to_drop) _ _). by apply NoDup_filter. }
  assert (∀ c s, df_lookup (filter (λ p : string * Series, p.1 ∉ to_drop) df) c = Some s
                 ↔ df_lookup df c = Some s ∧ c ∉ to_drop) as Hrem.
  { intros c s. rewrite <- !elem_of_df_lookup by done.
    rewrite list_elem_of_filter. simpl. tauto. }
  assert (∀ c, c ∈ columns (filter (λ p : string * Series, is_number p.2 = true)
                              (filter (λ p : string * Series, p.1 ∉ to_drop) df))
               ↔ ∃ xs, df_lookup df c = Some (NumCol xs) ∧ c ∉ to_drop) as Hnum.
  { intros c. rewrite elem_of_columns_filter by done. split.
    - intros (s & [Hs Hc]%Hrem & Hp). simpl in Hp. destruct s; try done. by eexists.
    - intros (xs & Hs & Hc). exists (NumCol xs). split; [by apply Hrem | done]. }
  assert (∀ c, c ∈ columns (filter (λ p : string * Series, is_object p.2 = true)
                              (filter (λ p : string * Series, p.1 ∉ to_drop) df))
               ↔ ∃ xs, df_lookup df c = Some (ObjCol xs) ∧ c ∉ to_drop) as Hcat.
  { intros c. rewrite elem_of_columns_filter by done. split.
    - intros (s & [Hs Hc]%Hrem & Hp). simpl in Hp. destruct s; try done. by eexists.
    - intros (xs & Hs & Hc). exists (ObjCol xs). split; [by apply Hrem | done]. }
  repeat split; try done; try apply Hnum; try apply Hcat.
  - intros c [(xs & Hx & _)%Hnum (ys & Hy & _)%Hcat]. congruence.
  - apply (columns_filter_NoDup (λ p, is_number p.2 = true)), Hnd'.
  - apply (columns_filter_NoDup (λ p, is_object p.2 = true)), Hnd'.
Qed.

Lemma identify_feature_types_partition_witness :
  let self' := (identify_feature_types Sample.batch (init "is_fraud")).1 in
  features_to_drop self' = ["transaction_id"; "is_fraud"]
  ∧ ("amount" ∈ numeric_features self')
  ∧ ("merchant_category" ∈ categorical_features self').
Proof.
  destruct (identify_feature_types_partition (init "is_fraud") Sample.batch
              ltac:(by_compute)) as (Hdrop & Hnum & Hcat & _).
  split; [exact Hdrop|]. split.
  - apply Hnum. eexists. split; [reflexivity | by_compute].
  - apply Hcat. eexists. split; [reflexivity | by_compute].
Defined.
End feature_lists.
(** ** The shape of the fitted matrix *)

Section matrix_shape.
Import DataPreprocessor.
#[local] Arguments StandardScaler.transform : simpl never.
#[local] Arguments StandardScaler.fit : simpl never.

Lemma is_num_at_setitem df c c' xs :
  is_num_at df c ∨ c = c' → is_num_at (df_setitem df c' (NumCol xs)) c.
Proof.
  unfold is_num_at. destruct (decide (c' = c)) as [->|Hne].
  - intros _. rewrite df_lookup_setitem_eq. by eexists.
  - rewrite df_lookup_setitem_ne by done. by intros [?|?].
Qed.

Lemma encode_column_fit_shape `{Pandas} df col self self' df' :
  encode_column true df col self = (self', Ok df') →
  columns df' = columns df
  ∧ (∀ c, is_num_at df c ∨ (c = col ∧ col ∈ columns df) → is_num_at df' c).
Proof.
  unfold encode_column. case_decide as Hin.
  2:{ intros [= _ <-]. split; [done|]. by intros c [?|[_ ?]]. }
  unfold mbind, M_bind, lift. apply df_lookup_is_Some in Hin as Hs. destruct Hs as [s Hs].
  rewrite (proj2 (df_getitem_Ok _ _ _) Hs). simpl. intros [= _ <-].
  split; [by apply columns_setitem_present|].
  intros c [?|[-> _]]; apply is_num_at_setitem; auto.
Qed.

Lemma encode_columns_fit_shape `{Pandas} cols df self self' df' :
  encode_columns true df cols self = (self', Ok df') →
  columns df' = columns df
  ∧ (∀ c, is_num_at df c ∨ (c ∈ cols ∧ c ∈ columns df) → is_num_at df' c).
Proof.
  revert df self. induction cols as [|col cols IH]; intros df self; simpl.
  { intros [= _ <-]. split; [done|]. intros c [?|[?%elem_of_nil _]]; done. }
  intros (df1 & s1 & [Hc1 Hn1]%encode_column_fit_shape & [Hc2 Hn2]%IH)%bind_Ok.
  split; [congruence|]. intros c Hc. apply Hn2.
  destruct Hc as [?|[[->|?]%elem_of_cons ?]].
  - left. apply Hn1. by left.
  - left. apply Hn1. by right.
  - right. by rewrite Hc1.
Qed.

Lemma select_numeric_Ok df cols X :
  select_numeric df cols = Ok X →
  Forall2 (λ c xs, df_lookup df c = Some (NumCol xs)) cols X.
Proof.
  revert X. induction cols as [|c cols IH]; intros X; simpl.
  { intros [= <-]. constructor. }
  unfold df_getitem. destruct (df_lookup df c) as [s|] eqn:Hs; simpl; [|done].
  destruct (select_numeric df cols) as [X0|]; simpl; [|done].
  destruct s; try done. intros [= <-]. constructor; [done | by apply IH].
Qed.

Lemma assign_columns_shape df cols X :
  Forall (λ c, c ∈ columns df) cols →
  columns (assign_columns df cols X) = columns df
  ∧ (∀ c, is_num_at df c → is_num_at (assign_columns df cols X) c)
  ∧ (length cols ≤ length X → ∀ c, c ∈ cols → is_num_at (assign_columns df cols X) c).
Proof.
  revert df X. induction cols as [|c cols IH]; intros df X Hcols; simpl.
  { split; [done|]. split; [done|]. by intros _ c ?%elem_of_nil. }
  apply Forall_cons in Hcols as [Hc Hcols]. destruct X as [|xs X].
  { split; [done|]. split; [done|]. simpl. lia. }
  destruct (IH (df_setitem df c (NumCol xs)) X) as (IH1 & IH2 & IH3).
  { rewrite columns_setitem_present by done. exact Hcols. }
  rewrite columns_setitem_present in IH1 by done.
  split; [done|]. split.
  - intros c' Hc'. apply IH2, is_num_at_setitem. by left.
  - simpl. intros Hlen c' [->|Hin]%elem_of_cons.
    + apply IH2, is_num_at_setitem. by right.
    + apply IH3; [lia | done].
Qed.

Lemma scale_columns_length ms ss X :
  length ms = length X → length ss = length X →
  length (StandardScaler.scale_columns ms ss X) = length X.
Proof.
  revert ss X. induction ms as [|m ms IH]; intros [|s ss] [|x X]; simpl; try done.
  intros [= ?] [= ?]. f_equal. by apply IH.
Qed.

Lemma scale_fit_shape `{NumPy} df self self' out :
  scale_numeric_features df true self = (self', Ok out) →
  columns out = columns df
  ∧ (∀ c, is_num_at df c ∨ c ∈ numeric_features self → is_num_at out c).
Proof.
  unfold scale_numeric_features, mbind, M_bind, get, lift, set_scaler. simpl.
  destruct (select_numeric df (numeric_features self)) as [X|] eqn:HX; [|done].
  unfold StandardScaler.fit. destruct (StandardScaler.check_array X); [|done]. simpl.
  unfold StandardScaler.transform. destruct (StandardScaler.check_array X); [|done]. simpl.
  case_decide as Hlen; [|done]. intros [= _ <-].
  apply select_numeric_Ok in HX.
  assert (Forall (λ c, c ∈ columns df) (numeric_features self)) as Hcols.
  { apply Forall_forall. intros c Hc.
    apply list_elem_of_lookup in Hc as [i Hi].
    destruct (Forall2_lookup_l _ _ _ _ _ HX Hi) as (xs & _ & Hxs).
    apply df_lookup_is_Some. by eexists. }
  destruct (assign_columns_shape df (numeric_features self)
              (StandardScaler.scale_columns (StandardScaler.col_mean <$> X)
                 (StandardScaler.col_scale <$> X) X) Hcols) as (Hc & Hkeep & Hset).
  split; [done|]. intros c [?|Hc']; [by apply Hkeep|]. apply Hset; [|done].
  rewrite scale_columns_length by (by rewrite length_fmap).
  by rewrite (Forall2_length _ _ _ HX).
Qed.

(** X7: when [DataPreprocessor.fit_transform] returns, the matrix has the
    columns of the batch in their order less the dropped ones, the dropped
    ones being those of [transaction_id], [timestamp] and the target that
    the batch has; the returned labels are the target column of the batch;
    and every numeric or categorical feature is a numeric column of the
    matrix. *)
Theorem fit_transform_shape `{NumPy} `{Pandas}
    (self self' : t) (B X : DataFrame) (y : option Series) :
  fit_transform B self = (self', Ok (X, y)) →
  columns X = filter (λ c, c ∉ features_to_drop self') (columns B)
  ∧ features_to_drop self'
    = filter (λ c, c ∈ columns B) ["transaction_id"; "timestamp"; target_col self]
  ∧ y = df_lookup B (target_col self)
  ∧ (∀ c, c ∈ numeric_features self' ∨ c ∈ categorical_features self' →
          ∃ xs, df_lookup X c = Some (NumCol xs)).
Proof.
  unfold fit_transform.
  intros ([] & s1 & Hid & ([y0 dff] & st & Hsep & Hrest)%bind_Ok)%bind_Ok.
  apply bind_Ok in Hrest as (? & ? & [= <- <-] & Hrest).
  apply bind_Ok in Hrest as (enc & s2 & Henc & Hrest).
  apply bind_Ok in Hrest as ([] & ? & [-> _]%lift_Ok & Hrest).
  apply bind_Ok in Hrest as (scaled & s3 & Hscale & [= <- <- <-]).
  pose proof (encode_fit_frame _ _ _ _ Henc) as (Ht2 & _ & Hn2 & Hc2 & Hd2).
  pose proof (scale_parity _ _ _ _ Hscale) as (Ht3 & _ & Hc3 & Hd3 & _).
  assert (numeric_features s3 = numeric_features s2) as Hn3.
  { revert Hscale. unfold scale_numeric_features, mbind, M_bind, get, lift, set_scaler. simpl.
    destruct (select_numeric _ _); [|done]. destruct (StandardScaler.fit _); [|done]. simpl.
    destruct (StandardScaler.transform _ _); [|done]. by intros [= <- _]. }
  apply scale_fit_shape in Hscale as [Hcs Hns].
  unfold encode_categorical_features, mbind, M_bind, get in Henc.
  apply encode_columns_fit_shape in Henc as [Hce Hne].
  injection Hid as <-. simpl in *.
  set (to_drop := filter (λ c, c ∈ columns B) _) in *.
  assert (st = mk (target_col self) (label_encoders self) (scaler self)
                  (columns (filter (λ p : string * Series, is_number p.2 = true)
                     (filter (λ p : string * Series, p.1 ∉ to_drop) B)))
                  (columns (filter (λ p : string * Series, is_object p.2 = true)
                     (filter (λ p : string * Series, p.1 ∉ to_drop) B)))
                  to_drop
          ∧ y0 = df_lookup B (target_col self)
          ∧ columns (df_drop dff to_drop) = filter (λ c, c ∉ to_drop) (columns B))
    as (-> & Hy & Hcols).
  { revert Hsep. unfold separate_target, mbind, M_bind, get, lift, df_drop_strict. simpl.
    destruct (decide (target_col self ∈ columns B)) as [Hin|Hnin].
    - apply df_lookup_is_Some in Hin as Hs. destruct Hs as [s Hs].
      rewrite (proj2 (df_getitem_Ok _ _ _) Hs). simpl. intros [= <- <- <-].
      split; [done|]. split; [done|].
      rewrite !columns_df_drop, list_filter_filter. apply list_filter_iff.
      intros c. split; [tauto|]. intros Hc. split; [done|].
      intros ->%list_elem_of_singleton. apply Hc.
      subst to_drop. apply list_elem_of_filter. split; [done|].
      do 2 apply list_elem_of_further. apply list_elem_of_here.
    - intros [= <- <- <-]. split; [done|]. split; [by apply df_lookup_None in Hnin|].
      apply columns_df_drop. }
  simpl in *. rewrite Hd3, Hd2, Hcs, Hce. split; [done|]. split; [done|]. split; [done|].
  intros c Hc. apply Hns. destruct Hc as [Hc|Hc]; [right; by rewrite <- Hn3|].
  left. apply Hne. right. rewrite Hc3, Hc2 in Hc. split; [done|].
  rewrite Hcols. apply list_elem_of_filter.
  apply list_elem_of_fmap in Hc as ([c' s] & -> & [_ [Hd Hin]%list_elem_of_filter]%list_elem_of_filter).
  split; [done|]. apply list_elem_of_fmap. by exists (c', s).
Qed.
Lemma fit_transform_shape_witness :
  ∃ self' X y,
    @fit_transform Sample.numpy Sample.pandas Sample.batch (init "is_fraud")
      = (self', Ok (X, y))
    ∧ columns X = ["amount"; "merchant_category"; "card_present";
                   "avg_transaction_amount_30d"]
    ∧ y = Some (NumCol [Some 0; Some 0; Some 1]%Q)
    ∧ ∃ xs, df_lookup X "merchant_category" = Some (NumCol xs).
Proof.
  destruct (@fit_transform Sample.numpy Sample.pandas Sample.batch (init "is_fraud"))
    as [self' [[X y]|e]] eqn:Hfit; [|by vm_compute in Hfit].
  exists self', X, y. split; [done|].
  destruct (fit_transform_shape (H := Sample.numpy) (H0 := Sample.pandas)
              (init "is_fraud") self' Sample.batch X y Hfit) as (Hcols & Hdrop & Hy & Hnum).
  split; [by rewrite Hcols, Hdrop|]. split; [done|].
  apply Hnum. right. vm_compute in Hfit. injection Hfit as <- _ _. by_compute.
Defined.
End matrix_shape.
(** ** A fit that fails *)

Section failed_fit.
Import DataPreprocessor.
#[local] Arguments StandardScaler.transform : simpl never.
#[local] Arguments StandardScaler.fit : simpl never.

Lemma separate_target_total df self :
  ∃ r, separate_target df self = (self, Ok r)
       ∧ r.1 = df_lookup df (target_col self).
Proof.
  unfold separate_target, mbind, M_bind, get, lift, df_drop_strict.
  destruct (decide (target_col self ∈ columns df)) as [Hin|Hnin].
  - apply df_lookup_is_Some in Hin as Hs. destruct Hs as [s Hs].
    rewrite (proj2 (df_getitem_Ok _ _ _) Hs). simpl. by eexists.
  - eexists. split; [done|]. simpl. by apply df_lookup_None in Hnin.
Qed.

(** Fitting the encoders never raises. *)
Lemma encode_columns_fit_total `{Pandas} cols df self :
  ∃ self' df', encode_columns true df cols self = (self', Ok df').
Proof.
  revert df self. induction cols as [|col cols IH]; intros df self; simpl.
  { by eexists _, _. }
  unfold mbind at 1, M_bind.
  assert (∃ s1 df1, encode_column true df col self = (s1, Ok df1)) as (s1 & df1 & ->).
  { unfold encode_column. case_decide as Hin; [|by eexists _, _].
    apply df_lookup_is_Some in Hin as [s Hs]. unfold mbind, M_bind, lift.
    rewrite (proj2 (df_getitem_Ok _ _ _) Hs). simpl. by eexists _, _. }
  apply IH.
Qed.

Lemma bind_run {A B} (m : M A) (f : A → M B) self s1 a :
  m self = (s1, Ok a) → (m ≫= f) self = f a s1.
Proof. unfold mbind, M_bind. by intros ->. Qed.

Lemma bind_run_err {A B} (m : M A) (f : A → M B) self s1 e :
  m self = (s1, Err e) → (m ≫= f) self = (s1, Err e).
Proof. unfold mbind, M_bind. by intros ->. Qed.

(** X8: on a batch without any numeric feature (and whose target, if
    present, is numeric), [DataPreprocessor.fit_transform] fails with a
    [ValueError] from the scaler, after it has replaced [self.scaler] by a
    new, unfitted scaler; from then on every [transform] fails with
    [NotFittedError], whatever scaler was there before. *)
Theorem fit_without_numeric_features `{NumPy} `{Pandas} (self : t) (B : DataFrame) :
  numeric_features (identify_feature_types B self).1 = [] →
  (∀ s, df_lookup B (target_col self) = Some s → is_number s = true) →
  ∃ self',
    fit_transform B self = (self', Err ValueError)
    ∧ scaler self' = Some StandardScaler.Unfitted
    ∧ ∀ B', transform B' self' = (self', Err NotFittedError).
Proof.
  intros Hnum Htarget. unfold fit_transform.
  destruct (identify_feature_types B self) as [s1 r1] eqn:Hid.
  assert (r1 = Ok ()) as -> by (by injection Hid as _ <-).
  assert (target_col s1 = target_col self) as Ht1 by (by injection Hid as <-).
  simpl in Hnum.
  destruct (separate_target_total B s1) as ([y dff] & Hsep & Hy). simpl in Hy.
  destruct (encode_columns_fit_total (categorical_features s1)
              (df_drop dff (features_to_drop s1)) s1) as (s2 & enc & Henc).
  pose proof (encode_columns_fit_frame _ _ _ _ _ Henc) as (Ht2 & _ & Hn2 & Hc2 & Hd2 & _).
  assert (print_fraud_rate y = Ok ()) as Hprint.
  { rewrite Hy, Ht1. destruct (df_lookup B (target_col self)) as [s|] eqn:Hs; [|done].
    specialize (Htarget s eq_refl). by destruct s. }
  set (s3 := (set_scaler StandardScaler.Unfitted s2).1).
  exists s3.
  assert (scale_numeric_features enc true s2 = (s3, Err ValueError)) as Hscale.
  { unfold scale_numeric_features, mbind, M_bind, set_scaler, get, lift. simpl.
    rewrite Hn2, Hnum. simpl. subst s3. unfold set_scaler. simpl. by rewrite Hn2, Hnum. }
  split; [|split; [done|]].
  - rewrite (bind_run (identify_feature_types B) _ self _ _ Hid).
    rewrite (bind_run (separate_target B) _ s1 _ _ Hsep).
    rewrite (bind_run get _ s1 s1 s1 eq_refl).
    rewrite (bind_run (encode_categorical_features _ true) _ s1 s2 enc).
    2:{ unfold encode_categorical_features.
        by rewrite (bind_run get _ s1 s1 s1 eq_refl). }
    rewrite (bind_run (lift (print_fraud_rate y)) _ s2 s2 ()).
    2:{ unfold lift. by rewrite Hprint. }
    by rewrite (bind_run_err (scale_numeric_features enc true) _ s2 _ _ Hscale).
  - intros B'. unfold transform.
    destruct (separate_target_total B' s3) as ([y' dff'] & Hsep' & _).
    destruct (encode_columns_apply (categorical_features s3)
                (df_drop dff' (features_to_drop s3)) s3) as [enc' Henc'].
    rewrite (bind_run (separate_target B') _ s3 _ _ Hsep').
    rewrite (bind_run get _ s3 s3 s3 eq_refl).
    rewrite (bind_run (encode_categorical_features _ false) _ s3 s3 enc').
    2:{ unfold encode_categorical_features.
        by rewrite (bind_run get _ s3 s3 s3 eq_refl). }
    apply bind_run_err.
    unfold scale_numeric_features, mbind, M_bind, get, lift. simpl.
    by rewrite Hn2, Hnum.
Qed.

Lemma fit_without_numeric_features_witness :
  ∃ self',
    @fit_transform Sample.numpy Sample.pandas
      [("merchant_category", ObjCol [Some "gas"]); ("is_fraud", NumCol [Some 0%Q])]
      (init "is_fraud") = (self', Err ValueError)
    ∧ @transform Sample.numpy Sample.pandas Sample.batch self' = (self', Err NotFittedError).
Proof.
  destruct (fit_without_numeric_features (H := Sample.numpy) (H0 := Sample.pandas)
              (init "is_fraud")
              [("merchant_category", ObjCol [Some "gas"]); ("is_fraud", NumCol [Some 0%Q])])
    as (self' & Hfit & _ & Htr).
  - reflexivity.
  - intros s Hs. vm_compute in Hs. by injection Hs as <-.
  - exists self'. split; [exact Hfit | apply Htr].
Defined.
End failed_fit.
(** ** Fitting again *)

Section refit.
Import DataPreprocessor.
#[local] Arguments StandardScaler.transform : simpl never.
#[local] Arguments StandardScaler.fit : simpl never.

(** The run of [fit_transform], stage by stage. *)
Lemma fit_transform_run `{NumPy} `{Pandas} (self : t) (B : DataFrame) :
  ∃ s1 y dff s2 enc,
    identify_feature_types B self = (s1, Ok ())
    ∧ separate_target B s1 = (s1, Ok (y, dff))
    ∧ encode_columns true (df_drop dff (features_to_drop s1)) (categorical_features s1) s1
      = (s2, Ok enc)
    ∧ fit_transform B self
      = match print_fraud_rate y with
        | Err e => (s2, Err e)
        | Ok _ =>
            match scale_numeric_features enc true s2 with
            | (s3, Ok out) => (s3, Ok (out, y))
            | (s3, Err e) => (s3, Err e)
            end
        end.
Proof.
  destruct (identify_feature_types B self) as [s1 r1] eqn:Hid.
  assert (r1 = Ok ()) as -> by (by injection Hid as _ <-).
  destruct (separate_target_total B s1) as ([y dff] & Hsep & _).
  destruct (encode_columns_fit_total (categorical_features s1)
              (df_drop dff (features_to_drop s1)) s1) as (s2 & enc & Henc).
  exists s1, y, dff, s2, enc. split; [done|]. split; [done|]. split; [done|].
  unfold fit_transform.
  rewrite (bind_run (identify_feature_types B) _ self _ _ Hid).
  rewrite (bind_run (separate_target B) _ s1 _ _ Hsep).
  rewrite (bind_run get _ s1 s1 s1 eq_refl).
  rewrite (bind_run (encode_categorical_features _ true) _ s1 s2 enc).
  2:{ unfold encode_categorical_features. by rewrite (bind_run get _ s1 s1 s1 eq_refl). }
  unfold mbind, M_bind, lift. destruct (print_fraud_rate y); [|done].
  by destruct (scale_numeric_features enc true s2) as [s3 [out|e]].
Qed.

Lemma encode_columns_fit_indep `{Pandas} cols df sa sb sa' sb' ra rb :
  encode_columns true df cols sa = (sa', ra) →
  encode_columns true df cols sb = (sb', rb) →
  ra = rb
  ∧ ∀ c, c ∈ cols → c ∈ columns df → label_encoders sa' !! c = label_encoders sb' !! c.
Proof.
  revert df sa sb. induction cols as [|col cols IH]; intros df sa sb; simpl.
  { intros [= <- <-] [= <- <-]. split; [done|]. by intros c ?%elem_of_nil. }
  unfold mbind at 1 2, M_bind.
  destruct (decide (col ∈ columns df)) as [Hin|Hnin].
  - apply df_lookup_is_Some in Hin as Hs. destruct Hs as [s Hs].
    assert (∀ st, encode_column true df col st
                  = ((set_encoder col (LabelEncoder.np_unique (astype_str s)) st).1,
                     Ok (df_setitem df col
                           (NumCol (of_Z <$> (LabelEncoder.fit_transform (astype_str s)).2)))))
      as Hstep.
    { intros st. unfold encode_column. rewrite decide_True by done.
      unfold mbind, M_bind, lift. by rewrite (proj2 (df_getitem_Ok _ _ _) Hs). }
    rewrite !Hstep. intros Ha Hb.
    destruct (IH _ _ _ Ha Hb) as [Hr Hle]. split; [done|].
    intros c Hc Hcin. destruct (decide (c ∈ cols)) as [Hc'|Hc'].
    + apply Hle; [done|]. rewrite columns_setitem_present; [done|].
      apply df_lookup_is_Some. by eexists.
    + apply elem_of_cons in Hc as [->|?]; [|done].
      apply encode_columns_fit_frame in Ha as (_ & _ & _ & _ & _ & Hka).
      apply encode_columns_fit_frame in Hb as (_ & _ & _ & _ & _ & Hkb).
      rewrite Hka, Hkb by done. simpl. by rewrite !lookup_insert_eq.
  - assert (∀ st, encode_column true df col st = (st, Ok df)) as Hstep.
    { intros st. unfold encode_column. by rewrite decide_False. }
    rewrite !Hstep. intros Ha Hb. destruct (IH _ _ _ Ha Hb) as [Hr Hle]. split; [done|].
    intros c [->|Hc]%elem_of_cons Hcin; [done|]. by apply Hle.
Qed.

Lemma scale_fit_indep `{NumPy} df sa sb :
  numeric_features sa = numeric_features sb →
  (scale_numeric_features df true sa).2 = (scale_numeric_features df true sb).2
  ∧ scaler (scale_numeric_features df true sa).1 = scaler (scale_numeric_features df true sb).1
  ∧ ∀ s, target_col (scale_numeric_features df true s).1 = target_col s
         ∧ label_encoders (scale_numeric_features df true s).1 = label_encoders s
         ∧ numeric_features (scale_numeric_features df true s).1 = numeric_features s
         ∧ categorical_features (scale_numeric_features df true s).1 = categorical_features s
         ∧ features_to_drop (scale_numeric_features df true s).1 = features_to_drop s.
Proof.
  intros Hn. unfold scale_numeric_features, mbind, M_bind, get, lift, set_scaler. simpl.
  rewrite Hn. split; [|split].
  - destruct (select_numeric df (numeric_features sb)) as [X|]; [|done].
    destruct (StandardScaler.fit X) as [sc|]; [|done]. simpl.
    by destruct (StandardScaler.transform sc X).
  - destruct (select_numeric df (numeric_features sb)) as [X|]; [|done].
    destruct (StandardScaler.fit X) as [sc|]; [|done]. simpl.
    by destruct (StandardScaler.transform sc X).
  - intros s. destruct (select_numeric df (numeric_features s)) as [X|]; [|done].
    destruct (StandardScaler.fit X) as [sc|]; [|done]. simpl.
    by destruct (StandardScaler.transform sc X).
Qed.

(** X9: fitting again forgets what was fitted before, except for stale
    encoders: for two preprocessors with the same target column (and a
    batch whose target is numeric or absent), [fit_transform] on the same
    batch returns the same result and leaves the same scaler, the same
    feature lists and, for every categorical feature of the batch, the same
    encoder; the encoder of any other column stays as it was. *)
Theorem refit_overwrites `{NumPy} `{Pandas} (sa sb : t) (B : DataFrame) :
  target_col sa = target_col sb →
  (∀ s, df_lookup B (target_col sa) = Some s → is_number s = true) →
  let ra := fit_transform B sa in
  let rb := fit_transform B sb in
  ra.2 = rb.2
  ∧ scaler ra.1 = scaler rb.1
  ∧ numeric_features ra.1 = numeric_features rb.1
  ∧ categorical_features ra.1 = categorical_features rb.1
  ∧ features_to_drop ra.1 = features_to_drop rb.1
  ∧ (∀ c, c ∈ categorical_features ra.1 →
          label_encoders ra.1 !! c = label_encoders rb.1 !! c)
  ∧ (∀ c, c ∉ categorical_features ra.1 →
          label_encoders ra.1 !! c = label_encoders sa !! c).
Proof.
  intros Ht Htarget. cbv zeta.
  destruct (fit_transform_run sa B) as (a1 & ya & dffa & a2 & enca & Hida & Hsepa & Henca & ->).
  destruct (fit_transform_run sb B) as (b1 & yb & dffb & b2 & encb & Hidb & Hsepb & Hencb & ->).
  injection Hida as <-. injection Hidb as <-. rewrite <- Ht in *.
  set (a1 := mk _ (label_encoders sa) _ _ _ _) in *.
  set (b1 := mk _ (label_encoders sb) _ _ _ _) in *.
  destruct (separate_target_state B a1 _ _ Hsepa) as [_ Hsame].
  rewrite (Hsame b1 eq_refl) in Hsepb. injection Hsepb as <- <-.
  change (features_to_drop b1) with (features_to_drop a1) in Hencb.
  change (categorical_features b1) with (categorical_features a1) in Hencb.
  destruct (encode_columns_fit_indep _ _ _ _ _ _ _ _ Henca Hencb) as [[= <-] Hle].
  pose proof (encode_columns_fit_frame _ _ _ _ _ Henca) as (Hta & _ & Hna & Hca & Hda & Hka).
  pose proof (encode_columns_fit_frame _ _ _ _ _ Hencb) as (Htb & _ & Hnb & Hcb & Hdb & Hkb).
  assert (∀ c, c ∈ categorical_features a1 →
               c ∈ columns (df_drop dffa (features_to_drop a1))) as Hcols.
  { intros c Hc. subst a1. simpl in *.
    apply list_elem_of_fmap in Hc
      as ([c' s] & -> & [_ [Hd Hin]%list_elem_of_filter]%list_elem_of_filter).
    simpl in Hd. rewrite columns_df_drop. apply list_elem_of_filter. split; [done|].
    revert Hsepa. unfold separate_target, mbind, M_bind, get, lift, df_drop_strict. simpl.
    destruct (decide (target_col sa ∈ columns B)) as [Hin'|Hnin].
    - apply df_lookup_is_Some in Hin' as Hs. destruct Hs as [s' Hs'].
      rewrite (proj2 (df_getitem_Ok _ _ _) Hs'). simpl. intros [= _ <-].
      rewrite columns_df_drop. apply list_elem_of_filter. split.
      + intros ->%list_elem_of_singleton. apply Hd. apply list_elem_of_filter.
        split; [done|]. do 2 apply list_elem_of_further. apply list_elem_of_here.
      + apply list_elem_of_fmap. by exists (c', s).
    - intros [= _ <-]. apply list_elem_of_fmap. by exists (c', s). }
  destruct (separate_target_total B a1) as (p & Hsep' & Hy).
  rewrite Hsepa in Hsep'. injection Hsep' as <-. simpl in Hy.
  assert (print_fraud_rate ya = Ok ()) as ->.
  { rewrite Hy. destruct (df_lookup B (target_col sa)) as [s|] eqn:Hs; [|done].
    specialize (Htarget s eq_refl). by destruct s. }
  assert (numeric_features a2 = numeric_features b2) as Hn by (by rewrite Hna, Hnb).
  destruct (scale_fit_indep enca a2 b2 Hn) as (Hr & Hs & Hframe).
  destruct (Hframe a2) as (_ & Hla & Hna' & Hca' & Hda').
  destruct (Hframe b2) as (_ & Hlb & Hnb' & Hcb' & Hdb').
  destruct (scale_numeric_features enca true a2) as [a3 ra] eqn:Ea.
  destruct (scale_numeric_features enca true b2) as [b3 rb] eqn:Eb.
  simpl in *. subst rb.
  destruct ra as [out|e]; simpl;
    rewrite Hs, Hna', Hnb', Hca', Hcb', Hda', Hdb', Hla, Hlb, Hna, Hnb, Hca, Hcb, Hda, Hdb;
    (repeat split; try done;
     intros c Hc; first [by rewrite Hka | apply Hle; [done | by apply Hcols]]).
Qed.

Lemma refit_overwrites_witness :
  let stale := (@fit_transform Sample.numpy Sample.pandas Sample.batch (init "is_fraud")).1 in
  let ra := @fit_transform Sample.numpy Sample.pandas Fixture.raw_batch (init "is_fraud") in
  let rb := @fit_transform Sample.numpy Sample.pandas Fixture.raw_batch stale in
  ra.2 = rb.2 ∧ scaler ra.1 = scaler rb.1.
Proof.
  cbv zeta.
  destruct (refit_overwrites (H := Sample.numpy) (H0 := Sample.pandas)
              (init "is_fraud")
              (@fit_transform Sample.numpy Sample.pandas Sample.batch (init "is_fraud")).1
              Fixture.raw_batch) as (Hr & Hs & _).
  - vm_compute. reflexivity.
  - intros s Hs. vm_compute in Hs. by injection Hs as <-.
  - split; [exact Hr | exact Hs].
Defined.
End refit.
(** ** The serving path against [DataPreprocessor.transform] *)

Section serving.
Import DataPreprocessor.
#[local] Arguments StandardScaler.transform : simpl never.
#[local] Arguments StandardScaler.fit : simpl never.

Lemma df_ext (d1 d2 : DataFrame) :
  NoDup (columns d1) → columns d1 = columns d2 →
  (∀ c, df_lookup d1 c = df_lookup d2 c) → d1 = d2.
Proof.
  revert d2. induction d1 as [|[c1 s1] d1 IH]; intros [|[c2 s2] d2]; try done.
  unfold columns in *. rewrite !fmap_cons, NoDup_cons. simpl.
  intros [Hc1 Hnd] [= <- Hcols] Hl.
  pose proof (Hl c1) as H1. rewrite !decide_True in H1 by done. injection H1 as <-.
  f_equal. apply IH; [done..|]. intros c. destruct (decide (c1 = c)) as [<-|Hne].
  - transitivity (@None Series); [|symmetry]; apply df_lookup_None; unfold columns;
      [done | by rewrite <- Hcols].
  - specialize (Hl c). by rewrite !decide_False in Hl.
Qed.

Lemma encoded_None `{Pandas} (m : gmap string (list string)) c (o : option Series) :
  m !! c = None → encoded m c <$> o = o.
Proof. intros Hm. unfold encoded. rewrite Hm. by destruct o. Qed.

Lemma encode_column_apply_lookup `{Pandas} df col self :
  ∃ df1, encode_column false df col self = (self, Ok df1)
         ∧ columns df1 = columns df
         ∧ ∀ c, df_lookup df1 c
                = if decide (c = col) then encoded (label_encoders self) c <$> df_lookup df c
                  else df_lookup df c.
Proof.
  unfold encode_column. destruct (decide (col ∈ columns df)) as [Hin|Hnin].
  - unfold mbind, M_bind, get, lift.
    destruct (label_encoders self !! col) as [classes|] eqn:Hle.
    + apply df_lookup_is_Some in Hin as Hs. destruct Hs as [s Hs].
      rewrite (proj2 (df_getitem_Ok _ _ _) Hs), apply_encoder_total.
      eexists. split; [done|]. split; [by apply columns_setitem_present|].
      intros c. destruct (decide (c = col)) as [->|Hne].
      * rewrite df_lookup_setitem_eq, Hs. simpl. unfold encoded. by rewrite Hle.
      * by rewrite df_lookup_setitem_ne.
    + exists df. split; [done|]. split; [done|]. intros c.
      destruct (decide (c = col)) as [->|Hne]; [|done]. by rewrite encoded_None.
  - exists df. split; [done|]. split; [done|]. intros c.
    destruct (decide (c = col)) as [->|Hne]; [|done].
    apply df_lookup_None in Hnin. by rewrite Hnin.
Qed.

Lemma encode_columns_apply_lookup `{Pandas} cols df self :
  NoDup cols →
  ∃ df', encode_columns false df cols self = (self, Ok df')
         ∧ columns df' = columns df
         ∧ ∀ c, df_lookup df' c
                = if decide (c ∈ cols) then encoded (label_encoders self) c <$> df_lookup df c
                  else df_lookup df c.
Proof.
  revert df. induction cols as [|col cols IH]; intros df.
  { intros _. exists df. split; [done|]. split; [done|]. intros c.
    rewrite decide_False; [done | apply not_elem_of_nil]. }
  rewrite NoDup_cons. intros [Hcol Hnd]. simpl. unfold mbind at 1, M_bind.
  destruct (encode_column_apply_lookup df col self) as (df1 & -> & Hc1 & Hl1).
  destruct (IH df1 Hnd) as (df' & -> & Hc' & Hl'). exists df'. split; [done|].
  split; [congruence|]. intros c. rewrite Hl', Hl1.
  destruct (decide (c = col)) as [->|Hne].
  - rewrite decide_False by done. rewrite decide_True; [done | by left].
  - destruct (decide (c ∈ cols)) as [Hc|Hc].
    + rewrite decide_True; [done | by right].
    + rewrite decide_False; [done|]. by intros [?|?]%elem_of_cons.
Qed.

Lemma encode_loop_cons `{Pandas} col encoder rest df :
  Api.encode_loop ((col, encoder) :: rest) df
  = if decide (col ∈ columns df) then
      s ← df_getitem df col;
      encoded ← apply_encoder encoder s;
      Api.encode_loop rest (df_setitem df col encoded)
    else Api.encode_loop rest df.
Proof. done. Qed.

Lemma encode_loop_lookup `{Pandas} encs df :
  NoDup encs.*1 →
  ∃ df', Api.encode_loop encs df = Ok df'
         ∧ columns df' = columns df
         ∧ ∀ c, df_lookup df' c = encoded (list_to_map encs) c <$> df_lookup df c.
Proof.
  revert df. induction encs as [|[col encoder] encs IH]; intros df.
  { intros _. exists df. split; [done|]. split; [done|]. intros c.
    by rewrite encoded_None. }
  rewrite fmap_cons, NoDup_cons, encode_loop_cons. intros [Hcol Hnd].
  change (list_to_map ((col, encoder) :: encs))
    with (<[col:=encoder]> (list_to_map encs : gmap string (list string))).
  simpl in Hcol.
  assert (∀ c (o : option Series), c ≠ col →
            encoded (<[col:=encoder]> (list_to_map encs : gmap string (list string))) c <$> o
            = encoded (list_to_map encs) c <$> o) as Hother.
  { intros c o Hne. unfold encoded. by rewrite lookup_insert_ne. }
  assert ((list_to_map encs : gmap string (list string)) !! col = None) as Hfresh
    by (by apply not_elem_of_list_to_map_1).
  destruct (decide (col ∈ columns df)) as [Hin|Hnin].
  - apply df_lookup_is_Some in Hin as Hs. destruct Hs as [s Hs].
    rewrite (proj2 (df_getitem_Ok _ _ _) Hs). unfold mbind at 1, result_bind at 1.
    rewrite apply_encoder_total. unfold mbind, result_bind.
    destruct (IH (df_setitem df col (NumCol (of_Z ∘ sentinel_code encoder <$> astype_str s)))
                Hnd) as (df' & -> & Hc' & Hl').
    exists df'. split; [done|]. split.
    { rewrite Hc'. by apply columns_setitem_present. }
    intros c. rewrite Hl'. destruct (decide (c = col)) as [->|Hne].
    + rewrite df_lookup_setitem_eq, Hs, encoded_None by done. simpl.
      unfold encoded. by rewrite lookup_insert_eq.
    + rewrite df_lookup_setitem_ne by done. by rewrite Hother.
  - destruct (IH df Hnd) as (df' & -> & Hc' & Hl').
    exists df'. split; [done|]. split; [done|]. intros c. rewrite Hl'.
    destruct (decide (c = col)) as [->|Hne]; [|by rewrite Hother].
    apply df_lookup_None in Hnin. by rewrite Hnin.
Qed.

Lemma columns_spec (df : DataFrame) c : (∃ s, (c, s) ∈ df) → c ∈ columns df.
Proof. intros [s Hin]. apply list_elem_of_fmap. by exists (c, s). Qed.

Lemma filter_present_drop (df : DataFrame) cols :
  df_drop df (filter (λ col, col ∈ columns df) cols) = df_drop df cols.
Proof.
  unfold df_drop. generalize (columns df) (columns_spec df).
  intros present Hall. induction df as [|[c s] df IH]; [done|].
  rewrite !filter_cons. simpl. rewrite IH.
  2:{ intros c' (s' & Hin). apply Hall. exists s'. by right. }
  assert (c ∈ present) as Hc by (apply Hall; exists s; by left).
  destruct (decide (c ∉ cols)) as [Hn|Hn].
  - rewrite decide_True; [done|]. by intros [_ ?]%list_elem_of_filter.
  - rewrite decide_False; [done|]. intros Hn'. apply Hn. intros Hin. apply Hn'.
    by apply list_elem_of_filter.
Qed.

Lemma filter_all_present (df : DataFrame) (cols : list string) :
  (∀ c, c ∈ cols → c ∈ columns df) → filter (λ col, col ∈ columns df) cols = cols.
Proof.
  induction cols as [|c cols IH]; intros Hall; [done|].
  rewrite filter_cons, decide_True by (apply Hall; by left).
  f_equal. apply IH. intros c' Hc'. apply Hall. by right.
Qed.

(** What [predict_fraud] does with the pickled dict is what [transform]
    does on the object it was saved from. *)
Lemma transform_as_served `{NumPy} `{Pandas} self p data :
  saved_as self p →
  NoDup (categorical_features self) →
  (∀ c, is_Some (label_encoders self !! c) → c ∈ categorical_features self) →
  NoDup (columns data) →
  target_col self ∉ columns data →
  (∀ c, c ∈ numeric_features self → c ∈ columns data ∧ c ∉ features_to_drop self) →
  transform data self = (self, X ← Api.apply_preprocessor p data; Ok (X, None)).
Proof.
  intros (Hperm & Hsc & Hnf & Hftd) Hcats Hdom Hnd Htarget Hnum.
  assert (separate_target data self = (self, Ok (None, data))) as Hsep.
  { unfold separate_target, mbind, M_bind, get. by rewrite decide_False. }
  destruct (encode_columns_apply_lookup (categorical_features self)
              (df_drop data (features_to_drop self)) self Hcats) as (enc & Henc & Hce & Hle).
  assert (NoDup (Api.label_encoders p).*1) as Hkeys.
  { rewrite Hperm. apply NoDup_fst_map_to_list. }
  destruct (encode_loop_lookup (Api.label_encoders p) data Hkeys) as (e1 & He1 & Hc1 & Hl1).
  assert ((list_to_map (Api.label_encoders p) : gmap string (list string))
          = label_encoders self) as Hmap.
  { rewrite (list_to_map_proper _ _ Hkeys Hperm). apply list_to_map_to_list. }
  rewrite Hmap in Hl1.
  assert (df_drop e1 (features_to_drop self) = enc) as Hsame.
  { apply df_ext.
    - rewrite columns_df_drop, Hc1. by apply NoDup_filter.
    - by rewrite Hce, !columns_df_drop, Hc1.
    - intros c. rewrite Hle. destruct (decide (c ∈ features_to_drop self)) as [Hd|Hd].
      + rewrite !df_lookup_drop_eq by done. by destruct (decide _).
      + rewrite !df_lookup_drop_ne, Hl1 by done.
        destruct (decide (c ∈ categorical_features self)) as [Hc|Hc]; [done|].
        apply encoded_None. apply eq_None_not_Some. intros ?. by apply Hc, Hdom. }
  unfold transform.
  rewrite (bind_run (separate_target data) _ self _ _ Hsep).
  rewrite (bind_run get _ self self self eq_refl).
  rewrite (bind_run (encode_categorical_features _ false) _ self self enc).
  2:{ unfold encode_categorical_features. by rewrite (bind_run get _ self self self eq_refl). }
  unfold Api.apply_preprocessor. rewrite He1. simpl.
  rewrite Hftd, Hnf, filter_present_drop, Hsame.
  rewrite filter_all_present.
  2:{ intros c Hc. destruct (Hnum c Hc) as [Hin Hd]. rewrite Hce, columns_df_drop.
      apply list_elem_of_filter. by split. }
  unfold scale_numeric_features, mbind at 1 2 3, M_bind, get, lift. rewrite Hsc.
  destruct (select_numeric enc (numeric_features self)) as [X|e]; [|done]. simpl.
  by destruct (StandardScaler.transform (Api.scaler p) X).
Qed.
End serving.
Section served.
Import DataPreprocessor.
#[local] Arguments StandardScaler.transform : simpl never.
#[local] Arguments StandardScaler.fit : simpl never.

(** What a first fit leaves in the preprocessor. *)
Lemma first_fit_state `{NumPy} `{Pandas} target B self r :
  NoDup (columns B) →
  fit_transform B (init target) = (self, r) →
  target_col self = target
  ∧ NoDup (categorical_features self)
  ∧ (∀ c, is_Some (label_encoders self !! c) → c ∈ categorical_features self)
  ∧ (∀ c, c ∈ numeric_features self → c ∉ features_to_drop self).
Proof.
  intros Hnd.
  destruct (fit_transform_run (init target) B)
    as (s1 & y & dff & s2 & enc & Hid & Hsep & Henc & ->).
  injection Hid as <-.
  set (s1 := mk _ _ _ _ _ _) in *.
  pose proof (encode_columns_fit_frame _ _ _ _ _ Henc) as (Ht & _ & Hn & Hc & Hd & Hk).
  assert (target_col s2 = target
          ∧ NoDup (categorical_features s2)
          ∧ (∀ c, is_Some (label_encoders s2 !! c) → c ∈ categorical_features s2)
          ∧ (∀ c, c ∈ numeric_features s2 → c ∉ features_to_drop s2)) as Hs2.
  { rewrite Ht, Hn, Hc, Hd. split; [done|]. split; [|split].
    - subst s1. simpl. by apply columns_filter_NoDup, columns_filter_NoDup.
    - intros c Hsome. destruct (decide (c ∈ categorical_features s1)) as [|Hc']; [done|].
      rewrite Hk in Hsome by done. simpl in Hsome. rewrite lookup_empty in Hsome.
      by destruct Hsome.
    - intros c Hin. subst s1. simpl in *.
      apply list_elem_of_fmap in Hin
        as ([c' s] & -> & [_ [Hnot _]%list_elem_of_filter]%list_elem_of_filter).
      exact Hnot. }
  destruct (print_fraud_rate y); [|by intros [= <- _]].
  destruct (scale_fit_indep enc s2 s2 eq_refl) as (_ & _ & Hframe).
  destruct (Hframe s2) as (Ht' & Hl' & Hn' & Hc' & Hd').
  destruct (scale_numeric_features enc true s2) as [s3 [out|e]]; simpl in *;
    intros [= <- _]; by rewrite Ht', Hl', Hn', Hc', Hd'.
Qed.

(** X10: on a preprocessor fitted once, from scratch, on a batch with
    distinct column labels, the lines of [predict_fraud] that apply the
    pickled dict compute what [DataPreprocessor.transform] computes: for
    every request frame with distinct labels, without the target column and
    with all the fitted numeric features, both give the same matrix or the
    same error, in whatever order the dict yields the encoders. *)
Theorem served_as_transformed `{NumPy} `{Pandas}
    target (B X : DataFrame) (y : option Series) self p (data : DataFrame) :
  NoDup (columns B) →
  fit_transform B (init target) = (self, Ok (X, y)) →
  saved_as self p →
  NoDup (columns data) →
  target ∉ columns data →
  (∀ c, c ∈ numeric_features self → c ∈ columns data) →
  transform data self = (self, X ← Api.apply_preprocessor p data; Ok (X, None)).
Proof.
  intros HndB Hfit Hsaved Hnd Htarget Hnum.
  destruct (first_fit_state _ _ _ _ HndB Hfit) as (Ht & Hcats & Hdom & Hdisj).
  apply transform_as_served; try done.
  - by rewrite Ht.
  - intros c Hc. split; [by apply Hnum | by apply Hdisj].
Qed.

Lemma served_as_transformed_witness :
  ∃ self p,
    saved_as self p
    ∧ @transform Sample.numpy Sample.pandas Fixture.request self
      = (self, X ← @Api.apply_preprocessor Sample.pandas p Fixture.request; Ok (X, None)).
Proof.
  destruct (@fit_transform Sample.numpy Sample.pandas Sample.batch (init "is_fraud"))
    as [self [[X y]|e]] eqn:Hfit; [|by vm_compute in Hfit].
  set (p := Api.mkPreprocessor (map_to_list (label_encoders self))
              (default StandardScaler.Unfitted (scaler self))
              (numeric_features self) (features_to_drop self)).
  assert (saved_as self p) as Hsaved.
  { unfold saved_as, p. simpl. split; [done|]. split; [|done].
    vm_compute in Hfit. by injection Hfit as <- _ _. }
  exists self, p. split; [exact Hsaved|].
  apply (served_as_transformed (H := Sample.numpy) (H0 := Sample.pandas)
           "is_fraud" Sample.batch X y self p Fixture.request);
    [by_compute | exact Hfit | exact Hsaved | by_compute | by_compute |].
  vm_compute in Hfit. injection Hfit as <- _ _. intros c Hc. simpl in Hc.
  repeat (apply elem_of_cons in Hc as [->|Hc]; [by_compute|]). by apply elem_of_nil in Hc.
Defined.

Lemma select_numeric_length df cols X :
  select_numeric df cols = Ok X → length X = length cols.
Proof. intros HX%select_numeric_Ok. symmetry. by eapply Forall2_length. Qed.

Lemma select_numeric_present df cols e :
  (∀ c, c ∈ cols → c ∈ columns df) → select_numeric df cols = Err e → e = ValueError.
Proof.
  induction cols as [|c cols IH]; intros Hall; simpl; [done|].
  destruct (proj2 (df_lookup_is_Some df c) (Hall c ltac:(by left))) as [s Hs].
  rewrite (proj2 (df_getitem_Ok _ _ _) Hs). simpl.
  destruct (select_numeric df cols) as [X|e'] eqn:E; simpl.
  - destruct s; by intros [= <-].
  - intros [= <-]. apply IH; [|done]. intros c' Hc'. apply Hall. by right.
Qed.

Lemma encode_loop_total `{Pandas} encs df :
  ∃ df', Api.encode_loop encs df = Ok df' ∧ columns df' = columns df.
Proof.
  revert df. induction encs as [|[col encoder] encs IH]; intros df; [by exists df|].
  rewrite encode_loop_cons. destruct (decide (col ∈ columns df)) as [Hin|Hnin]; [|apply IH].
  apply df_lookup_is_Some in Hin as Hs. destruct Hs as [s Hs].
  rewrite (proj2 (df_getitem_Ok _ _ _) Hs). unfold mbind at 1, result_bind at 1.
  rewrite apply_encoder_total. unfold mbind, result_bind.
  destruct (IH (df_setitem df col (NumCol (of_Z ∘ sentinel_code encoder <$> astype_str s))))
    as (df' & -> & Hc). exists df'. split; [done|]. rewrite Hc.
  apply columns_setitem_present. apply df_lookup_is_Some. by eexists.
Qed.

Lemma filter_shorter {A} (P : A → Prop) `{∀ x, Decision (P x)} (l : list A) x :
  x ∈ l → ¬ P x → length (filter P l) < length l.
Proof.
  induction l as [|a l IH]; [by intros ?%elem_of_nil|].
  intros Hin Hx. rewrite filter_cons. pose proof (length_filter P l) as Hle.
  destruct (decide (P a)) as [Ha|Ha]; simpl; [|lia].
  apply elem_of_cons in Hin as [->|Hin]; [done|]. specialize (IH Hin Hx). lia.
Qed.

(** X11: [predict_fraud] scales [available_numeric], the fitted numeric
    features that the request has.  With a scaler fitted on all the numeric
    features, when one of them is missing from the request (or is among the
    dropped columns) the call never returns a matrix scaled on the rest: it
    fails with a [ValueError]. *)
Theorem partial_numeric_features_rejected `{Pandas} p (data : DataFrame) ms ss c :
  Api.scaler p = StandardScaler.Fitted ms ss →
  length ms = length (Api.numeric_features p) →
  c ∈ Api.numeric_features p →
  c ∉ columns data ∨ c ∈ Api.features_to_drop p →
  Api.apply_preprocessor p data = Err ValueError.
Proof.
  intros Hsc Hlen Hc Hmissing. unfold Api.apply_preprocessor.
  destruct (encode_loop_total (Api.label_encoders p) data) as (e1 & -> & Hc1).
  unfold mbind at 1, result_bind at 1. cbv zeta.
  rewrite filter_present_drop.
  set (df := df_drop e1 (Api.features_to_drop p)).
  set (available := filter (λ col, col ∈ columns df) (Api.numeric_features p)).
  assert (length available < length ms) as Hshort.
  { rewrite Hlen. apply (filter_shorter _ _ c); [done|].
    subst df. rewrite columns_df_drop, Hc1. intros [Hd Hin]%list_elem_of_filter.
    by destruct Hmissing. }
  destruct (select_numeric df available) as [X|e] eqn:HX.
  - apply select_numeric_length in HX. unfold mbind at 1, result_bind at 1.
    rewrite Hsc. unfold StandardScaler.transform.
    destruct (StandardScaler.check_array X) as [[]|e] eqn:Hchk.
    + simpl. rewrite decide_False; [done | lia].
    + unfold StandardScaler.check_array in Hchk.
      destruct (decide _); [by injection Hchk as <- | done].
  - simpl. f_equal. apply (select_numeric_present df available); [|done].
    intros c' [Hin _]%list_elem_of_filter. exact Hin.
Qed.

Lemma partial_numeric_features_rejected_witness :
  @Api.apply_preprocessor Sample.pandas Fixture.with_balance Fixture.request
  = Err ValueError.
Proof.
  apply (partial_numeric_features_rejected (H := Sample.pandas)
           Fixture.with_balance Fixture.request [Some 500; Some 40]%Q [Some 10; Some 2]%Q
           "balance"); [reflexivity | reflexivity | by_compute | left; by_compute].
Defined.
End served.
(** ** From the training run to a served request *)

Section pipeline.
Import DataPreprocessor.
#[local] Arguments StandardScaler.transform : simpl never.
#[local] Arguments StandardScaler.fit : simpl never.

Lemma encode_column_fit_lookup_ne `{Pandas} df col self self' df' c :
  encode_column true df col self = (self', Ok df') →
  c ≠ col → df_lookup df' c = df_lookup df c.
Proof.
  unfold encode_column. case_decide as Hin; [|by intros [= _ <-]].
  unfold mbind, M_bind, lift. apply df_lookup_is_Some in Hin as Hs. destruct Hs as [s Hs].
  rewrite (proj2 (df_getitem_Ok _ _ _) Hs). simpl. intros [= _ <-] Hne.
  by rewrite df_lookup_setitem_ne.
Qed.

Lemma encode_columns_fit_lookup_ne `{Pandas} cols df self self' df' c :
  encode_columns true df cols self = (self', Ok df') →
  c ∉ cols → df_lookup df' c = df_lookup df c.
Proof.
  revert df self. induction cols as [|col cols IH]; intros df self; simpl.
  { by intros [= _ <-]. }
  intros (df1 & s1 & H1 & H2)%bind_Ok [Hne Hc]%not_elem_of_cons.
  rewrite (IH _ _ H2 Hc). by eapply encode_column_fit_lookup_ne.
Qed.

Lemma encode_column_fit_keys `{Pandas} df col self self' r c :
  encode_column true df col self = (self', r) →
  is_Some (label_encoders self !! c) ∨ (c = col ∧ c ∈ columns df) →
  is_Some (label_encoders self' !! c).
Proof.
  unfold encode_column. case_decide as Hin.
  2:{ intros [= <- _] [?|[-> ?]]; done. }
  unfold mbind, M_bind, lift. apply df_lookup_is_Some in Hin as Hs. destruct Hs as [s Hs].
  rewrite (proj2 (df_getitem_Ok _ _ _) Hs). simpl. intros [= <- _]. simpl.
  destruct (decide (c = col)) as [->|Hne].
  - intros _. by rewrite lookup_insert_eq.
  - rewrite lookup_insert_ne by done. by intros [?|[? _]].
Qed.

Lemma encode_columns_fit_keys `{Pandas} cols df self self' df' c :
  encode_columns true df cols self = (self', Ok df') →
  is_Some (label_encoders self !! c) ∨ (c ∈ cols ∧ c ∈ columns df) →
  is_Some (label_encoders self' !! c).
Proof.
  revert df self. induction cols as [|col cols IH]; intros df self; simpl.
  { intros [= <- _] [?|[?%elem_of_nil _]]; done. }
  intros (df1 & s1 & H1 & H2)%bind_Ok Hc.
  apply (IH _ _ H2). pose proof (encode_column_fit_shape _ _ _ _ _ H1) as [Hcols _].
  destruct Hc as [?|[[->|?]%elem_of_cons ?]].
  - left. eapply encode_column_fit_keys; [done | by left].
  - left. eapply encode_column_fit_keys; [done | by right].
  - right. by rewrite Hcols.
Qed.

Lemma separate_then_drop (B : DataFrame) self y dff :
  separate_target B self = (self, Ok (y, dff)) →
  (target_col self ∈ columns B → target_col self ∈ features_to_drop self) →
  df_drop dff (features_to_drop self) = df_drop B (features_to_drop self).
Proof.
  unfold separate_target, mbind, M_bind, get, lift, df_drop_strict.
  destruct (decide (target_col self ∈ columns B)) as [Hin|Hnin]; [|by intros [= _ <-]].
  apply df_lookup_is_Some in Hin as Hs. destruct Hs as [s Hs].
  rewrite (proj2 (df_getitem_Ok _ _ _) Hs). simpl. intros [= _ <-] Ht.
  unfold df_drop. rewrite list_filter_filter. apply list_filter_iff.
  intros [c s']. simpl. split; [tauto|]. intros Hc. split; [done|].
  intros ->%list_elem_of_singleton. by apply Hc, Ht.
Qed.

Lemma select_numeric_total df cols :
  (∀ c, c ∈ cols → is_num_at df c) → ∃ X, select_numeric df cols = Ok X.
Proof.
  induction cols as [|c cols IH]; intros Hall; [by eexists|]. simpl.
  destruct (Hall c ltac:(by left)) as [xs Hxs].
  rewrite (proj2 (df_getitem_Ok _ _ _) Hxs). simpl.
  destruct IH as [X ->]; [intros c' Hc'; apply Hall; by right|]. by eexists.
Qed.

Lemma check_array_Ok df c cols xs X :
  select_numeric df (c :: cols) = Ok X →
  df_lookup df c = Some (NumCol xs) → xs ≠ [] →
  StandardScaler.check_array X = Ok ().
Proof.
  intros HX%select_numeric_Ok Hxs Hne. inversion HX as [|? xs' ? X' Hc _]; subst.
  rewrite Hxs in Hc. injection Hc as <-.
  unfold StandardScaler.check_array. rewrite decide_False; [done|].
  intros [?|Hn]; [done|]. simpl in Hn. by destruct xs.
Qed.

(** When fitting on a first batch succeeds, and what it leaves. *)
Lemma first_fit_accepts `{NumPy} `{Pandas} target (B : DataFrame) c0 rest xs0 :
  NoDup (columns B) →
  (∀ s, df_lookup B target = Some s → is_number s = true) →
  numeric_features (identify_feature_types B (init target)).1 = c0 :: rest →
  df_lookup B c0 = Some (NumCol xs0) → xs0 ≠ [] →
  ∃ self X y ms ss,
    fit_transform B (init target) = (self, Ok (X, y))
    ∧ scaler self = Some (StandardScaler.Fitted ms ss)
    ∧ length ms = length (c0 :: rest)
    ∧ numeric_features self = c0 :: rest
    ∧ categorical_features self
      = categorical_features (identify_feature_types B (init target)).1
    ∧ features_to_drop self
      = filter (λ c, c ∈ columns B) ["transaction_id"; "timestamp"; target]
    ∧ (∀ c, c ∈ categorical_features self → is_Some (label_encoders self !! c))
    ∧ (∀ c, c ∉ categorical_features self → label_encoders self !! c = None)
    ∧ columns X = filter (λ c, c ∉ features_to_drop self) (columns B).
Proof.
  intros Hnd Htarget Hnf Hc0 Hxs0.
  destruct (fit_transform_run (init target) B)
    as (s1 & y & dff & s2 & enc & Hid & Hsep & Henc & Hrun).
  rewrite Hid in Hnf. simpl in Hnf.
  assert (s1 = (identify_feature_types B (init target)).1) as Hs1 by (by rewrite Hid).
  rewrite <- Hs1. clear Hs1.
  injection Hid as Hid. 
  set (to_drop := filter (λ c, c ∈ columns B) ["transaction_id"; "timestamp"; target]) in *.
  assert (target_col s1 = target ∧ label_encoders s1 = ∅ ∧ features_to_drop s1 = to_drop
          ∧ numeric_features s1
            = columns (filter (λ p : string * Series, is_number p.2 = true) (df_drop B to_drop))
          ∧ categorical_features s1
            = columns (filter (λ p : string * Series, is_object p.2 = true) (df_drop B to_drop)))
    as (Ht1 & Hl1 & Hd1 & Hn1 & Hcat1) by (by rewrite <- Hid).
  clear Hid.
  assert (df_drop dff to_drop = df_drop B to_drop) as Hfeat.
  { rewrite <- Hd1. apply (separate_then_drop _ _ y); [done|].
    rewrite Ht1, Hd1. intros Hin. apply list_elem_of_filter. split; [done|].
    do 2 apply list_elem_of_further. apply list_elem_of_here. }
  rewrite Hd1, Hfeat in Henc.
  assert (NoDup (columns (df_drop B to_drop))) as HndF.
  { rewrite columns_df_drop. by apply NoDup_filter. }
  pose proof (encode_columns_fit_frame _ _ _ _ _ Henc) as (Ht2 & _ & Hn2 & Hc2 & Hd2 & Hk2).
  pose proof (encode_columns_fit_shape _ _ _ _ _ Henc) as [Hce Hne].
  assert (∀ c, c ∈ numeric_features s1 →
               (c ∉ categorical_features s1)
               ∧ ∃ xs, df_lookup (df_drop B to_drop) c = Some (NumCol xs)) as Hnum.
  { intros c Hc. rewrite Hn1 in Hc.
    apply elem_of_columns_filter in Hc as (s & Hs & Hnum); [|done].
    simpl in Hnum. destruct s as [xs| |]; try done. split; [|by eexists].
    rewrite Hcat1. intros (s' & Hs' & Hobj)%elem_of_columns_filter; [|done].
    rewrite Hs in Hs'. by injection Hs' as <-. }
  assert (print_fraud_rate y = Ok ()) as Hprint.
  { destruct (separate_target_total B s1) as (p & Hsep' & Hy).
    rewrite Hsep in Hsep'. injection Hsep' as <-. simpl in Hy.
    rewrite Hy, Ht1. destruct (df_lookup B target) as [s|] eqn:Hs; [|done].
    specialize (Htarget s eq_refl). by destruct s. }
  rewrite Hprint in Hrun.
  destruct (select_numeric_total enc (numeric_features s2)) as [X0 HX0].
  { intros c Hc. rewrite Hn2 in Hc. apply Hne. left. by apply Hnum. }
  assert (StandardScaler.check_array X0 = Ok ()) as Hchk.
  { rewrite Hn2, Hnf in HX0. apply (check_array_Ok enc c0 rest xs0); [done| |done].
    destruct (Hnum c0) as [Hnc [xs Hxs]]; [rewrite Hnf; by left|].
    rewrite (encode_columns_fit_lookup_ne _ _ _ _ _ _ Henc Hnc), Hxs.
    rewrite df_lookup_drop_ne in Hxs; [congruence|].
    intros Hin. by rewrite df_lookup_drop_eq in Hxs. }
  set (ms := StandardScaler.col_mean <$> X0). set (ss := StandardScaler.col_scale <$> X0).
  set (out := assign_columns enc (numeric_features s2) (StandardScaler.scale_columns ms ss X0)).
  set (s3 := (set_scaler (StandardScaler.Fitted ms ss) s2).1).
  assert (scale_numeric_features enc true s2 = (s3, Ok out)) as Hscale.
  { unfold scale_numeric_features, mbind, M_bind, get, lift, set_scaler. simpl.
    rewrite HX0. unfold StandardScaler.fit. rewrite Hchk. simpl.
    unfold StandardScaler.transform. rewrite Hchk. simpl.
    rewrite decide_True by (by rewrite length_fmap). done. }
  rewrite Hscale in Hrun. exists s3, out, y, ms, ss.
  split; [done|]. split; [done|]. split.
  { unfold ms. rewrite length_fmap, <- Hnf, <- Hn2.
    by apply select_numeric_length in HX0. }
  pose proof (scale_fit_shape _ _ _ _ Hscale) as [Hcs _].
  subst s3. simpl. rewrite Hn2, Hc2, Hd2, Hd1. repeat split; try done.
  - intros c Hc. apply (encode_columns_fit_keys _ _ _ _ _ _ Henc). right. split; [done|].
    rewrite Hcat1 in Hc. rewrite columns_df_drop.
    apply list_elem_of_fmap in Hc
      as ([c' s] & -> & [_ [Hd Hin]%list_elem_of_filter]%list_elem_of_filter).
    apply list_elem_of_filter. split; [done|]. apply list_elem_of_fmap. by exists (c', s).
  - intros c Hc. by rewrite Hk2, Hl1.
  - by rewrite Hcs, Hce, columns_df_drop.
Qed.

(** When the serving path succeeds, and what it returns. *)
Lemma apply_preprocessor_accepts `{Pandas} self p (data : DataFrame) ms ss c0 rest :
  saved_as self p →
  scaler self = Some (StandardScaler.Fitted ms ss) →
  numeric_features self = c0 :: rest →
  length ms = length (c0 :: rest) →
  (∀ c, c ∈ c0 :: rest →
        (c ∉ features_to_drop self) ∧ label_encoders self !! c = None
        ∧ ∃ xs, df_lookup data c = Some (NumCol xs) ∧ xs ≠ []) →
  ∃ Xr, Api.apply_preprocessor p data = Ok Xr
        ∧ columns Xr = filter (λ c, c ∉ features_to_drop self) (columns data)
        ∧ ∀ c, c ∉ features_to_drop self →
               is_num_at data c ∨ (is_Some (label_encoders self !! c) ∧ c ∈ columns data) →
               is_num_at Xr c.
Proof.
  intros (Hperm & Hsc & Hnf & Hftd) Hfitted Hnum Hlen Hcols.
  rewrite Hfitted in Hsc. injection Hsc as Hsc.
  assert (NoDup (Api.label_encoders p).*1) as Hkeys.
  { rewrite Hperm. apply NoDup_fst_map_to_list. }
  destruct (encode_loop_lookup (Api.label_encoders p) data Hkeys) as (e1 & He1 & Hc1 & Hl1).
  assert ((list_to_map (Api.label_encoders p) : gmap string (list string))
          = label_encoders self) as Hmap.
  { rewrite (list_to_map_proper _ _ Hkeys Hperm). apply list_to_map_to_list. }
  rewrite Hmap in Hl1.
  unfold Api.apply_preprocessor. rewrite He1. unfold mbind at 1, result_bind at 1. cbv zeta.
  rewrite Hftd, Hnf, filter_present_drop.
  set (df := df_drop e1 (features_to_drop self)).
  assert (∀ c, c ∉ features_to_drop self →
               is_num_at data c ∨ (is_Some (label_encoders self !! c) ∧ c ∈ columns data) →
               is_num_at df c) as Hdf.
  { intros c Hd Hc. unfold is_num_at, df. rewrite df_lookup_drop_ne, Hl1 by done.
    unfold encoded. destruct (label_encoders self !! c) as [classes|] eqn:Hle.
    - assert (c ∈ columns data) as Hin.
      { destruct Hc as [[xs Hxs]|[_ ?]]; [|done]. apply df_lookup_is_Some. by eexists. }
      apply df_lookup_is_Some in Hin as [s ->]. by eexists.
    - destruct Hc as [[xs ->]|[[] _]]; [by eexists | done]. }
  assert (∀ c, c ∈ numeric_features self → df_lookup df c = df_lookup data c) as Hsame.
  { intros c Hc. rewrite Hnum in Hc. destruct (Hcols c Hc) as (Hd & Hle & _).
    unfold df. rewrite df_lookup_drop_ne, Hl1 by done. by apply encoded_None. }
  rewrite filter_all_present.
  2:{ intros c Hc. rewrite Hnum in Hc. destruct (Hcols c Hc) as (Hd & _ & xs & Hxs & _).
      apply df_lookup_is_Some. rewrite Hsame by (by rewrite Hnum). by eexists. }
  destruct (select_numeric_total df (numeric_features self)) as [X0 HX0].
  { intros c Hc. rewrite Hnum in Hc. destruct (Hcols c Hc) as (Hd & _ & xs & Hxs & _).
    apply Hdf; [done|]. left. by eexists. }
  rewrite HX0. unfold mbind at 1, result_bind at 1.
  assert (StandardScaler.check_array X0 = Ok ()) as Hchk.
  { rewrite Hnum in HX0. destruct (Hcols c0) as (Hd & _ & xs & Hxs & Hne); [by left|].
    apply (check_array_Ok df c0 rest xs); [done| |done].
    rewrite Hsame; [done|]. rewrite Hnum. by left. }
  rewrite <- Hsc. unfold StandardScaler.transform. rewrite Hchk. simpl.
  rewrite decide_True.
  2:{ rewrite Hlen, <- Hnum. by apply select_numeric_length in HX0. }
  simpl. eexists. split; [done|].
  assert (Forall (λ c, c ∈ columns df) (numeric_features self)) as Hpresent.
  { apply Forall_forall. intros c Hc. apply df_lookup_is_Some. rewrite Hsame by done.
    rewrite Hnum in Hc. destruct (Hcols c Hc) as (_ & _ & xs & -> & _). by eexists. }
  destruct (assign_columns_shape df (numeric_features self)
              (StandardScaler.scale_columns ms ss X0) Hpresent) as (Hc & Hkeep & _).
  split.
  - rewrite Hc. unfold df. by rewrite columns_df_drop, Hc1.
  - intros c Hd Hin. by apply Hkeep, Hdf.
Qed.
End pipeline.
Section end_to_end.
Import DataPreprocessor.
#[local] Arguments StandardScaler.transform : simpl never.
#[local] Arguments StandardScaler.fit : simpl never.

Lemma astype_int_flags (f : cell → bool) (q : Q) (xs : list cell) :
  ∃ ys, astype_int (NumCol ((λ x, cell_mul x (Some q)) <$> (of_bool ∘ f <$> xs)))
        = Ok (NumCol ys).
Proof.
  unfold astype_int. simpl. rewrite decide_True; [by eexists|].
  rewrite <- list_fmap_compose. apply Forall_fmap, Forall_true. intros x. simpl.
  by eexists.
Qed.

Lemma engineered_synthetic `{NumPy} `{Pandas} (d : DataExtractor.draws) :
  ∃ eng,
    FeatureEngineer.fit_transform (DataExtractor.generate_synthetic_data d) = Ok eng
    ∧ NoDup (columns eng)
    ∧ filter (λ c, c ∈ columns eng) ["transaction_id"; "timestamp"; "is_fraud"]
      = ["transaction_id"; "timestamp"; "is_fraud"]
    ∧ filter (λ c, c ∉ ["transaction_id"; "timestamp"; "is_fraud"]) (columns eng)
      = model_columns
    ∧ numeric_features (identify_feature_types eng (init "is_fraud")).1 = numeric_columns
    ∧ categorical_features (identify_feature_types eng (init "is_fraud")).1
      = categorical_columns
    ∧ df_lookup eng "amount" = Some (NumCol (Some <$> DataExtractor.amounts d))
    ∧ ∃ ys, df_lookup eng "is_fraud" = Some (NumCol ys).
Proof.
  unfold FeatureEngineer.fit_transform, DataExtractor.generate_synthetic_data. simpl.
  unfold FeatureEngineer.create_risk_score, FeatureEngineer.weekend_term,
    FeatureEngineer.offpeak_term. simpl.
  destruct (astype_int_flags (cell_ge 5) (1 # 2)
              ((λ x : option Timestamp, x ≫= of_Z ∘ ts_dayofweek) <$>
               (Some <$> DataExtractor.timestamps d))) as [ys ->].
  simpl. eexists. split; [reflexivity|].
  split; [by_compute|]. split; [vm_compute; reflexivity|].
  split; [vm_compute; reflexivity|]. split; [vm_compute; reflexivity|].
  split; [vm_compute; reflexivity|]. split; [reflexivity|]. by eexists.
Qed.

Lemma engineered_request `{NumPy} (t : Api.Transaction) (now : Timestamp) :
  ∃ data,
    Api.engineer_features t now = Ok data
    ∧ columns data = model_columns
    ∧ ∀ c, c ∈ numeric_columns → ∃ xs, df_lookup data c = Some (NumCol xs) ∧ xs ≠ [].
Proof.
  eexists. split; [|split].
  - unfold Api.engineer_features, Api.risk_score. simpl.
    unfold df_drop_strict. rewrite decide_True by by_compute.
    df_drop_compute. reflexivity.
  - reflexivity.
  - intros c Hc. unfold numeric_columns in Hc.
    repeat (apply elem_of_cons in Hc as [->|Hc]; [eexists; split; [reflexivity | done]|]).
    by apply elem_of_nil in Hc.
Qed.

(** X12: end to end.  On any non-empty data set with the layout of
    [_generate_synthetic_data], with amounts and averages as the generator
    draws them, feature engineering and [DataPreprocessor.fit_transform]
    succeed and the training matrix has the 28 model columns; for the
    pickled preprocessor and every request within the bounds of the
    pydantic model whose numbers stay finite in binary64, at any time, the
    feature engineering and preprocessing of [predict_fraud] succeed, the
    served matrix has the columns of the training matrix in the same order,
    all of them numeric, and the endpoint replies exactly when the model
    returns a label and a row of at least two probabilities. *)
Theorem synthetic_pipeline_serves_requests `{NumPy} `{Pandas} (d : DataExtractor.draws) :
  DataExtractor.amounts d ≠ [] → DataExtractor.clipped d →
  ∃ eng self X y,
    FeatureEngineer.fit_transform (DataExtractor.generate_synthetic_data d) = Ok eng
    ∧ fit_transform eng (init "is_fraud") = (self, Ok (X, y))
    ∧ columns X = model_columns
    ∧ ∀ p t now, saved_as self p → Api.valid t → in_range t →
        ∃ data Xr,
          Api.engineer_features t now = Ok data
          ∧ Api.apply_preprocessor p data = Ok Xr
          ∧ columns Xr = columns X
          ∧ (∀ c, c ∈ columns Xr → is_num_at Xr c)
          ∧ ∀ model now_iso,
              (∃ r, Endpoint.predict_fraud (Some model) (Some p) t now now_iso
                    = Endpoint.Reply r)
              ↔ (∃ label labels row rows,
                   Endpoint.predict model Xr = Ok (label :: labels)
                   ∧ Endpoint.predict_proba model Xr = Ok (row :: rows)
                   ∧ 2 ≤ length row).
Proof.
  intros Hrows _.
  destruct (engineered_synthetic d)
    as (eng & Heng & Hnd & Hdrop & Hcols & Hnf & Hcf & Hamount & [ys Hy]).
  destruct (first_fit_accepts "is_fraud" eng "amount" (tail numeric_columns)
              (Some <$> DataExtractor.amounts d))
    as (self & X & y & ms & ss & Hfit & Hsc & Hlen & Hnfs & Hcfs & Hftd & Hkeys & Hnokeys
        & HcX); [done| |done|done| |].
  { intros s Hs. rewrite Hy in Hs. by injection Hs as <-. }
  { by destruct (DataExtractor.amounts d). }
  rewrite Hdrop in Hftd. rewrite Hcf in Hcfs. rewrite Hftd, Hcols in HcX.
  exists eng, self, X, y. split; [done|]. split; [done|]. split; [done|].
  intros p t now Hsaved _ _.
  destruct (engineered_request t now) as (data & Hdata & Hdc & Hdn).
  assert (Forall (λ c, (c ∉ ["transaction_id"; "timestamp"; "is_fraud"])
                       ∧ (c ∉ categorical_columns)) numeric_columns) as Hnumeric
    by by_compute.
  assert (Forall (λ c, (c ∉ ["transaction_id"; "timestamp"; "is_fraud"])
                       ∧ (c ∈ numeric_columns ∨ c ∈ categorical_columns)) model_columns)
    as Hmodel by by_compute.
  destruct (apply_preprocessor_accepts self p data ms ss "amount" (tail numeric_columns)
              Hsaved Hsc Hnfs Hlen) as (Xr & HXr & HcXr & HnumXr).
  { intros c Hc. rewrite Hftd, Hcfs in *.
    destruct (proj1 (Forall_forall _ _) Hnumeric c Hc) as [Hd Hcat].
    split; [done|]. split; [by apply Hnokeys | by apply Hdn]. }
  assert (columns Xr = model_columns) as HcXr'.
  { rewrite HcXr, Hftd, Hdc. vm_compute. reflexivity. }
  exists data, Xr. split; [done|]. split; [done|]. split; [congruence|]. split.
  - intros c Hc. rewrite HcXr' in Hc.
    destruct (proj1 (Forall_forall _ _) Hmodel c Hc) as [Hd [Hn|Hcat]].
    + apply HnumXr; [by rewrite Hftd|]. left. destruct (Hdn c Hn) as (xs & Hxs & _).
      by exists xs.
    + apply HnumXr; [by rewrite Hftd|]. right. split; [apply Hkeys; by rewrite Hcfs|].
      by rewrite Hdc.
  - intros model now_iso. unfold Endpoint.predict_fraud, Endpoint.score.
    cbv [mbind Endpoint.exn_bind Endpoint.lift Endpoint.item].
    rewrite Hdata. cbv beta iota. rewrite HXr. cbv beta iota.
    destruct (Endpoint.predict model Xr) as [[|label labels]|e].
    + split; [by intros [r ?] | by intros (? & ? & ? & ? & ? & _)].
    + destruct (Endpoint.predict_proba model Xr) as [[|row rows]|e]; simpl.
      * split; [by intros [r ?] | by intros (? & ? & ? & ? & _ & ? & _)].
      * destruct row as [|p0 [|p1 row]]; simpl.
        -- split; [by intros [r ?] | intros (? & ? & ? & ? & _ & [= <- _] & Hrow)].
           simpl in Hrow. lia.
        -- split; [by intros [r ?] | intros (? & ? & ? & ? & _ & [= <- _] & Hrow)].
           simpl in Hrow. lia.
        -- split; [|by eexists]. intros _. eexists _, _, _, _.
           split; [done|]. split; [done|]. simpl. lia.
      * split; [by intros [r ?] | by intros (? & ? & ? & ? & _ & ? & _)].
    + split; [by intros [r ?] | by intros (? & ? & ? & ? & ? & _)].
Qed.

Lemma synthetic_pipeline_serves_requests_witness :
  ∃ eng self X y,
    @FeatureEngineer.fit_transform Sample.numpy Sample.pandas
      (DataExtractor.generate_synthetic_data Draws.two) = Ok eng
    ∧ @fit_transform Sample.numpy Sample.pandas eng (init "is_fraud") = (self, Ok (X, y))
    ∧ columns X = model_columns.
Proof.
  destruct (synthetic_pipeline_serves_requests (H := Sample.numpy) (H0 := Sample.pandas)
              Draws.two) as (eng & self & X & y & Heng & Hfit & Hcols & _).
  - done.
  - split; repeat constructor; by apply Qle_bool_iff.
  - by exists eng, self, X, y.
Defined.
End end_to_end.
(** ** The monitor's logs *)

Section monitor_log.
Import MonitorLog.




End monitor_log.
Section alerts.
Import MonitorLog.

Lemma check_for_alerts_file m minp minr now_p now_r self :
  let res := check_for_alerts m minp minr now_p now_r self in
  default [] (alerts_file res.1) = default [] (alerts_file self) ++ res.2
  ∧ (alerts_file res.1 = None ↔ alerts_file self = None ∧ res.2 = [])
  ∧ (res.2 = [] ↔ (minp <= precision m)%Q ∧ (minr <= recall m)%Q)
  ∧ predictions_file res.1 = predictions_file self
  ∧ predictions_log res.1 = predictions_log self.
Proof.
  unfold check_for_alerts. cbv zeta.
  destruct (Qltb (precision m) minp) eqn:Hp, (Qltb (recall m) minr) eqn:Hr; simpl;
    first [apply Qltb_lt in Hp | apply Qltb_ge in Hp];
    first [apply Qltb_lt in Hr | apply Qltb_ge in Hr];
    rewrite ?app_nil_r; repeat split; try done;
    try (by intros [_ ?]); intros [? ?]; first [done | exfalso; lra].
Qed.

(** X14: [alerts.json] only grows: after any run of [check_for_alerts]
    calls the file holds what it held before followed by every alert the
    calls returned, in order; it is still missing exactly when it was
    missing and no alert was raised; no alert is raised exactly when every
    check met both thresholds; and the predictions file is not touched. *)
Theorem alerts_file_accumulates (checks : list check) (self : t) :
  let res := check_all checks self in
  default [] (alerts_file res.1) = default [] (alerts_file self) ++ res.2
  ∧ (alerts_file res.1 = None ↔ alerts_file self = None ∧ res.2 = [])
  ∧ (res.2 = [] ↔ Forall healthy checks)
  ∧ predictions_file res.1 = predictions_file self.
Proof.
  cbv zeta. revert self. induction checks as [|c checks IH]; intros self; simpl.
  { rewrite app_nil_r. repeat split; try done. by intros [? _]. }
  pose proof (check_for_alerts_file (checked c) (min_precision c) (min_recall c)
                (clock c).1 (clock c).2 self) as Hstep. cbv zeta in Hstep.
  destruct (check_for_alerts _ _ _ _ _ self) as [s1 alerts]. simpl in Hstep.
  destruct Hstep as (Hfile & Hnone & Hempty & Hpf & _).
  specialize (IH s1). destruct (check_all checks s1) as [s2 more]. simpl in *.
  destruct IH as (IHfile & IHnone & IHempty & IHpf).
  split; [by rewrite IHfile, Hfile, app_assoc|]. split; [|split; [|congruence]].
  - rewrite IHnone, Hnone. split.
    + intros [[? ->] ->]. done.
    + intros [? [-> ->]%app_eq_nil]. done.
  - rewrite Forall_cons. unfold healthy at 1. rewrite <- Hempty, <- IHempty.
    split; [by intros [-> ->]%app_eq_nil | by intros [-> ->]].
Qed.
End alerts.
Section quiet_window.
Import MonitorLog.

Lemma count_where_none (f : Z → Z → bool) y_true y_pred :
  (∀ t p, (t, p) ∈ zip y_true y_pred → f t p = false) →
  count_where f y_true y_pred = 0%Z.
Proof.
  intros Hf. unfold count_where.
  induction (zip y_true y_pred) as [|[t p] l IH]; [done|].
  rewrite filter_cons_False.
  - apply IH. intros t' p' Hin. apply Hf. by right.
  - simpl. rewrite (Hf t p); [done | by left].
Qed.

Lemma no_fraud_counts y_true y_pred :
  Forall (λ y, y = 0%Z) y_true →
  true_positives y_true y_pred = 0%Z ∧ false_negatives y_true y_pred = 0%Z.
Proof.
  intros Hzero.
  assert (∀ t p, (t, p) ∈ zip y_true y_pred → t = 0%Z) as Ht.
  { intros t p Hin. apply (proj1 (Forall_forall _ _) Hzero).
    apply elem_of_zip_l in Hin. done. }
  split; apply count_where_none; intros t p Hin; by rewrite (Ht t p Hin).
Qed.

Lemma ratio_zero b : ratio 0 b = 0%Q.
Proof. unfold ratio. destruct (b =? 0)%Z; [done|]. by destruct b. Qed.

Lemma np_mean_zeros (ys : list Z) :
  ys ≠ [] → Forall (λ y, y = 0%Z) ys → np_mean (inject_Z <$> ys) = Some 0%Q.
Proof.
  intros Hne Hzero. unfold np_mean. destruct ys as [|y ys]; [done|].
  rewrite fmap_cons. f_equal. change 0%Q with (Qred 0). apply Qred_complete.
  rewrite (Qsum_constant 0).
  - unfold Qdiv. rewrite Qmult_0_r. apply Qmult_0_l.
  - rewrite <- fmap_cons. apply Forall_fmap. eapply Forall_impl; [exact Hzero|].
    by intros ? ->.
Qed.

(** X15: a window without a single fraud raises both alerts.  If the
    library computes the textbook precision and recall, then on a non-empty
    window of 0/1 predictions whose actual labels are all 0,
    [calculate_performance_metrics] records precision 0, recall 0 and fraud
    rate 0, and [check_for_alerts] with any positive thresholds returns the
    HIGH low-precision alert followed by the CRITICAL low-recall alert. *)
Theorem quiet_window_raises_alerts `{SkLearn} (predictions actuals : list Z)
    (now now_p now_r : string) (minp minr : Q) (self : t) :
  textbook_metrics →
  actuals ≠ [] →
  length actuals = length predictions →
  Forall (λ y, y = 0%Z) actuals →
  binary predictions →
  (0 < minp)%Q → (0 < minr)%Q →
  ∃ self' m,
    calculate_performance_metrics predictions actuals now self = (self', Ok m)
    ∧ precision m = 0%Q ∧ recall m = 0%Q ∧ fraud_rate m = Some 0%Q
    ∧ performance_log self' = performance_log self ++ [m]
    ∧ (check_for_alerts m minp minr now_p now_r self').2
      = [mkAlert HIGH LOW_PRECISION 0 now_p; mkAlert CRITICAL LOW_RECALL 0 now_r].
Proof.
  intros Hlib Hne Hlen Hzero Hpred Hminp Hminr.
  destruct (Hlib actuals predictions) as (Hp & Hr & f & Hf); [done..| |done|].
  { eapply Forall_impl; [exact Hzero|]. intros y ->. by left. }
  destruct (no_fraud_counts actuals predictions Hzero) as [Htp Hfn].
  unfold binary_precision in Hp. unfold binary_recall in Hr.
  rewrite Htp, ratio_zero in Hp. rewrite Htp, ratio_zero in Hr.
  unfold calculate_performance_metrics. rewrite Hp, Hr, Hf.
  eexists _, _. split; [done|]. simpl. split; [done|]. split; [done|].
  split; [by apply np_mean_zeros|]. split; [done|].
  unfold check_for_alerts. simpl.
  rewrite (proj2 (Qltb_lt 0 minp) Hminp), (proj2 (Qltb_lt 0 minr) Hminr). done.
Qed.

Lemma textbook_is_textbook : @textbook_metrics Textbook.sklearn.
Proof. intros y_true y_pred _ _ _ _. split; [done|]. split; [done|]. by eexists. Qed.

Lemma quiet_window_raises_alerts_witness :
  ∃ self' m,
    @calculate_performance_metrics Textbook.sklearn [0; 1; 0]%Z [0; 0; 0]%Z "t0"
      (init Sample.baseline no_files) = (self', Ok m)
    ∧ (check_for_alerts m (2 # 10) (7 # 10) "t1" "t2" self').2
      = [mkAlert HIGH LOW_PRECISION 0 "t1"; mkAlert CRITICAL LOW_RECALL 0 "t2"].
Proof.
  destruct (quiet_window_raises_alerts (H := Textbook.sklearn) [0; 1; 0]%Z [0; 0; 0]%Z
              "t0" "t1" "t2" (2 # 10) (7 # 10) (init Sample.baseline no_files))
    as (self' & m & Hcalc & _ & _ & _ & _ & Halerts).
  - exact textbook_is_textbook.
  - done.
  - done.
  - by repeat constructor.
  - repeat constructor; by (left + right).
  - done.
  - done.
  - by exists self', m.
Defined.
End quiet_window.
Section drift_report.
Import MonitorLog.

Lemma detect_all_log `{SciPy} (runs : list drift_run) (self : t) :
  let res := detect_all runs self in
  FraudMonitor.baseline_data (monitor res.1) = FraudMonitor.baseline_data (monitor self)
  ∧ FraudMonitor.drift_log (monitor res.1) = FraudMonitor.drift_log (monitor self) ++ res.2
  ∧ res.2 = fresh_result (FraudMonitor.baseline_data (monitor self)) <$> runs
  ∧ predictions_log res.1 = predictions_log self
  ∧ performance_log res.1 = performance_log self.
Proof.
  cbv zeta. revert self. induction runs as [|r runs IH]; intros self; simpl.
  { by rewrite app_nil_r. }
  unfold detect_data_drift, FraudMonitor.detect_data_drift. cbv zeta.
  set (res := foldl _ _ _).
  set (s1 := mk _ _ _ _ _ _). specialize (IH s1).
  destruct (detect_all runs s1) as [s2 more]. simpl in *.
  destruct IH as (-> & -> & -> & -> & ->). rewrite <- app_assoc. done.
Qed.

Lemma length_last_n {A} n (xs : list A) : length (last_n n xs) = n `min` length xs.
Proof. unfold last_n. rewrite length_drop. lia. Qed.

(** X16: after any run of [detect_data_drift] calls on a new monitor,
    whatever the log directory holds, the baseline is unchanged, each result is what a monitor with an empty log
    returns on the same data, the report's [drift_detected_count] is the
    number of runs that detected drift, over the whole run, and its
    [drift_detections] are the last five results (all of them when there
    are fewer). *)
Theorem drift_runs_reported `{SciPy} (baseline : DataFrame) (disk : files)
    (runs : list drift_run) (now : string) :
  let res := detect_all runs (init baseline disk) in
  let report := (generate_monitoring_report now res.1).2 in
  FraudMonitor.baseline_data (monitor res.1) = baseline
  ∧ res.2 = fresh_result baseline <$> runs
  ∧ drift_detected_count report
    = length (filter (λ r, FraudMonitor.drift_detected (fresh_result baseline r) = true) runs)
  ∧ drift_detections report = last_n 5 res.2
  ∧ length (drift_detections report) = 5 `min` length runs.
Proof.
  cbv zeta. pose proof (detect_all_log runs (init baseline disk)) as Hlog. cbv zeta in Hlog.
  destruct (detect_all runs (init baseline disk)) as [m results].
  unfold generate_monitoring_report.
  cbn [fst snd drift_detected_count drift_detections] in *.
  destruct Hlog as (Hbase & Hdl & Hres & _ & _). simpl in Hbase, Hdl, Hres.
  split; [done|]. split; [done|]. rewrite Hdl. split; [|split].
  - rewrite Hres. clear. induction runs as [|r runs IH]; [done|].
    rewrite fmap_cons, !filter_cons. simpl.
    destruct (decide (FraudMonitor.drift_detected (fresh_result baseline r) = true));
      simpl; by rewrite IH.
  - by destruct results.
  - rewrite <- (length_fmap (fresh_result baseline) runs), <- Hres.
    destruct results; [done | apply length_last_n].
Qed.
End drift_report.
Section drift_threshold.
Import FraudMonitor.

Lemma flagged_threshold_mono `{SciPy} baseline new_data t1 t2 col e :
  (t1 <= t2)%Q →
  flagged baseline new_data t1 col = Some e → flagged baseline new_data t2 col = Some e.
Proof.
  intros Hle (stat & p & (b & n & Hb & Hn & Hlb & Hln & Hks & Hp) & ->)%flagged_Some.
  apply flagged_Some. exists stat, p. split; [|done].
  exists b, n. repeat split; try done. lra.
Qed.

(** X17: raising the threshold can only add drift: for thresholds
    [t1 <= t2] the entries reported at [t1] are, in order, among those
    reported at [t2] on the same data, and drift detected at [t1] is
    detected at [t2]. *)
Theorem drift_threshold_monotone `{SciPy} (self : t) (new_data : DataFrame)
    (t1 t2 : Q) (now1 now2 : string) :
  (t1 <= t2)%Q →
  let r1 := (detect_data_drift self new_data t1 now1).2 in
  let r2 := (detect_data_drift self new_data t2 now2).2 in
  features_with_drift r1 `sublist_of` features_with_drift r2
  ∧ (drift_detected r1 = true → drift_detected r2 = true).
Proof.
  intros Hle. cbv zeta.
  assert (features_with_drift (detect_data_drift self new_data t1 now1).2
          `sublist_of` features_with_drift (detect_data_drift self new_data t2 now2).2)
    as Hsub.
  { rewrite !detect_features.
    induction (common_cols (baseline_data self) new_data) as [|col cols IH]; [done|].
    simpl. destruct (flagged (baseline_data self) new_data t1 col) as [e|] eqn:E1.
    - rewrite (flagged_threshold_mono _ _ _ _ _ _ Hle E1). by apply sublist_skip.
    - destruct (flagged (baseline_data self) new_data t2 col); [by apply sublist_cons | done]. }
  split; [done|]. rewrite !detect_flag. intros Hne Hnil. apply Hne.
  rewrite Hnil in Hsub. by apply sublist_nil_r in Hsub.
Qed.

Lemma drift_threshold_monotone_witness :
  features_with_drift
    (@detect_data_drift Sample.scipy (mk Sample.baseline []) Sample.shifted (5 # 100) "t").2
  `sublist_of`
  features_with_drift
    (@detect_data_drift Sample.scipy (mk Sample.baseline []) Sample.shifted (1 # 2) "t").2.
Proof.
  apply (drift_threshold_monotone (H := Sample.scipy) (mk Sample.baseline []) Sample.shifted
           (5 # 100) (1 # 2) "t" "t").
  done.
Defined.
End drift_threshold.
Section trainer.
Import ModelTrainer.
Context {Model : Type} (fit_and_score : Model → result (Model * metrics)).

Lemma keys_dict_set {V} (d : list (string * V)) k v k' :
  k' ∈ (dict_set d k v).*1 ↔ k' = k ∨ k' ∈ d.*1.
Proof.
  induction d as [|[k0 v0] d IH]; simpl.
  - rewrite list_elem_of_singleton. split; [by left | intros [?|?%elem_of_nil]; done].
  - destruct (decide (k0 = k)) as [->|Hne]; simpl; rewrite !elem_of_cons.
    + tauto.
    + rewrite IH. tauto.
Qed.

Lemma dict_get_is_Some {V} (d : list (string * V)) k : is_Some (dict_get d k) ↔ k ∈ d.*1.
Proof.
  induction d as [|[k0 v0] d IH]; simpl.
  - split; [by intros [] | by intros ?%elem_of_nil].
  - destruct (decide (k0 = k)) as [->|Hne].
    + split; [intros _; by left | by eexists].
    + rewrite IH, elem_of_cons. split; [by right | intros [?|?]; [congruence | done]].
Qed.

Lemma max_from_spec (key : string → Q) best keys :
  max_from key best keys ∈ best :: keys
  ∧ ∀ k, k ∈ best :: keys → (key k <= key (max_from key best keys))%Q.
Proof.
  revert best. induction keys as [|k keys IH]; intros best; simpl.
  - split; [by left|]. intros k [->|?%elem_of_nil]%elem_of_cons; [lra | done].
  - destruct (IH (if Qltb (key best) (key k) then k else best)) as [Hin Hmax].
    destruct (Qltb (key best) (key k)) eqn:Hlt.
    + apply Qltb_lt in Hlt. split.
      * apply elem_of_cons in Hin as [->|?]; [right; by left | by do 2 right].
      * intros k' [->|[->|?]%elem_of_cons]%elem_of_cons.
        -- specialize (Hmax k ltac:(by left)). lra.
        -- apply Hmax. by left.
        -- apply Hmax. by right.
    + apply Qltb_ge in Hlt. split.
      * apply elem_of_cons in Hin as [->|?]; [by left | by do 2 right].
      * intros k' [->|[->|?]%elem_of_cons]%elem_of_cons.
        -- apply Hmax. by left.
        -- specialize (Hmax best ltac:(by left)). lra.
        -- apply Hmax. by right.
Qed.

Lemma max_from_first (key : string → Q) best keys :
  ∃ before after,
    best :: keys = before ++ max_from key best keys :: after
    ∧ ∀ k, k ∈ before → (key k < key (max_from key best keys))%Q.
Proof.
  revert best. induction keys as [|k keys IH]; intros best; simpl.
  { exists [], []. split; [done|]. by intros k ?%elem_of_nil. }
  destruct (Qltb (key best) (key k)) eqn:Hlt.
  - apply Qltb_lt in Hlt. destruct (IH k) as (before & after & Heq & Hlow).
    exists (best :: before), after. split; [by rewrite Heq|].
    intros k' [->|?]%elem_of_cons; [|by apply Hlow].
    destruct (max_from_spec key k keys) as [_ Hmax].
    specialize (Hmax k ltac:(by left)). lra.
  - apply Qltb_ge in Hlt. destruct (IH best) as (before & after & Heq & Hlow).
    destruct before as [|b before]; simpl in Heq.
    + assert (best = max_from key best keys) as Hb by congruence.
      assert (keys = after) as Hkeys by congruence.
      exists [], (k :: after). split; [simpl; congruence|]. by intros k' ?%elem_of_nil.
    + assert (best = b) as Hb by congruence.
      assert (keys = before ++ max_from key best keys :: after) as Hkeys by congruence.
      exists (best :: k :: before), after. split; [simpl; congruence|].
      rewrite <- Hb in Hlow.
      intros k' [->|[->|?]%elem_of_cons]%elem_of_cons.
      * apply Hlow. by left.
      * specialize (Hlow best ltac:(by left)). lra.
      * apply Hlow. by right.
Qed.

Lemma py_max_spec (key : string → Q) keys best :
  py_max key keys = Ok best →
  best ∈ keys
  ∧ (∀ k, k ∈ keys → (key k <= key best)%Q)
  ∧ ∃ before after, keys = before ++ best :: after
                    ∧ ∀ k, k ∈ before → (key k < key best)%Q.
Proof.
  unfold py_max. destruct keys as [|k keys]; [done|]. intros [= <-].
  destruct (max_from_spec key k keys) as [Hin Hmax]. split; [done|]. split; [done|].
  apply max_from_first.
Qed.

Lemma train_model_keys model name (self self' : t) r :
  train_model fit_and_score model name self = (self', r) →
  (∀ k, k ∈ (model_results self).*1 → k ∈ (trained_models self).*1) →
  (∀ k, k ∈ (model_results self').*1 → k ∈ (trained_models self').*1)
  ∧ (∀ k, k ∈ (model_results self).*1 → k ∈ (model_results self').*1)
  ∧ ((∃ m, r = Ok m) → name ∈ (model_results self').*1).
Proof.
  unfold train_model. destruct (fit_and_score model) as [[fitted m]|e].
  - intros [= <- <-] Hinv. simpl. split; [|split].
    + intros k. rewrite !keys_dict_set. intros [?|?]; [by left | right; by apply Hinv].
    + intros k ?. apply keys_dict_set. by right.
    + intros _. apply keys_dict_set. by left.
  - intros [= <- <-] Hinv. split; [done|]. split; [done|]. by intros [? ?].
Qed.

Lemma train_optional_keys model name (self self' : t) r :
  train_optional fit_and_score model name self = (self', r) →
  (∀ k, k ∈ (model_results self).*1 → k ∈ (trained_models self).*1) →
  (∀ k, k ∈ (model_results self').*1 → k ∈ (trained_models self').*1)
  ∧ (∀ k, k ∈ (model_results self).*1 → k ∈ (model_results self').*1).
Proof.
  unfold train_optional. destruct model as [m|]; [|by intros [= <- <-]].
  destruct (train_model fit_and_score m name self) as [s1 r1] eqn:E.
  intros Hr Hinv. destruct (train_model_keys _ _ _ _ _ E Hinv) as (H1 & H2 & _).
  by destruct r1; injection Hr as <- <-.
Qed.

(** X18: on a trainer whose results all have a trained model, when
    [train_all_models] returns a name, that name has a result whose F2
    score no other stored result exceeds, results of earlier runs included;
    it is the first such name in insertion order; [save_best_model]
    accepts it; and the logistic regression and the random forest are among
    the results. *)
Theorem best_model_is_saved (lr rf : Model) (xgb lgb : option Model) (self self' : t)
    (best : string) :
  (∀ k, k ∈ (model_results self).*1 → k ∈ (trained_models self).*1) →
  train_all_models fit_and_score lr rf xgb lgb self = (self', Ok best) →
  best ∈ (model_results self').*1
  ∧ (∀ name, name ∈ (model_results self').*1 → (f2_of self' name <= f2_of self' best)%Q)
  ∧ (∃ before after,
       (model_results self').*1 = before ++ best :: after
       ∧ ∀ name, name ∈ before → (f2_of self' name < f2_of self' best)%Q)
  ∧ (∃ model, save_best_model best self' = Ok model)
  ∧ "Logistic_Regression" ∈ (model_results self').*1
  ∧ "Random_Forest" ∈ (model_results self').*1
  ∧ (∀ k, k ∈ (model_results self).*1 → k ∈ (model_results self').*1).
Proof.
  intros Hinv. unfold train_all_models.
  destruct (train_model fit_and_score lr _ self) as [s1 [m1|e]] eqn:E1; [|done].
  destruct (train_model_keys _ _ _ _ _ E1 Hinv) as (Hinv1 & Hkeep1 & Hlr).
  destruct (train_model fit_and_score rf _ s1) as [s2 [m2|e]] eqn:E2; [|done].
  destruct (train_model_keys _ _ _ _ _ E2 Hinv1) as (Hinv2 & Hkeep2 & Hrf).
  destruct (train_optional fit_and_score xgb _ s2) as [s3 [[]|e]] eqn:E3; [|done].
  destruct (train_optional_keys _ _ _ _ _ E3 Hinv2) as (Hinv3 & Hkeep3).
  destruct (train_optional fit_and_score lgb _ s3) as [s4 [[]|e]] eqn:E4; [|done].
  destruct (train_optional_keys _ _ _ _ _ E4 Hinv3) as (Hinv4 & Hkeep4).
  intros [= <- (Hin & Hmax & Hfirst)%py_max_spec].
  split; [done|]. split; [done|]. split; [done|]. split; [|split; [|split]].
  - unfold save_best_model. rewrite decide_True by by apply Hinv4.
    destruct (proj2 (dict_get_is_Some (trained_models s4) best)) as [model ->];
      [by apply Hinv4 | by eexists].
  - apply Hkeep4, Hkeep3, Hkeep2, Hlr. by eexists.
  - apply Hkeep4, Hkeep3, Hrf. by eexists.
  - intros k' Hk'. by apply Hkeep4, Hkeep3, Hkeep2, Hkeep1.
Qed.
End trainer.

Section trainer_witness.
Import ModelTrainer.

Lemma best_model_is_saved_witness :
  ∃ self',
    train_all_models Toy.fit_and_score 3%Z 9%Z None (Some 9%Z) init
      = (self', Ok "Random_Forest")
    ∧ save_best_model "Random_Forest" self' = Ok 9%Z.
Proof.
  destruct (train_all_models Toy.fit_and_score 3%Z 9%Z None (Some 9%Z) init)
    as [self' r] eqn:Hrun.
  assert (r = Ok "Random_Forest") as -> by (vm_compute in Hrun; by injection Hrun as _ <-).
  exists self'. split; [done|].
  destruct (best_model_is_saved Toy.fit_and_score 3%Z 9%Z None (Some 9%Z) init self'
              "Random_Forest") as (_ & _ & _ & [model Hsave] & _); [|exact Hrun|].
  - by intros k ?%elem_of_nil.
  - rewrite Hsave. vm_compute in Hrun. injection Hrun as <-.
    vm_compute in Hsave. by injection Hsave as <-.
Defined.
End trainer_witness.
(** ** The endpoints *)

Section endpoint.
Import Endpoint.





(** X20: with a model loaded, [predict_batch] always replies: [total]
    and the number of entries are the number of transactions, and the
    [i]-th entry is the reply or the error of [predict_fraud] on the [i]-th
    transaction.  It does so even without a preprocessor, where every entry
    is the 503 error that [predict_fraud] raises. *)
Theorem predict_batch_never_fails `{NumPy} `{Pandas} (model : Model)
    (preprocessor : option Api.Preprocessor) (transactions : list Api.Transaction)
    (clock : nat → Timestamp * string) (now_iso : string) :
  ∃ resp,
    predict_batch (Some model) preprocessor transactions clock now_iso = Reply resp
    ∧ total resp = length transactions
    ∧ length (predictions resp) = length transactions
    ∧ (∀ i t, transactions !! i = Some t →
         predictions resp !! i
         = Some match predict_fraud (Some model) preprocessor t (clock i).1 (clock i).2 with
                | Reply result => inl result
                | HTTPException status d => inr (status, d)
                end)
    ∧ (preprocessor = None →
       Forall (λ e, e = inr (503%Z, ModelNotAvailable)) (predictions resp)
       ∧ ∀ t now iso,
           predict_fraud (Some model) None t now iso = HTTPException 503 ModelNotAvailable).
Proof.
  eexists. split; [done|]. simpl. split; [done|]. split; [by rewrite length_imap|].
  split.
  - intros i t Ht. by rewrite list_lookup_imap, Ht.
  - intros ->. split; [|done]. apply Forall_forall. intros e Hin.
    apply list_elem_of_lookup in Hin as [i Hi].
    rewrite list_lookup_imap in Hi. destruct (transactions !! i); [|done].
    by injection Hi as <-.
Qed.
End endpoint.
(** ** The training script's check of the raw data *)

Section raw_data.

(** X21: the check of the training script does not cover what feature
    engineering reads: a loaded data set that has the four required columns
    with a numeric [amount], but no [avg_transaction_amount_30d], is kept
    (the synthetic data are not used) and [FeatureEngineer.fit_transform]
    fails on it with a [KeyError] naming the missing column. *)
Theorem validated_data_can_fail_engineering `{NumPy} `{Pandas}
    (raw synthetic : DataFrame) (xs : list cell) :
  Forall (λ c, c ∈ columns raw) TrainPipeline.required_cols →
  df_lookup raw "amount" = Some (NumCol xs) →
  "avg_transaction_amount_30d" ∉ columns raw →
  TrainPipeline.raw_data (Ok raw) synthetic = raw
  ∧ FeatureEngineer.fit_transform (TrainPipeline.raw_data (Ok raw) synthetic)
    = Err (KeyError "avg_transaction_amount_30d").
Proof.
  intros Hreq Hamount Havg.
  assert (TrainPipeline.raw_data (Ok raw) synthetic = raw) as ->.
  { unfold TrainPipeline.raw_data.
    assert (filter (λ col, col ∉ columns raw) TrainPipeline.required_cols = []) as ->; [|done].
    induction Hreq as [|c cols Hc _ IH]; [done|].
    rewrite filter_cons_False; [done | by intros ?]. }
  split; [done|]. unfold FeatureEngineer.fit_transform.
  by rewrite (create_amount_features_no_avg raw xs).
Qed.

Lemma validated_data_can_fail_engineering_witness :
  TrainPipeline.raw_data (Ok Fixture.required_only) Fixture.raw_batch = Fixture.required_only
  ∧ @FeatureEngineer.fit_transform Sample.numpy Sample.pandas
      (TrainPipeline.raw_data (Ok Fixture.required_only) Fixture.raw_batch)
    = Err (KeyError "avg_transaction_amount_30d").
Proof.
  apply (validated_data_can_fail_engineering (H := Sample.numpy) (H0 := Sample.pandas)
           Fixture.required_only Fixture.raw_batch [Some 12%Q; Some 7%Q]).
  - by_compute.
  - reflexivity.
  - by_compute.
Defined.
End raw_data.

(** ** Saving and loading the preprocessor *)

Section pickle.
Import DataPreprocessor.
#[local] Arguments StandardScaler.transform : simpl never.

Lemma encode_column_apply_same `{Pandas} col df s1 s2 :
  label_encoders s1 = label_encoders s2 →
  (encode_column false df col s1).2 = (encode_column false df col s2).2.
Proof.
  intros Hle. unfold encode_column. case_decide; [|done].
  unfold mbind, M_bind, get, lift. rewrite Hle.
  destruct (label_encoders s2 !! col) as [classes|]; [|done].
  destruct (df_getitem df col) as [s|]; [|done]. simpl.
  by destruct (apply_encoder classes s).
Qed.

Lemma encode_columns_apply_same `{Pandas} cols df s1 s2 :
  label_encoders s1 = label_encoders s2 →
  (encode_columns false df cols s1).2 = (encode_columns false df cols s2).2.
Proof.
  intros Hle. revert df. induction cols as [|col cols IH]; intros df; [done|].
  simpl. unfold mbind at 1 2, M_bind.
  pose proof (encode_column_apply_same col df s1 s2 Hle) as Hstep.
  destruct (encode_column_apply_lookup df col s1) as (d1 & E1 & _).
  destruct (encode_column_apply_lookup df col s2) as (d2 & E2 & _).
  rewrite E1, E2 in *. injection Hstep as <-. apply IH.
Qed.

Lemma transform_run `{NumPy} `{Pandas} (df : DataFrame) (self : t) :
  ∃ y dff enc,
    separate_target df self = (self, Ok (y, dff))
    ∧ encode_columns false (df_drop dff (features_to_drop self)) (categorical_features self)
        self = (self, Ok enc)
    ∧ transform df self
      = (self,
         match scaler self with
         | Some sc =>
             X ← select_numeric enc (numeric_features self);
             X' ← StandardScaler.transform sc X;
             Ok (assign_columns enc (numeric_features self) X', y)
         | None => Ok (enc, y)
         end).
Proof.
  destruct (separate_target_total df self) as ([y dff] & Hsep & _).
  destruct (encode_columns_apply (categorical_features self)
              (df_drop dff (features_to_drop self)) self) as [enc Henc].
  exists y, dff, enc. split; [done|]. split; [done|]. unfold transform.
  rewrite (bind_run (separate_target df) _ self _ _ Hsep).
  rewrite (bind_run get _ self self self eq_refl).
  rewrite (bind_run (encode_categorical_features _ false) _ self self enc).
  2:{ unfold encode_categorical_features. by rewrite (bind_run get _ self self self eq_refl). }
  unfold scale_numeric_features, mbind, M_bind, result_bind, get, lift, mret, M_ret.
  destruct (scaler self) as [sc|]; [|done].
  destruct (select_numeric enc (numeric_features self)) as [X|e]; [|done].
  by destruct (StandardScaler.transform sc X).
Qed.

(** X22: [load_preprocessor] after [save_preprocessor] restores every
    field but the target column, which stays that of the loading object: the
    loaded object equals the saved one exactly when the two target columns
    agree.  When the loading object's target is not a column of the frame
    (and the saved target is among the dropped columns), [transform] returns
    the same matrix or error as the saved object, with no labels. *)
Theorem load_restores_all_but_target `{NumPy} `{Pandas} (self other : t) (df : DataFrame) :
  let loaded := Pickle.load_preprocessor (Pickle.save_preprocessor self) other in
  (loaded = self ↔ target_col other = target_col self)
  ∧ (target_col other ∉ columns df →
     (target_col self ∈ columns df → target_col self ∈ features_to_drop self) →
     ∃ r, transform df self = (self, r)
          ∧ transform df loaded = (loaded, r ≫= λ Xy, Ok (Xy.1, None))).
Proof.
  cbv zeta. split.
  - unfold Pickle.load_preprocessor, Pickle.save_preprocessor. simpl. split.
    + by intros <-.
    + intros ->. by destruct self.
  - intros Habsent Hdropped.
    set (loaded := Pickle.load_preprocessor _ _).
    destruct (transform_run df self) as (y & dff & enc & Hsep & Henc & ->).
    destruct (transform_run df loaded) as (y' & dff' & enc' & Hsep' & Henc' & ->).
    eexists. split; [done|]. f_equal.
    assert (y' = None ∧ dff' = df) as [-> ->].
    { revert Hsep'. unfold separate_target, mbind, M_bind, get.
      rewrite decide_False by done. by intros [= <- <-]. }
    assert (enc' = enc) as ->.
    { change (features_to_drop loaded) with (features_to_drop self) in Henc'.
      change (categorical_features loaded) with (categorical_features self) in Henc'.
      rewrite <- (separate_then_drop df self y dff Hsep Hdropped) in Henc'.
      pose proof (encode_columns_apply_same (categorical_features self)
                    (df_drop dff (features_to_drop self)) loaded self eq_refl) as Hsame.
      rewrite Henc, Henc' in Hsame. by injection Hsame. }
    change (scaler loaded) with (scaler self).
    change (numeric_features loaded) with (numeric_features self).
    unfold mbind, result_bind.
    destruct (scaler self) as [sc|]; [|done].
    destruct (select_numeric enc (numeric_features self)) as [X|e]; [|done].
    by destruct (StandardScaler.transform sc X).
Qed.

Lemma load_restores_all_but_target_witness :
  let self := (@fit_transform Sample.numpy Sample.pandas Sample.batch (init "is_fraud")).1 in
  let loaded := Pickle.load_preprocessor (Pickle.save_preprocessor self) (init "label") in
  ∃ r, @transform Sample.numpy Sample.pandas Sample.batch self = (self, r)
       ∧ @transform Sample.numpy Sample.pandas Sample.batch loaded
         = (loaded, r ≫= λ Xy, Ok (Xy.1, None)).
Proof.
  cbv zeta.
  apply (load_restores_all_but_target (H := Sample.numpy) (H0 := Sample.pandas)
           (@fit_transform Sample.numpy Sample.pandas Sample.batch (init "is_fraud")).1
           (init "label") Sample.batch).
  - by_compute.
  - intros _. by_compute.
Defined.
End pickle.
(** ** The cells of a request *)

Section request_cells.

Lemma avg_eps_nonzero (avg : Q) :
  (0 <= avg)%Q → Qeq_bool (Qred (avg + (1 # 100000))) 0 = false.
Proof.
  intros Havg. apply not_true_iff_false. intros Hz%Qeq_bool_iff.
  rewrite Qred_correct in Hz. lra.
Qed.

(** X23: for a request within the bounds of the pydantic model whose
    numbers stay finite in binary64, the served feature engineering
    succeeds and every numeric model column holds a number, [amount_log]
    apart, which holds what [np.log1p] returns on the amount; the divisor
    of [amount_to_avg_ratio] is not zero. *)
Theorem valid_request_has_numbers `{NumPy} (t : Api.Transaction) (now : Timestamp) :
  Api.valid t → in_range t →
  ∃ data,
    Api.engineer_features t now = Ok data
    ∧ (∀ c, c ∈ numeric_columns → c ≠ "amount_log" →
         ∃ q, df_lookup data c = Some (NumCol [Some q]))
    ∧ df_lookup data "amount_log" = Some (NumCol [np_log1p (Api.amount t)]).
Proof.
  intros (_ & _ & _ & _ & _ & _ & Havg & _) _.
  pose proof (avg_eps_nonzero _ Havg) as Hnz.
  eexists. split; [|split].
  - unfold Api.engineer_features, Api.risk_score. simpl.
    unfold df_drop_strict. rewrite decide_True by by_compute.
    df_drop_compute. reflexivity.
  - intros c Hc Hlog. unfold numeric_columns in Hc.
    repeat (apply elem_of_cons in Hc as [->|Hc];
            [first [done | simpl; rewrite ?Hnz; unfold of_bool, of_Z; simpl; by eexists]|]).
    by apply elem_of_nil in Hc.
  - reflexivity.
Qed.

Lemma valid_request_has_numbers_witness :
  ∃ data,
    @Api.engineer_features Sample.numpy Sample.transaction Sample.night = Ok data
    ∧ ∃ q, df_lookup data "amount_to_avg_ratio" = Some (NumCol [Some q]).
Proof.
  destruct (valid_request_has_numbers (H := Sample.numpy) Sample.transaction Sample.night)
    as (data & Hdata & Hnum & _).
  - unfold Api.valid. simpl. repeat split; first [lia | by apply Qle_bool_iff].
  - unfold in_range. simpl. repeat split; first [lia | by apply Qle_bool_iff].
  - exists data. split; [done|]. apply Hnum; [|done]. by_compute.
Defined.
End request_cells.
(** ** What the extractor returns *)

Section extractor.
Import DataExtractor.

Lemma validate_data_rows df n :
  validate_data df n = true ↔ columns df ≠ [] ∧ 0 < nrows df ∧ n ≤ nrows df.
Proof.
  unfold validate_data, empty. destruct df as [|[c s] df]; [by split; [|intros [? _]]|].
  destruct (Nat.eqb_spec (nrows ((c, s) :: df)) 0) as [Hz|Hnz].
  - split; [done | lia].
  - destruct (Nat.ltb_spec (nrows ((c, s) :: df)) n); split; try done; try lia.
    intros _. split; [done | lia].
Qed.

(** X24: whatever [extract_from_source] returns has at least 50 rows and
    at least one column, and is the Airtable answer, the local file or the
    synthetic data; it raises [RuntimeError] only when the synthetic data
    fail the validation; and when Airtable is switched off, not configured
    or the key is a placeholder, the result does not depend on what Airtable
    would answer. *)
Theorem extracted_data_is_validated (self : t) (source_path : option string)
    (use_airtable : option bool) (w : sources) :
  (∀ df, extract_from_source self source_path use_airtable w = Returned df →
         50 ≤ nrows df ∧ columns df ≠ []
         ∧ (airtable w = Ok df ∨ local_file w = Some (Ok df) ∨ synthetic w = df))
  ∧ (extract_from_source self source_path use_airtable w = RuntimeError →
     validate_data (synthetic w) 50 = false)
  ∧ (use_airtable = Some false ∨ base_id self = None ∨ authenticate (api_key self) = false →
     ∀ answer,
       extract_from_source self source_path use_airtable w
       = extract_from_source self source_path use_airtable
           (mkSources answer (local_file w) (synthetic w))).
Proof.
  unfold extract_from_source. split; [|split].
  - intros df.
    destruct (from_airtable self use_airtable w) as [d|] eqn:Ha.
    { intros [= ->]. revert Ha. unfold from_airtable.
      destruct (_ && _); [|done]. destruct (authenticate _); [|done].
      destruct (airtable w) as [d|]; [|done].
      destruct (validate_data d 50) eqn:Hv; [|done]. intros [= ->].
      apply validate_data_rows in Hv as (? & ? & ?). auto. }
    destruct (from_local_file source_path w) as [d|] eqn:Hl.
    { intros [= ->]. revert Hl. unfold from_local_file.
      destruct (truthy source_path); [|done].
      destruct (local_file w) as [[d|]|]; try done.
      destruct (validate_data d 50) eqn:Hv; [|done]. intros [= ->].
      apply validate_data_rows in Hv as (? & ? & ?). auto. }
    destruct (validate_data (synthetic w) 50) eqn:Hv; [|done]. intros [= <-].
    apply validate_data_rows in Hv as (? & ? & ?). auto.
  - destruct (from_airtable self use_airtable w); [done|].
    destruct (from_local_file source_path w); [done|].
    by destruct (validate_data (synthetic w) 50).
  - intros Hoff answer.
    assert (∀ a, from_airtable self use_airtable (mkSources a (local_file w) (synthetic w))
                 = None) as Hnone.
    { intros a. unfold from_airtable. destruct Hoff as [-> | [-> | ->]].
      - done.
      - simpl. by rewrite andb_false_r.
      - by destruct (_ && _). }
    pose proof (Hnone (airtable w)) as Hw. destruct w as [a l s]. simpl in *.
    by rewrite Hw, (Hnone answer).
Qed.
End extractor.
(** ** Codes do not collide *)

Section collisions.
Import LabelEncoder.

Lemma searchsorted_class classes x :
  StronglySorted str_lt classes → x ∈ classes →
  ∃ k, classes !! k = Some x ∧ searchsorted classes x = Z.of_nat k.
Proof.
  intros Hs [k Hk]%list_elem_of_lookup. exists k. split; [done|].
  by apply searchsorted_lookup.
Qed.

(** X25: fitting an encoder on the printed cells of a column, whatever
    [astype(str)] printed, gives two cells the same code exactly when they
    print as the same string; each code is an index into the classes and
    the class at that index is the printed cell. *)
Theorem fitted_codes_do_not_collide (printed : list string) (i j : nat) (ci cj : Z) :
  let classes := (fit_transform printed).1 in
  let codes := (fit_transform printed).2 in
  codes !! i = Some ci → codes !! j = Some cj →
  (ci = cj ↔ printed !! i = printed !! j)
  ∧ (0 ≤ ci < Z.of_nat (length classes))%Z
  ∧ classes !! Z.to_nat ci = printed !! i.
Proof.
  simpl. rewrite !list_lookup_fmap.
  destruct (printed !! i) as [x|] eqn:Hx; [|done].
  destruct (printed !! j) as [y|] eqn:Hy; [|done].
  simpl. intros [= <-] [= <-].
  pose proof (np_unique_sorted printed) as Hsorted.
  destruct (searchsorted_class (np_unique printed) x Hsorted) as (kx & Hkx & ->).
  { apply elem_of_np_unique. by eapply list_elem_of_lookup_2. }
  destruct (searchsorted_class (np_unique printed) y Hsorted) as (ky & Hky & ->).
  { apply elem_of_np_unique. by eapply list_elem_of_lookup_2. }
  assert (Z.of_nat kx = Z.of_nat ky ↔ Some x = Some y) as Hiff.
  { split; [intros ->%Nat2Z.inj; congruence|]. intros [= ->]. f_equal.
    eapply NoDup_lookup; [by apply sorted_NoDup | done..]. }
  split; [done|]. split.
  - apply lookup_lt_Some in Hkx. lia.
  - by rewrite Nat2Z.id.
Qed.

Lemma fitted_codes_do_not_collide_witness :
  let printed := ["gas"; "None"; "nan"; "gas"] in
  (fit_transform printed).2 = [1; 0; 2; 1]%Z
  ∧ (fit_transform printed).1 !! 0 = Some "None"
  ∧ (fit_transform printed).1 !! 2 = Some "nan".
Proof.
  cbv zeta. split; [reflexivity|].
  destruct (fitted_codes_do_not_collide ["gas"; "None"; "nan"; "gas"] 1 2 0%Z 2%Z)
    as (_ & _ & Hnone); [reflexivity..|].
  destruct (fitted_codes_do_not_collide ["gas"; "None"; "nan"; "gas"] 2 1 2%Z 0%Z)
    as (_ & _ & Hnan); [reflexivity..|].
  split; [exact Hnone | exact Hnan].
Defined.
End collisions.
(** ** The explorer's outlier scan *)

Section explorer.
Import DataExplorer.

Lemma elem_of_remove_first x l c :
  NoDup l → c ∈ remove_first x l ↔ c ∈ l ∧ c ≠ x.
Proof.
  induction l as [|y l IH]; simpl.
  { intros _. split; [by intros ?%elem_of_nil | by intros [?%elem_of_nil _]]. }
  rewrite NoDup_cons. intros [Hy Hnd]. destruct (decide (y = x)) as [->|Hne].
  - rewrite elem_of_cons. split; [|intros [[?|?] ?]; done].
    intros Hc. split; [by right|]. by intros ->.
  - rewrite !elem_of_cons, IH by done. split.
    + intros [->|[? ?]]; [split; [by left | done] | split; [by right | done]].
    + intros [[->|?] ?]; [by left | by right].
Qed.

Lemma elem_of_numeric_cols (frame : DataFrame) target c :
  NoDup (columns frame) →
  c ∈ numeric_cols (init frame target)
  ↔ c ≠ target ∧ ∃ xs, df_lookup frame c = Some (NumCol xs).
Proof.
  intros Hnd. unfold init. cbn [numeric_cols].
  set (P := λ p : string * Series, DataPreprocessor.is_number p.2 = true).
  assert (c ∈ columns (filter P frame) ↔ ∃ xs, df_lookup frame c = Some (NumCol xs))
    as Hnum.
  { rewrite elem_of_columns_filter by done. split.
    - intros (s & Hs & Hp). unfold P in Hp. simpl in Hp. destruct s; try done. by eexists.
    - intros [xs Hxs]. by exists (NumCol xs). }
  destruct (decide (target ∈ columns (filter P frame))) as [Hin|Hnin].
  - rewrite elem_of_remove_first by by apply columns_filter_NoDup.
    rewrite Hnum. tauto.
  - rewrite Hnum. split; [|tauto]. intros Hc. split; [|done]. intros ->.
    by apply Hnin, Hnum.
Qed.

Lemma detect_loop_known `{Stats} self method threshold cols outliers :
  method = "iqr" ∨ method = "zscore" →
  (∀ c, c ∈ cols → ∃ xs, df_lookup (df self) c = Some (NumCol xs)) →
  ∃ out, detect_loop self method threshold cols outliers = Ok out
         ∧ ∀ c, c ∈ out.*1 ↔ c ∈ outliers.*1 ∨ c ∈ cols.
Proof.
  intros Hmethod. revert outliers. induction cols as [|col cols IH]; intros outliers Hnum.
  { exists outliers. split; [done|]. intros c. split; [by left|].
    by intros [?|?%elem_of_nil]. }
  destruct (Hnum col ltac:(by left)) as [xs Hxs%df_getitem_Ok].
  simpl. rewrite Hxs.
  assert (∃ n, (if String.eqb method "iqr"
                then Ok xs ≫= λ xs, Ok (iqr_outliers threshold xs)
                else if String.eqb method "zscore"
                     then Ok xs ≫= λ xs, Ok (zscore_outliers threshold xs)
                     else Err ValueError) = Ok n) as [n Hn].
  { destruct Hmethod as [-> | ->]; by eexists. }
  simpl in Hn. simpl. rewrite Hn. simpl.
  destruct (IH (ModelTrainer.dict_set outliers col n)) as (out & -> & Hout).
  { intros c Hc. apply Hnum. by right. }
  exists out. split; [done|]. intros c. rewrite Hout, keys_dict_set, elem_of_cons. tauto.
Qed.

(** X26: on a frame with distinct column labels, [detect_outliers] with
    a method other than ['iqr'] and ['zscore'] raises [ValueError] exactly
    when the frame has a numeric column besides the target, and returns the
    empty dict otherwise; with one of the two methods it returns a count
    for exactly the numeric columns besides the target. *)
Theorem unknown_method_raises_on_numeric_features `{Stats}
    (frame : DataFrame) (target method : string) (threshold : Q) :
  NoDup (columns frame) →
  (method ≠ "iqr" → method ≠ "zscore" →
   (detect_outliers method threshold (init frame target) = Err ValueError
    ↔ ∃ c xs, c ≠ target ∧ df_lookup frame c = Some (NumCol xs))
   ∧ (detect_outliers method threshold (init frame target) = Ok []
      ↔ ¬ ∃ c xs, c ≠ target ∧ df_lookup frame c = Some (NumCol xs)))
  ∧ (method = "iqr" ∨ method = "zscore" →
     ∃ out, detect_outliers method threshold (init frame target) = Ok out
            ∧ ∀ c, c ∈ out.*1 ↔ c ≠ target ∧ ∃ xs, df_lookup frame c = Some (NumCol xs)).
Proof.
  intros Hnd. split.
  - intros Hiqr Hz. unfold detect_outliers.
    pose proof (elem_of_numeric_cols frame target) as Hcols.
    destruct (numeric_cols (init frame target)) as [|col cols].
    + assert (¬ ∃ c xs, c ≠ target ∧ df_lookup frame c = Some (NumCol xs)) as Hnone.
      { intros (c & xs & Hc & Hxs).
        assert (c ∈ []) as ?%elem_of_nil; [|done]. apply Hcols; [done|]. eauto. }
      simpl. split; split; try done; intros ?; by destruct Hnone.
    + assert (∃ c xs, c ≠ target ∧ df_lookup frame c = Some (NumCol xs)) as Hsome.
      { destruct (proj1 (Hcols col Hnd)) as (? & xs & ?); [by left|]. by exists col, xs. }
      simpl. rewrite (proj2 (String.eqb_neq _ _) Hiqr), (proj2 (String.eqb_neq _ _) Hz).
      simpl. split; split; try done; intros Hnone; by destruct Hnone.
  - intros Hmethod. unfold detect_outliers.
    destruct (detect_loop_known (init frame target) method threshold
                (numeric_cols (init frame target)) [] Hmethod) as (out & -> & Hout).
    { intros c Hc. by apply elem_of_numeric_cols in Hc as [_ ?]. }
    exists out. split; [done|]. intros c. rewrite Hout, elem_of_numeric_cols by done.
    split; [intros [?%elem_of_nil|?]; done | by right].
Qed.

Lemma unknown_method_raises_on_numeric_features_witness :
  @detect_outliers Quartiles.stats "mad" (3 # 2) (init Sample.batch "is_fraud")
    = Err ValueError
  ∧ @detect_outliers Quartiles.stats "mad" (3 # 2)
      (init [("is_fraud", NumCol [Some 1%Q])] "is_fraud") = Ok [].
Proof.
  split.
  - apply (unknown_method_raises_on_numeric_features (H := Quartiles.stats)
             Sample.batch "is_fraud" "mad" (3 # 2)); [by_compute | done | done |].
    by exists "amount", [Some 20; Some 50; Some 1500]%Q.
  - apply (unknown_method_raises_on_numeric_features (H := Quartiles.stats)
             [("is_fraud", NumCol [Some 1%Q])] "is_fraud" "mad" (3 # 2));
      [by_compute | done | done |].
    intros (c & xs & Hc & Hxs). simpl in Hxs. by case_decide.
Defined.
End explorer.
(** ** Raw columns survive feature engineering *)

Section raw_columns.
Import FeatureEngineer.

(** Peel the binds of a run that returned. *)
Ltac peel H :=
  repeat match type of H with
         | (match ?x with Ok _ => _ | Err _ => _ end) = Ok _ =>
             let E := fresh "E" in destruct x eqn:E; [|discriminate H]
         | (if ?b then _ else _) = Ok _ => destruct b
         end.

Ltac kept Hc :=
  rewrite !df_lookup_setitem_ne; [done|..]; intros <-; apply Hc; by_compute.

Ltac labels :=
  intros c; rewrite !columns_setitem, !elem_of_cons, elem_of_nil; tauto.

Lemma create_amount_features_keeps `{NumPy} df df' :
  create_amount_features df = Ok df' →
  (∀ c, c ∉ ["amount_log"; "amount_category"; "amount_to_avg_ratio"] →
        df_lookup df' c = df_lookup df c)
  ∧ ∀ c, c ∈ columns df'
         ↔ c ∈ ["amount_log"; "amount_category"; "amount_to_avg_ratio"] ∨ c ∈ columns df.
Proof.
  unfold create_amount_features, mbind, result_bind. intros Hrun. peel Hrun.
  injection Hrun as <-. split; [intros c Hc; kept Hc | labels].
Qed.

Lemma create_velocity_features_keeps df df' :
  create_velocity_features df = Ok df' →
  (∀ c, c ∉ ["is_high_frequency_24h"; "is_high_frequency_7d"; "time_since_last_cat"] →
        df_lookup df' c = df_lookup df c)
  ∧ ∀ c, c ∈ columns df'
         ↔ c ∈ ["is_high_frequency_24h"; "is_high_frequency_7d"; "time_since_last_cat"]
           ∨ c ∈ columns df.
Proof.
  unfold create_velocity_features, mbind, result_bind. intros Hrun. peel Hrun.
  injection Hrun as <-. split; [intros c Hc; kept Hc | labels].
Qed.

Lemma create_distance_features_keeps df df' :
  create_distance_features df = Ok df' →
  (∀ c, c ∉ ["distance_home_cat"; "is_far_from_home"; "is_far_from_last"] →
        df_lookup df' c = df_lookup df c)
  ∧ ∀ c, c ∈ columns df'
         ↔ c ∈ ["distance_home_cat"; "is_far_from_home"; "is_far_from_last"]
           ∨ c ∈ columns df.
Proof.
  unfold create_distance_features, mbind, result_bind. intros Hrun. peel Hrun.
  injection Hrun as <-. split; [intros c Hc; kept Hc | labels].
Qed.

Lemma create_risk_score_keeps df df' :
  create_risk_score df = Ok df' →
  (∀ c, c ∉ ["risk_score"] → df_lookup df' c = df_lookup df c)
  ∧ ∀ c, c ∈ columns df' ↔ c ∈ ["risk_score"] ∨ c ∈ columns df.
Proof.
  unfold create_risk_score, mbind, result_bind. intros Hrun. peel Hrun.
  injection Hrun as <-. split; [intros c Hc; kept Hc | labels].
Qed.

Lemma create_temporal_features_keeps `{Pandas} df df' :
  create_temporal_features df "timestamp" = Ok df' →
  (∀ c, c ∉ ["hour"; "day_of_week"; "day_of_month"; "is_weekend"; "time_of_day";
             "is_peak_hour"] →
        c ≠ "timestamp" → df_lookup df' c = df_lookup df c)
  ∧ ∀ c, c ∈ columns df'
         ↔ ("timestamp" ∈ columns df
            ∧ c ∈ ["hour"; "day_of_week"; "day_of_month"; "is_weekend"; "time_of_day";
                   "is_peak_hour"])
           ∨ c ∈ columns df.
Proof.
  unfold create_temporal_features. destruct (decide ("timestamp" ∈ columns df)) as [Hts|Hts].
  2:{ intros [= <-]. split; [done|]. tauto. }
  unfold temporal_block, mbind, result_bind.
  destruct (df_getitem df "timestamp") as [ts|]; [|done].
  destruct (is_datetime64_any_dtype ts).
  - intros Hrun. peel Hrun. injection Hrun as <-. split.
    + intros c Hc _. kept Hc.
    + intros c. rewrite !columns_setitem, !elem_of_cons, elem_of_nil. tauto.
  - destruct (to_datetime ts) as [parsed|]; [|done].
    intros Hrun. peel Hrun. injection Hrun as <-. split.
    + intros c Hc Hne. rewrite !df_lookup_setitem_ne; [done|try done..];
        intros <-; apply Hc; by_compute.
    + intros c. rewrite !columns_setitem, !elem_of_cons, elem_of_nil.
      split; [|tauto]. intros Hc.
      repeat (destruct Hc as [->|Hc]; [tauto|]). tauto.
Qed.

(** X27: when [FeatureEngineer.fit_transform] returns, every column of
    the input other than [timestamp] and the sixteen engineered names holds
    the cells it held, every input column is still a column, and every
    column of the result is an input column or an engineered one. *)
Theorem raw_columns_survive `{NumPy} `{Pandas} (df df' : DataFrame) :
  fit_transform df = Ok df' →
  (∀ c, c ∉ engineered_columns → c ≠ "timestamp" → df_lookup df' c = df_lookup df c)
  ∧ (∀ c, c ∈ columns df → c ∈ columns df')
  ∧ (∀ c, c ∈ columns df' → c ∈ columns df ∨ c ∈ engineered_columns).
Proof.
  unfold fit_transform, mbind, result_bind. intros Hrun.
  destruct (create_amount_features df) as [d1|] eqn:E1; [|done].
  destruct (create_temporal_features d1 "timestamp") as [d2|] eqn:E2; [|done].
  destruct (create_velocity_features d2) as [d3|] eqn:E3; [|done].
  destruct (create_distance_features d3) as [d4|] eqn:E4; [|done].
  apply create_amount_features_keeps in E1 as [K1 C1].
  apply create_temporal_features_keeps in E2 as [K2 C2].
  apply create_velocity_features_keeps in E3 as [K3 C3].
  apply create_distance_features_keeps in E4 as [K4 C4].
  apply create_risk_score_keeps in Hrun as [K5 C5].
  assert (∀ (c : string) (names : list string),
            names ⊆ engineered_columns → c ∉ engineered_columns → c ∉ names) as Hsub.
  { intros c names Hn Hc Hin. by apply Hc, Hn. }
  split; [|split].
  - intros c Hc Hts.
    rewrite K5, K4, K3, K2, K1; first [done | apply Hsub; [|done]];
      apply (bool_decide_unpack _); vm_compute; exact I.
  - intros c Hc. apply C5, or_intror, C4, or_intror, C3, or_intror, C2, or_intror, C1.
    by right.
  - intros c Hc. unfold engineered_columns. rewrite !elem_of_cons.
    apply C5 in Hc as [Hc|Hc]; [rewrite !elem_of_cons in Hc; tauto|].
    apply C4 in Hc as [Hc|Hc]; [rewrite !elem_of_cons in Hc; tauto|].
    apply C3 in Hc as [Hc|Hc]; [rewrite !elem_of_cons in Hc; tauto|].
    apply C2 in Hc as [[_ Hc]|Hc]; [rewrite !elem_of_cons in Hc; tauto|].
    apply C1 in Hc as [Hc|Hc]; [rewrite !elem_of_cons in Hc; tauto|]. by left.
Qed.

Lemma raw_columns_survive_witness :
  ∃ df',
    @fit_transform Sample.numpy Sample.pandas Fixture.raw_batch = Ok df'
    ∧ df_lookup df' "customer_age" = df_lookup Fixture.raw_batch "customer_age".
Proof.
  destruct (@fit_transform Sample.numpy Sample.pandas Fixture.raw_batch) as [df'|] eqn:Hrun;
    [|by vm_compute in Hrun].
  exists df'. split; [done|].
  apply (raw_columns_survive (H := Sample.numpy) (H0 := Sample.pandas)
           Fixture.raw_batch df' Hrun); [by_compute | done].
Defined.
End raw_columns.
